(** * The Connect planner and the USB host power-cycle supervisor

    A shallow embedding of [src/connect/planner.cpp] (the decision engine of
    the printer side of the Connect protocol) and of the [usbh_power_cycle]
    namespace of the USB host glue code, together with the properties the
    specification states about them.

    Conventions of the embedding:
    - [Timestamp] and [Duration] are unsigned 32-bit millisecond counters,
      modelled as [Z] with the wrap-around written out ([wrap32]);
      [failed_attempts] is a [uint8_t], wrapped by [wrap8];
    - [std::optional] is [option], [std::variant] an inductive type;
    - a C string is modelled by the characters before its terminator;
    - the collaborators the planner talks to (printer, transfer monitor,
      transfer engine, file system, clock) answer through an [Env] record;
      every call made to them is written to a log, in program order;
    - [assert] is a check: a violated assertion ends the run ([None]). *)

From Stdlib Require Import ZArith Bool List Lia.
From Stdlib Require Import Ascii String.
Import ListNotations.

Open Scope string_scope.
Open Scope Z_scope.

(** ** C string primitives used by [path_allowed] *)

Module CString.

Definition code (c : ascii) : Z := Z.of_N (N_of_ascii c).

Fixpoint strlen (s : string) : nat :=
  match s with
  | EmptyString => O
  | String _ r => S (strlen r)
  end.

(** [strncmp a b n]: compares at most [n] characters; the result is the
    difference of the first pair of characters that differ (the terminator
    counting as 0), and 0 when there is none. *)
Fixpoint strncmp (a b : string) (n : nat) {struct n} : Z :=
  match n with
  | O => 0
  | S n' =>
      match a, b with
      | EmptyString, EmptyString => 0
      | EmptyString, String cb _ => 0 - code cb
      | String ca _, EmptyString => code ca - 0
      | String ca ra, String cb rb =>
          if Ascii.eqb ca cb then strncmp ra rb n' else code ca - code cb
      end
  end.

Fixpoint strcmp (a b : string) : Z :=
  match a, b with
  | EmptyString, EmptyString => 0
  | EmptyString, String cb _ => 0 - code cb
  | String ca _, EmptyString => code ca - 0
  | String ca ra, String cb rb =>
      if Ascii.eqb ca cb then strcmp ra rb else code ca - code cb
  end.

(** [starts_with needle hay]: [needle] is found at the very start of
    [hay]. *)
Fixpoint starts_with (needle hay : string) : bool :=
  match needle, hay with
  | EmptyString, _ => true
  | String _ _, EmptyString => false
  | String cn rn, String ch rh => Ascii.eqb cn ch && starts_with rn rh
  end.

(** [strstr hay needle]: the offset of the first occurrence of [needle]
    in [hay], [None] standing for the null pointer. *)
Fixpoint strstr (hay needle : string) : option nat :=
  if starts_with needle hay then Some O
  else match hay with
       | EmptyString => None
       | String _ rest => option_map S (strstr rest needle)
       end.

(** No character of the string is the terminator. *)
Fixpoint no_nul (s : string) : bool :=
  match s with
  | EmptyString => true
  | String c r => negb (Z.eqb (code c) 0) && no_nul r
  end.

(** What the specification calls starting with and containing. *)
Definition has_prefix (pre s : string) : Prop := exists r, s = pre ++ r.
Definition has_substring (sub s : string) : Prop :=
  exists a b, s = a ++ sub ++ b.

End CString.

(** ** The planner: [namespace connect_client] *)

Module connect_client.

(** *** Machine integers

    Modelled from the spec: [Timestamp] and [Duration] are declared in
    planner.hpp, which is absent. Section 3 of the specification makes them
    unsigned, wrapping millisecond counters; the firmware keeps its
    millisecond counter in a [uint32_t] (see [one_click_print_timeout] in
    the USB host code), which gives the width. [failed_attempts] is the
    [uint8_t] the constant it is compared with suggests. *)

Definition wrap32 (z : Z) : Z := z mod 2 ^ 32.
Definition wrap8 (z : Z) : Z := z mod 2 ^ 8.

(** All timestamps and durations are in milliseconds. *)
Definition Timestamp : Type := Z.
Definition Duration : Type := Z.
Definition CommandId : Type := Z.
Definition TransferId : Type := Z.
Definition Hash : Type := Z.

(** *** Constants of the anonymous namespace *)

Definition COOLDOWN_BASE : Duration := 100.
Definition COOLDOWN_MAX : Duration := 1000 * 60.
Definition TELEMETRY_INTERVAL_LONG : Duration := 1000 * 4.
Definition TELEMETRY_INTERVAL_SHORT : Duration := 1000.
Definition RECONNECT_AFTER : Duration := 1000 * 10.
Definition GIVE_UP_AFTER_ATTEMPTS : Z := 5.

(** *** [path_allowed] *)

Definition usb : string := "/usb/".

Definition path_allowed (path : string) : bool :=
  let is_on_usb :=
    Z.eqb (CString.strncmp path usb (CString.strlen usb)) 0
    || Z.eqb (CString.strcmp path "/usb") 0 in
  let contains_upper :=
    match CString.strstr path "/../" with Some _ => true | None => false end in
  is_on_usb && negb contains_upper.

(** *** Events, commands, actions

    The enumerators of [EventType] are those [to_str] switches over; the
    record and variant types below are declared in planner.hpp, command.hpp
    and printer.hpp, and are read off the way planner.cpp builds and
    takes apart their values. *)

Module EventType.
Inductive t : Type :=
| Info | Accepted | Rejected | JobInfo | FileInfo | TransferInfo
| Finished | Failed | TransferStopped | TransferAborted | TransferFinished.

Definition eqb (a b : t) : bool :=
  match a, b with
  | Info, Info | Accepted, Accepted | Rejected, Rejected
  | JobInfo, JobInfo | FileInfo, FileInfo | TransferInfo, TransferInfo
  | Finished, Finished | Failed, Failed
  | TransferStopped, TransferStopped | TransferAborted, TransferAborted
  | TransferFinished, TransferFinished => true
  | _, _ => false
  end.
End EventType.

(** Modelled from the spec: [struct Event] of planner.hpp (section 3 of
    the specification lists its fields); the order of the first six
    fields is the one of the aggregate initialisers of planner.cpp. A
    [const char *] reason is an [option string], [None] being [nullptr]. *)
Record Event : Type := mkEvent {
  type : EventType.t;
  command_id : option CommandId;
  job_id : option Z;
  path : option string;
  transfer_id : option TransferId;
  reason : option string;
  info_rescan_files : bool;
  start_cmd_id : option CommandId
}.

(** [Event { type, command_id, job_id, path, transfer_id, reason }]: the
    members left out of a braced initialiser take their defaults. *)
Definition Event_ (ty : EventType.t) (cid : option CommandId)
    (job : option Z) (pth : option string) (tid : option TransferId)
    (rsn : option string) : Event :=
  mkEvent ty cid job pth tid rsn false None.

Definition Event1 (ty : EventType.t) : Event :=
  Event_ ty None None None None None.
Definition Event2 (ty : EventType.t) (cid : option CommandId) : Event :=
  Event_ ty cid None None None None.

Definition with_info_rescan_files (b : bool) (e : Event) : Event :=
  mkEvent (type e) (command_id e) (job_id e) (path e) (transfer_id e)
          (reason e) b (start_cmd_id e).
Definition with_transfer_id (t : option TransferId) (e : Event) : Event :=
  mkEvent (type e) (command_id e) (job_id e) (path e) t
          (reason e) (info_rescan_files e) (start_cmd_id e).
Definition with_start_cmd_id (c : option CommandId) (e : Event) : Event :=
  mkEvent (type e) (command_id e) (job_id e) (path e) (transfer_id e)
          (reason e) (info_rescan_files e) c.

Module ActionResult.
Inductive t : Type := Ok | Refused | Failed.
End ActionResult.

(** planner.hpp is absent; the assertion of [background_done] shows that
    the enumeration has values besides [Success] and [Failure], [More]
    stands for them. *)
Inductive BackgroundResult : Type := Success | Failure | More.

Inductive JobControl : Type := Pause | Resume | Stop.

Inductive CommandData : Type :=
| UnknownCommand
| BrokenCommand (reason : option string)
| GcodeTooLarge
| ProcessingOtherCommand
| ProcessingThisCommand
| Gcode (gcode : string) (size : Z)
| PausePrint
| ResumePrint
| StopPrint
| StartPrint (path : string)
| SendInfo
| SendJobInfo (job_id : Z)
| SendFileInfo (path : string)
| SendTransferInfo
| SetPrinterReady
| CancelPrinterReady
| StartConnectDownload (team : Z) (hash : string) (path : string).

Record Command : Type := mkCommand {
  id : CommandId;
  command_data : CommandData
}.

(** [BackgroundGcode { gcode, size, position }], the only background
    command there is. *)
Inductive BackgroundCmd : Type :=
| BackgroundGcode (gcode : string) (size : Z) (position : Z).

Record BackgroundCommand : Type := mkBackgroundCommand {
  bg_id : CommandId;
  bg_command : BackgroundCmd
}.

(** A running download is opaque to the planner: a handle. *)
Definition Download : Type := Z.

(** [Sleep(amount, cmd, down)]: the two pointers are the background
    command and the download the sleeper may work on, [None] for
    [nullptr]. *)
Inductive Sleep : Type :=
| mkSleep (milliseconds : Duration) (cmd : option BackgroundCmd)
          (down : option Download).

Inductive Action : Type :=
| ActEvent (e : Event)
| SendTelemetry (empty : bool)
| ActSleep (s : Sleep).

(** *** Collaborators *)

(** [Monitor::Outcome]. *)
Module Outcome.
Inductive t : Type := Finished | Error | Stopped.
End Outcome.

Record Config : Type := mkConfig {
  host : string;
  port : Z;
  token : string;
  tls : bool
}.

(** The variant [Download::start_connect_download] returns. *)
Inductive DownloadResult : Type :=
| Started (d : Download)
| NoTransferSlot
| AlreadyExists
| RefusedRequest
| Storage (msg : option string).

(** The answers of the collaborators during one call of a planner
    method. *)
Record Env : Type := mkEnv {
  clock : Timestamp;                             (* now() *)
  info_fingerprint : Hash;                   (* printer.info_fingerprint() *)
  files_hash : Hash;                             (* printer.files_hash() *)
  is_printing : bool;                            (* printer.is_printing() *)
  job_control : JobControl -> bool;              (* printer.job_control(op) *)
  start_print : string -> bool;                  (* printer.start_print(path) *)
  set_ready : bool -> bool;                      (* printer.set_ready(ready) *)
  config : bool -> Config * bool;                (* printer.config(reset) *)
  fingerprint : string;             (* printer.printer_info().fingerprint *)
  FINGERPRINT_HDR_SIZE : Z;                      (* Printer::PrinterInfo:: *)
  stat_ok : string -> bool;                      (* stat(path, &st) == 0 *)
  monitor_id : option TransferId;                (* Monitor::instance.id() *)
  monitor_outcome : TransferId -> option Outcome.t;
                                       (* Monitor::instance.outcome(id) *)
  start_connect_download :
    string -> Z -> string -> string -> string -> string -> Z -> DownloadResult
}.

(** The calls that reach a collaborator. *)
Inductive Call : Type :=
| CallInfoFingerprint
| CallFilesHash
| CallIsPrinting
| CallJobControl (op : JobControl)
| CallStartPrint (path : string)
| CallSetReady (ready : bool)
| CallConfig (reset_changed : bool)
| CallPrinterInfo
| CallStat (path : string)
| CallMonitorId
| CallMonitorOutcome (id : TransferId)
| CallStartConnectDownload (host : string) (port : Z) (url_path : string)
    (dest : string) (token : string) (fingerprint : string)
    (fingerprint_size : Z).

(** *** Change tracker *)

(** Modelled from the spec: the Change Tracker of changes.hpp, which is
    absent. The planner is written against its four operations (section
    4.1 of the specification); [set_hash] returns the verdict together
    with the updated tracker. *)
Class ChangeTracker (T : Type) : Type := {
  set_hash : Hash -> T -> bool * T;
  mark_dirty : T -> T;
  mark_clean : T -> T;
  is_dirty : T -> bool
}.

(** Modelled from the spec: a tracker in the words of sections 2 and 4.1:
    it compares the observed hash against the last reported one and stays
    dirty until cleared; [mark_clean] records the last observed hash as
    reported. *)
Record Tracked : Type := mkTracked {
  observed : Hash;
  reported : Hash;
  dirty : bool
}.

#[export] Instance Tracked_ops : ChangeTracker Tracked := {
  set_hash h t :=
    let changed := negb (Z.eqb h (reported t)) in
    (changed, mkTracked h (reported t) (dirty t || changed));
  mark_dirty t := mkTracked (observed t) (reported t) true;
  mark_clean t := mkTracked (observed t) (observed t) false;
  is_dirty t := dirty t
}.

(** *** The planner state *)

Section Planner.

Context {T : Type} {tracker : ChangeTracker T}.

(** The data members of [class Planner] (section 3 of the specification
    lists them); the [printer] reference is answered by [Env]. *)
Record Planner : Type := mkPlanner {
  planned_event : option Event;
  last_telemetry : option Timestamp;
  last_success : option Timestamp;
  cooldown : option Duration;
  perform_cooldown : bool;
  failed_attempts : Z;
  info_changes : T;
  file_changes : T;
  background_command : option BackgroundCommand;
  download : option Download;
  observed_transfer : option TransferId;
  transfer_start_cmd : option CommandId
}.

Definition set_planned_event (v : option Event) (p : Planner) : Planner :=
  mkPlanner v (last_telemetry p) (last_success p) (cooldown p)
    (perform_cooldown p) (failed_attempts p) (info_changes p)
    (file_changes p) (background_command p) (download p)
    (observed_transfer p) (transfer_start_cmd p).

Definition set_last_telemetry (v : option Timestamp) (p : Planner)
    : Planner :=
  mkPlanner (planned_event p) v (last_success p) (cooldown p)
    (perform_cooldown p) (failed_attempts p) (info_changes p)
    (file_changes p) (background_command p) (download p)
    (observed_transfer p) (transfer_start_cmd p).

Definition set_last_success (v : option Timestamp) (p : Planner) : Planner :=
  mkPlanner (planned_event p) (last_telemetry p) v (cooldown p)
    (perform_cooldown p) (failed_attempts p) (info_changes p)
    (file_changes p) (background_command p) (download p)
    (observed_transfer p) (transfer_start_cmd p).

Definition set_cooldown (v : option Duration) (p : Planner) : Planner :=
  mkPlanner (planned_event p) (last_telemetry p) (last_success p) v
    (perform_cooldown p) (failed_attempts p) (info_changes p)
    (file_changes p) (background_command p) (download p)
    (observed_transfer p) (transfer_start_cmd p).

Definition set_perform_cooldown (v : bool) (p : Planner) : Planner :=
  mkPlanner (planned_event p) (last_telemetry p) (last_success p)
    (cooldown p) v (failed_attempts p) (info_changes p) (file_changes p)
    (background_command p) (download p) (observed_transfer p)
    (transfer_start_cmd p).

Definition set_failed_attempts (v : Z) (p : Planner) : Planner :=
  mkPlanner (planned_event p) (last_telemetry p) (last_success p)
    (cooldown p) (perform_cooldown p) v (info_changes p) (file_changes p)
    (background_command p) (download p) (observed_transfer p)
    (transfer_start_cmd p).

Definition set_info_changes (v : T) (p : Planner) : Planner :=
  mkPlanner (planned_event p) (last_telemetry p) (last_success p)
    (cooldown p) (perform_cooldown p) (failed_attempts p) v (file_changes p)
    (background_command p) (download p) (observed_transfer p)
    (transfer_start_cmd p).

Definition set_file_changes (v : T) (p : Planner) : Planner :=
  mkPlanner (planned_event p) (last_telemetry p) (last_success p)
    (cooldown p) (perform_cooldown p) (failed_attempts p) (info_changes p) v
    (background_command p) (download p) (observed_transfer p)
    (transfer_start_cmd p).

Definition set_background_command (v : option BackgroundCommand) (p : Planner)
    : Planner :=
  mkPlanner (planned_event p) (last_telemetry p) (last_success p)
    (cooldown p) (perform_cooldown p) (failed_attempts p) (info_changes p)
    (file_changes p) v (download p) (observed_transfer p)
    (transfer_start_cmd p).

Definition set_download (v : option Download) (p : Planner) : Planner :=
  mkPlanner (planned_event p) (last_telemetry p) (last_success p)
    (cooldown p) (perform_cooldown p) (failed_attempts p) (info_changes p)
    (file_changes p) (background_command p) v (observed_transfer p)
    (transfer_start_cmd p).

Definition set_observed_transfer (v : option TransferId) (p : Planner)
    : Planner :=
  mkPlanner (planned_event p) (last_telemetry p) (last_success p)
    (cooldown p) (perform_cooldown p) (failed_attempts p) (info_changes p)
    (file_changes p) (background_command p) (download p) v
    (transfer_start_cmd p).

Definition set_transfer_start_cmd (v : option CommandId) (p : Planner)
    : Planner :=
  mkPlanner (planned_event p) (last_telemetry p) (last_success p)
    (cooldown p) (perform_cooldown p) (failed_attempts p) (info_changes p)
    (file_changes p) (background_command p) (download p)
    (observed_transfer p) v.

(** *** A monad for the planner's methods

    A method reads the collaborators' answers, updates the planner, logs
    the calls it makes, and stops on a violated assertion. *)

Definition M (A : Type) : Type :=
  Env -> Planner -> option (A * Planner * list Call).

Definition ret {A} (a : A) : M A := fun _ p => Some (a, p, []).

Definition bind {A B} (m : M A) (f : A -> M B) : M B :=
  fun e p =>
    match m e p with
    | None => None
    | Some (a, p1, l1) =>
        match f a e p1 with
        | None => None
        | Some (b, p2, l2) => Some (b, p2, (l1 ++ l2)%list)
        end
    end.

Notation "x <- m ;; k" := (bind m (fun x => k))
  (at level 61, m at next level, right associativity).
Notation "m ;; k" := (bind m (fun _ => k))
  (at level 61, right associativity).

Definition get : M Planner := fun _ p => Some (p, p, []).
Definition modify (f : Planner -> Planner) : M unit :=
  fun _ p => Some (tt, f p, []).
(** [assert(b)] as in a build with assertions on: a violated assertion
    stops the method, which then returns nothing. A build with [NDEBUG]
    would go on instead; a property that needs an assertion to hold takes
    it as a hypothesis. *)
Definition assert (b : bool) : M unit :=
  fun _ p => if b then Some (tt, p, []) else None.
Definition call {A} (c : Call) (answer : Env -> A) : M A :=
  fun e p => Some (answer e, p, [c]).
Definition now : M Timestamp := fun e p => Some (clock e, p, []).

Definition has_value {A} (o : option A) : bool :=
  match o with Some _ => true | None => false end.

Definition value_or {A} (o : option A) (d : A) : A :=
  match o with Some a => a | None => d end.

Definition option_Z_eqb (a b : option Z) : bool :=
  match a, b with
  | Some x, Some y => Z.eqb x y
  | None, None => true
  | _, _ => false
  end.

(** [since(past_event)]: the subtraction is unsigned and may wrap. *)
Definition since (past_event : option Timestamp) : M (option Duration) :=
  match past_event with
  | Some past => n <- now ;; ret (Some (wrap32 (n - past)))
  | None => ret None
  end.

Definition read {A} (answer : Env -> A) : M A :=
  fun e p => Some (answer e, p, []).

(** [planned_event = e]. *)
Definition plan (e : Event) : M unit := modify (set_planned_event (Some e)).

(** A block of a method that may [return] early: [Some a] is the value
    returned, [None] falls through to the code after the block. *)
Definition or_else {A} (block : M (option A)) (rest : M A) : M A :=
  r <- block ;;
  match r with
  | Some a => ret a
  | None => rest
  end.

(** *** [Planner::reset] *)

Definition reset : M unit :=
  modify (fun p => set_info_changes (mark_dirty (info_changes p)) p) ;;
  modify (set_last_telemetry None) ;;
  modify (set_cooldown None) ;;
  modify (set_perform_cooldown false) ;;
  modify (set_failed_attempts 0).

(** *** [Planner::sleep] *)

Definition sleep (amount : Duration) : M Sleep :=
  p <- get ;;
  let has_event := has_value (planned_event p) in
  let cmd :=
    match background_command p with
    | Some bc => if negb has_event then Some (bg_command bc) else None
    | None => None
    end in
  let down := download p in
  ret (mkSleep amount cmd down).

(** *** [Planner::next_action]

    The method is a chain of blocks, the first that returns wins. *)

(** [if (perform_cooldown) { ... return sleep(cooldown.value()); }] *)
Definition cooldown_pending : M (option Action) :=
  p <- get ;;
  if perform_cooldown p then
    modify (set_perform_cooldown false) ;;
    assert (has_value (cooldown p)) ;;
    s <- sleep (value_or (cooldown p) 0) ;;
    ret (Some (ActSleep s))
  else ret None.

(** [if (planned_event.has_value()) { return *planned_event; }] *)
Definition event_pending : M (option Action) :=
  p <- get ;;
  match planned_event p with
  | Some e => ret (Some (ActEvent e))
  | None => ret None
  end.

(** [info_changes.set_hash(printer.info_fingerprint())] *)
Definition probe_info : M bool :=
  h <- call CallInfoFingerprint info_fingerprint ;;
  p <- get ;;
  modify (set_info_changes (snd (set_hash h (info_changes p)))) ;;
  ret (fst (set_hash h (info_changes p))).

(** [file_changes.set_hash(printer.files_hash())] *)
Definition probe_files : M bool :=
  h <- call CallFilesHash files_hash ;;
  p <- get ;;
  modify (set_file_changes (snd (set_hash h (file_changes p)))) ;;
  ret (fst (set_hash h (file_changes p))).

(** The [||] evaluates its right operand only when the left one is
    false. *)
Definition info_due : M (option Action) :=
  info_changed <- probe_info ;;
  changed <- (if info_changed : bool then ret true else probe_files) ;;
  if changed : bool then
    p <- get ;;
    let e := Event1 EventType.Info in
    let e := if is_dirty (file_changes p)
             then with_info_rescan_files true e else e in
    plan e ;;
    ret (Some (ActEvent e))
  else ret None.

Definition terminal_type (outcome : Outcome.t) : EventType.t :=
  match outcome with
  | Outcome.Finished => EventType.TransferFinished
  | Outcome.Error => EventType.TransferAborted
  | Outcome.Stopped => EventType.TransferStopped
  end.

(** [if (auto current_transfer = Monitor::instance.id();
         observed_transfer != current_transfer) { ... }] *)
Definition transfer_edge : M (option Action) :=
  current_transfer <- call CallMonitorId monitor_id ;;
  p <- get ;;
  if negb (option_Z_eqb (observed_transfer p) current_transfer) then
    let terminated_transfer := observed_transfer p in
    outcome <- match terminated_transfer with
               | Some t =>
                   call (CallMonitorOutcome t) (fun e => monitor_outcome e t)
               | None => ret None
               end ;;
    modify (set_observed_transfer current_transfer) ;;
    match outcome with
    | Some o =>
        (* [*terminated_transfer]: not nullopt, or there were no outcome *)
        let e := with_transfer_id terminated_transfer
                   (Event1 (terminal_type o)) in
        let e := with_start_cmd_id (transfer_start_cmd p) e in
        plan e ;;
        modify (set_transfer_start_cmd None) ;;
        ret (Some (ActEvent e))
    | None => ret None
    end
  else ret None.

Definition telemetry : M Action :=
  p <- get ;;
  since_telemetry <- since (last_telemetry p) ;;
  match since_telemetry with
  | Some st =>
      printing <- call CallIsPrinting is_printing ;;
      let telemetry_interval :=
        if printing || has_value (background_command p)
        then TELEMETRY_INTERVAL_SHORT else TELEMETRY_INTERVAL_LONG in
      if telemetry_interval <=? st then ret (SendTelemetry false)
      else
        s <- sleep (wrap32 (telemetry_interval - st)) ;;
        ret (ActSleep s)
  | None => ret (SendTelemetry false)
  end.

Definition next_action : M Action :=
  or_else cooldown_pending
    (or_else event_pending
       (or_else info_due
          (or_else transfer_edge telemetry))).

(** *** [Planner::action_done] *)

(** [case ActionResult::Refused: case ActionResult::Ok:] *)
Definition action_done_ok : M unit :=
  n <- now ;;
  modify (set_last_success (Some n)) ;;
  modify (set_perform_cooldown false) ;;
  modify (set_cooldown None) ;;
  modify (set_failed_attempts 0) ;;
  p <- get ;;
  match planned_event p with
  | Some e =>
      (if EventType.eqb (type e) EventType.Info then
         modify (fun p => set_info_changes (mark_clean (info_changes p)) p) ;;
         if info_rescan_files e then
           modify (fun p => set_file_changes (mark_clean (file_changes p)) p)
         else ret tt
       else ret tt) ;;
      modify (set_planned_event None) ;;
      modify (set_last_telemetry None)
  | None => modify (set_last_telemetry (Some n))
  end.

(** [if (++failed_attempts >= GIVE_UP_AFTER_ATTEMPTS) { ... }] *)
Definition giveup : M unit :=
  modify (fun p => set_failed_attempts (wrap8 (failed_attempts p + 1)) p) ;;
  p <- get ;;
  if GIVE_UP_AFTER_ATTEMPTS <=? failed_attempts p then
    (match planned_event p with
     | Some e =>
         if negb (EventType.eqb (type e) EventType.Info)
         then modify (set_planned_event None)
         else ret tt
     | None => ret tt
     end) ;;
    modify (set_failed_attempts 0)
  else ret tt.

(** [if (const auto since_success = since(last_success);
         since_success.value_or(0) >= RECONNECT_AFTER
         && !planned_event.has_value()) { ... }] *)
Definition reconnect : M unit :=
  p <- get ;;
  since_success <- since (last_success p) ;;
  if (RECONNECT_AFTER <=? value_or since_success 0)
     && negb (has_value (planned_event p)) then
    plan (Event1 EventType.Info) ;;
    modify (set_last_success None)
  else ret tt.

(** [cooldown = min(COOLDOWN_MAX, cooldown.value_or(COOLDOWN_BASE / 2) * 2);
     perform_cooldown = true;] *)
Definition back_off : M unit :=
  modify (fun p =>
    set_cooldown
      (Some (Z.min COOLDOWN_MAX
               (wrap32 (value_or (cooldown p) (COOLDOWN_BASE / 2) * 2)))) p) ;;
  modify (set_perform_cooldown true).

Definition action_done (result : ActionResult.t) : M unit :=
  match result with
  | ActionResult.Refused
  | ActionResult.Ok => action_done_ok
  | ActionResult.Failed => giveup ;; reconnect ;; back_off
  end.

(** *** [Planner::command]: the handlers, one per variant *)

Definition rejected (command : Command) (reason : option string) : Event :=
  Event_ EventType.Rejected (Some (id command)) None None None reason.

(** The [JC] macro: [PausePrint], [ResumePrint], [StopPrint]. *)
Definition JC (CMD : JobControl) (REASON : string) (command : Command)
    : M unit :=
  ok <- call (CallJobControl CMD) (fun e => job_control e CMD) ;;
  if ok : bool then plan (Event2 EventType.Finished (Some (id command)))
  else plan (rejected command (Some REASON)).

Definition command_StartPrint (command : Command) (path : string) : M unit :=
  reason <-
    (if negb (path_allowed path) then ret (Some "Forbidden path")
     else
       path_exists <- call (CallStat path) (fun e => stat_ok e path) ;;
       if negb path_exists then ret (Some "File not found")
       else
         started <- call (CallStartPrint path) (fun e => start_print e path) ;;
         if negb started then ret (Some "Can't print now")
         else ret None) ;;
  match reason with
  | None => plan (Event2 EventType.Finished (Some (id command)))
  | Some _ => plan (rejected command reason)
  end.

Definition command_SetPrinterReady (command : Command) : M unit :=
  ok <- call (CallSetReady true) (fun e => set_ready e true) ;;
  let result := if ok : bool then EventType.Finished else EventType.Rejected in
  let reason := if EventType.eqb result EventType.Rejected
                then Some "Can't set ready now" else None in
  plan (Event_ result (Some (id command)) None None None reason).

Definition command_CancelPrinterReady (command : Command) : M unit :=
  ok <- call (CallSetReady false) (fun e => set_ready e false) ;;
  (* Setting _not_ ready can't fail. *)
  assert ok ;;
  plan (Event2 EventType.Finished (Some (id command))).

(** [snprintf] with [PRIu64]: the decimal digits of a 64-bit unsigned
    number, at most 20 of them. *)
Definition digit (d : Z) : ascii := ascii_of_nat (48 + Z.to_nat d).

Fixpoint decimal (width : nat) (n : Z) : string :=
  match width with
  | O => ""
  | S w =>
      (if n <? 10 then "" else decimal w (n / 10))
      ++ String (digit (n mod 10)) ""
  end.

Definition PRIu64 (n : Z) : string := decimal 20 (n mod 2 ^ 64).

Definition command_StartConnectDownload (command : Command)
    (team : Z) (hash : string) (dest : string) : M unit :=
  (* Get the config; don't reset the "changed" flag. *)
  cfg <- call (CallConfig false) (fun e => config e false) ;;
  let config := fst cfg in
  let config_changed := snd cfg in
  if config_changed then plan (rejected command (Some "Switching config"))
  else if tls config then
    plan (rejected command (Some "Encryption of downloads not supported"))
  else
    fingerprint <- call CallPrinterInfo fingerprint ;;
    fingerprint_size <- read FINGERPRINT_HDR_SIZE ;;
    let prefix := "/p/teams/" in
    let infix := "/files/" in
    let suffix := "/raw" in
    let buffer_len :=
      (CString.strlen prefix + 21 + CString.strlen infix
       + CString.strlen hash + CString.strlen suffix + 1)%nat in
    let path := prefix ++ PRIu64 team ++ infix ++ hash ++ suffix in
    let written := CString.strlen path in
    assert (Nat.ltb written buffer_len) ;;
    down_result <-
      call (CallStartConnectDownload (host config) (port config) path dest
              (token config) fingerprint fingerprint_size)
           (fun e => start_connect_download e (host config) (port config)
                       path dest (token config) fingerprint
                       fingerprint_size) ;;
    match down_result with
    | Started arg =>
        p <- get ;;
        assert (negb (has_value (download p))) ;;
        modify (set_download (Some arg)) ;;
        plan (Event2 EventType.Finished (Some (id command))) ;;
        modify (set_transfer_start_cmd (Some (id command)))
    | NoTransferSlot =>
        plan (rejected command (Some "Another transfer in progress"))
    | AlreadyExists =>
        plan (rejected command (Some "File already exists"))
    | RefusedRequest =>
        plan (rejected command (Some "Failed to download"))
    | Storage msg =>
        plan (rejected command msg)
    end.

(** The overload [visit] selects for the alternative held by
    [command.command_data]. *)
Definition command_visit (command : Command) (arg : CommandData) : M unit :=
  match arg with
  | UnknownCommand => plan (rejected command (Some "Unknown command"))
  | BrokenCommand reason => plan (rejected command reason)
  | GcodeTooLarge => plan (rejected command (Some "GCode too large"))
  | ProcessingOtherCommand =>
      plan (rejected command (Some "Processing other command"))
  | Gcode gcode size =>
      modify (set_background_command
                (Some (mkBackgroundCommand (id command)
                         (BackgroundGcode gcode size 0)))) ;;
      plan (Event2 EventType.Accepted (Some (id command)))
  | PausePrint => JC Pause "No print to pause" command
  | ResumePrint => JC Resume "No paused print to resume" command
  | StopPrint => JC Stop "No print to stop" command
  | StartPrint path => command_StartPrint command path
  | SendInfo => plan (Event2 EventType.Info (Some (id command)))
  | SendJobInfo job =>
      plan (Event_ EventType.JobInfo (Some (id command)) (Some job)
              None None None)
  | SendFileInfo path =>
      if path_allowed path then
        plan (Event_ EventType.FileInfo (Some (id command)) None (Some path)
                None None)
      else plan (rejected command (Some "Forbidden path"))
  | SendTransferInfo =>
      plan (Event2 EventType.TransferInfo (Some (id command))) ;;
      p <- get ;;
      modify (set_planned_event
                (option_map (with_start_cmd_id (transfer_start_cmd p))
                   (planned_event p)))
  | SetPrinterReady => command_SetPrinterReady command
  | CancelPrinterReady => command_CancelPrinterReady command
  | ProcessingThisCommand => assert false
  | StartConnectDownload team hash dest =>
      command_StartConnectDownload command team hash dest
  end.

Definition holds_ProcessingThisCommand (d : CommandData) : bool :=
  match d with
  | ProcessingThisCommand => true
  | _ => false
  end.

(** [Planner::command(Command command)] *)
Definition command (command : Command) : M unit :=
  p <- get ;;
  assert (negb (has_value (planned_event p))) ;;
  if has_value (background_command p) then
    (* We are already processing a command. *)
    plan (Event2
            (if holds_ProcessingThisCommand (command_data command)
             then EventType.Accepted else EventType.Rejected)
            (Some (id command)))
  else command_visit command (command_data command).

(** *** Completion callbacks *)

Definition background_command_id (p : Planner) : option CommandId :=
  match background_command p with
  | Some bc => Some (bg_id bc)
  | None => None
  end.

Definition background_done (result : BackgroundResult) : M unit :=
  assert (match result with Success | Failure => true | More => false end) ;;
  p <- get ;;
  assert (negb (has_value (planned_event p))) ;;
  assert (has_value (background_command p)) ;;
  plan (Event2
          (match result with
           | Success => EventType.Finished
           | _ => EventType.Failed
           end)
          (background_command_id p)) ;;
  modify (set_background_command None).

Definition download_done : M unit :=
  p <- get ;;
  assert (has_value (download p)) ;;
  current <- call CallMonitorId monitor_id ;;
  modify (set_observed_transfer current) ;;
  (* Because download still holds the slot. *)
  assert (has_value current) ;;
  modify (set_download None).

(** *** Runs of the planner

    The driver calls the methods one after the other, each call seeing the
    collaborators as they are at that moment. *)

Inductive Op : Type :=
| OpReset
| OpNextAction
| OpActionDone (result : ActionResult.t)
| OpCommand (c : Command)
| OpBackgroundDone (result : BackgroundResult)
| OpDownloadDone.

Definition exec (op : Op) : M unit :=
  match op with
  | OpReset => reset
  | OpNextAction => next_action ;; ret tt
  | OpActionDone r => action_done r
  | OpCommand c => command c
  | OpBackgroundDone r => background_done r
  | OpDownloadDone => download_done
  end.

(** The planner after one call, [None] when an assertion fails. *)
Definition after (e : Env) (op : Op) (p : Planner) : option Planner :=
  match exec op e p with
  | Some (_, p', _) => Some p'
  | None => None
  end.

Fixpoint run (calls : list (Env * Op)) (p : Planner) : option Planner :=
  match calls with
  | [] => Some p
  | (e, op) :: rest =>
      match after e op p with
      | Some p' => run rest p'
      | None => None
      end
  end.

(** *** Vocabulary of the properties *)

(** [n] calls of [action_done(Failed)], one per environment. *)
Definition failures (es : list Env) : list (Env * Op) :=
  map (fun e => (e, OpActionDone ActionResult.Failed)) es.

(** What [obs] reads after each call of a run, up to the first violated
    assertion. *)
Fixpoint observe {A} (obs : Planner -> A) (calls : list (Env * Op))
    (p : Planner) : list A :=
  match calls with
  | [] => []
  | (e, op) :: rest =>
      match after e op p with
      | Some p' => obs p' :: observe obs rest p'
      | None => []
      end
  end.

(** The back-off of the specification: 100 ms doubled [k] times, capped. *)
Definition backoff (k : nat) : Duration :=
  Z.min COOLDOWN_MAX (COOLDOWN_BASE * 2 ^ Z.of_nat k).

(** The event left pending by the first block of [action_done(Failed)],
    which gives up on an event that failed too often. *)
Definition after_giveup (p : Planner) : option Event :=
  if GIVE_UP_AFTER_ATTEMPTS <=? wrap8 (failed_attempts p + 1) then
    match planned_event p with
    | Some ev =>
        if negb (EventType.eqb (type ev) EventType.Info) then None
        else Some ev
    | None => None
    end
  else planned_event p.

(** [since(last_success).value_or(0)] at the time of the call. *)
Definition silence (e : Env) (p : Planner) : Duration :=
  match last_success p with
  | Some past => wrap32 (clock e - past)
  | None => 0
  end.

(** The second block of [action_done(Failed)] fires. *)
Definition reconnects (e : Env) (p : Planner) : bool :=
  (RECONNECT_AFTER <=? silence e p) && negb (has_value (after_giveup p)).

(** The planner [action_done(Failed)] leaves behind, field by field. *)
Definition failed_state (e : Env) (p : Planner) : Planner :=
  mkPlanner
    (if reconnects e p then Some (Event1 EventType.Info)
     else after_giveup p)
    (last_telemetry p)
    (if reconnects e p then None else last_success p)
    (Some (Z.min COOLDOWN_MAX
             (wrap32 (value_or (cooldown p) (COOLDOWN_BASE / 2) * 2))))
    true
    (if GIVE_UP_AFTER_ATTEMPTS <=? wrap8 (failed_attempts p + 1)
     then 0 else wrap8 (failed_attempts p + 1))
    (info_changes p) (file_changes p) (background_command p) (download p)
    (observed_transfer p) (transfer_start_cmd p).

(** No event is pending, or the pending one is the [Info] event that
    [action_done(Failed)] makes up after a long silence. *)
Definition gone (p : Planner) : Prop :=
  planned_event p = None \/ planned_event p = Some (Event1 EventType.Info).

Definition is_terminal (ty : EventType.t) : bool :=
  match ty with
  | EventType.TransferStopped
  | EventType.TransferAborted
  | EventType.TransferFinished => true
  | _ => false
  end.

(** [e] reports the end of transfer [tid]. *)
Definition terminal_for (tid : TransferId) (e : Event) : bool :=
  is_terminal (type e) && option_Z_eqb (transfer_id e) (Some tid).

(** Going from [p] to [p'] plans an event that reports the end of
    transfer [tid]. *)
Definition plans_terminal_for (tid : TransferId) (p p' : Planner) : Prop :=
  exists ev,
    planned_event p' = Some ev
    /\ terminal_for tid ev = true
    /\ planned_event p <> Some ev.

(** What one call can do to the observed transfer and to the pending
    event: the former is kept or set to the monitor's current transfer;
    the latter is kept, cleared, or replaced by an event that either is no
    transfer end or reports the transfer observed before the call. *)
Definition step_shape (e : Env) (p p' : Planner) : Prop :=
  (observed_transfer p' = observed_transfer p
   \/ observed_transfer p' = monitor_id e)
  /\ (planned_event p' = planned_event p
      \/ planned_event p' = None
      \/ exists ev,
           planned_event p' = Some ev
           /\ (is_terminal (type ev) = false
               \/ transfer_id ev = observed_transfer p)).

(** Every call of the run sees a monitor whose current transfer is not
    [tid]. *)
Definition never_current (tid : TransferId) (calls : list (Env * Op))
    : Prop :=
  Forall (fun c => monitor_id (fst c) <> Some tid) calls.

(** The back-off state is in order: a cooldown to perform is a cooldown
    that is set, a set cooldown lies between the first retry delay and the
    cap, and the count of failures is below the number that gives up. *)
Definition backoff_ok (p : Planner) : Prop :=
  (perform_cooldown p = true -> cooldown p <> None)
  /\ (forall c, cooldown p = Some c -> COOLDOWN_BASE <= c <= COOLDOWN_MAX)
  /\ 0 <= failed_attempts p < GIVE_UP_AFTER_ATTEMPTS.

(** The methods that open with [assert(!planned_event.has_value())]: they
    are not to be called while an event is pending. *)
Definition asserts_no_event (op : Op) : bool :=
  match op with
  | OpCommand _ | OpBackgroundDone _ => true
  | _ => false
  end.

(** The event types a command is answered with. *)
Definition is_answer (ty : EventType.t) : bool :=
  match ty with
  | EventType.Info | EventType.Accepted | EventType.Rejected
  | EventType.JobInfo | EventType.FileInfo | EventType.TransferInfo
  | EventType.Finished => true
  | _ => false
  end.

End Planner.


(** *** [to_str(EventType)]

    The [default:] branch of the switch is not reached by any enumerator. *)
Definition to_str (event : EventType.t) : string :=
  match event with
  | EventType.Info => "INFO"
  | EventType.Accepted => "ACCEPTED"
  | EventType.Rejected => "REJECTED"
  | EventType.JobInfo => "JOB_INFO"
  | EventType.FileInfo => "FILE_INFO"
  | EventType.TransferInfo => "TRANSFER_INFO"
  | EventType.Finished => "FINISHED"
  | EventType.Failed => "FAILED"
  | EventType.TransferStopped => "TRANSFER_STOPPED"
  | EventType.TransferAborted => "TRANSFER_ABORTED"
  | EventType.TransferFinished => "TRANSFER_FINISHED"
  end.

(** *** Sample values, for the examples *)

(** Nothing pending, nothing running, both trackers clean on hash 0. *)
Definition quiet : Planner (T := Tracked) :=
  mkPlanner None None None None false 0
    (mkTracked 0 0 false) (mkTracked 0 0 false) None None None None.

(** Collaborators that report no change and accept everything, at time
    [t]. *)
Definition calm (t : Timestamp) : Env :=
  mkEnv t 0 0 false (fun _ => true) (fun _ => true) (fun _ => true)
    (fun _ => (mkConfig "connect.example" 80 "token" false, false))
    "fingerprint" 16 (fun _ => true) None (fun _ => None)
    (fun _ _ _ _ _ _ _ => Started 1).

(** A run the driver can make: a G-code command is accepted and
    acknowledged, then four attempts at telemetry fail, each followed by
    its cooldown sleep but the last. *)
Definition gcode_then_four_failures : list (Env * Op) :=
  [ (calm 10, OpCommand (mkCommand 7 (Gcode "M117 hi" 7)));
    (calm 20, OpNextAction);
    (calm 30, OpActionDone ActionResult.Ok);
    (calm 40, OpNextAction);
    (calm 50, OpActionDone ActionResult.Failed);
    (calm 60, OpNextAction);
    (calm 200, OpNextAction);
    (calm 210, OpActionDone ActionResult.Failed);
    (calm 220, OpNextAction);
    (calm 500, OpNextAction);
    (calm 510, OpActionDone ActionResult.Failed);
    (calm 520, OpNextAction);
    (calm 1000, OpNextAction);
    (calm 1010, OpActionDone ActionResult.Failed) ].

(** The printer's fingerprint has changed, the monitor shows no transfer
    and remembers that transfer 5 finished. *)
Definition info_changed_transfer_5_finished : Env :=
  mkEnv 100 1 0 false (fun _ => true) (fun _ => true) (fun _ => true)
    (fun _ => (mkConfig "connect.example" 80 "token" false, false))
    "fingerprint" 16 (fun _ => true) None
    (fun t => if t =? 5 then Some Outcome.Finished else None)
    (fun _ _ _ _ _ _ _ => Started 1).

End connect_client.


(** ** The USB host power-cycle supervisor: [namespace usbh_power_cycle] *)

Module usbh_power_cycle.

Inductive Phase : Type := idle | power_off | power_on.

Definition Phase_eqb (a b : Phase) : bool :=
  match a, b with
  | idle, idle | power_off, power_off | power_on, power_on => true
  | _, _ => false
  end.

Inductive WarningType : Type := USBFlashDiskError.

(** What the supervisor does to the rest of the firmware. *)
Inductive Effect : Type :=
| xTimerChangePeriod (period : Z)
| xTimerChangePeriodFromISR (period : Z)
| xTimerStop
| USBH_Stop
| USBH_Start
| marlin_client_init
| print_resume
| set_warning (w : WarningType).

(** The two atomics, the restart timer and the two function-local statics
    (one [marlin_client_initializated] in [msc_active], another in
    [restart_timer_callback]).

    [restart_timer] is a FreeRTOS one-shot timer (created with
    [pdFALSE]): [Some period] while it runs, [None] while it is dormant.
    Changing the period starts it, also from the dormant state; it is dormant
    again when it expires or is stopped. The periods are in ticks, which the
    source's own comment reads as milliseconds. *)
Record State : Type := mkState {
  phase : Phase;
  printing_paused : bool;
  restart_timer : option Z;
  msc_active_initializated : bool;
  callback_initializated : bool
}.

Definition set_phase (v : Phase) (s : State) : State :=
  mkState v (printing_paused s) (restart_timer s)
    (msc_active_initializated s) (callback_initializated s).
Definition set_printing_paused (v : bool) (s : State) : State :=
  mkState (phase s) v (restart_timer s)
    (msc_active_initializated s) (callback_initializated s).
Definition set_restart_timer (v : option Z) (s : State) : State :=
  mkState (phase s) (printing_paused s) v
    (msc_active_initializated s) (callback_initializated s).
Definition set_msc_active_initializated (v : bool) (s : State) : State :=
  mkState (phase s) (printing_paused s) (restart_timer s)
    v (callback_initializated s).
Definition set_callback_initializated (v : bool) (s : State) : State :=
  mkState (phase s) (printing_paused s) (restart_timer s)
    (msc_active_initializated s) v.

(** [init] creates the timer, dormant; the atomics have their
    initialisers. *)
Definition init : State := mkState idle false None false false.

(** callback from USBH_MSC_Worker when an io error occurs *)
Definition io_error (s : State) : State * list Effect :=
  if Phase_eqb (phase s) idle then
    (set_restart_timer (Some 10) s, [xTimerChangePeriod 10])
  else (s, []).

(** callback from isr *)
Definition port_disabled (s : State) : State * list Effect :=
  if Phase_eqb (phase s) idle then
    (set_restart_timer (Some 10) s, [xTimerChangePeriodFromISR 10])
  else (s, []).

(** callback from marlin media_loop *)
Definition media_state_error (s : State) : State * list Effect :=
  (set_printing_paused true s, []).

(** called from USBH_Thread *)
Definition msc_active (s : State) : State * list Effect :=
  if Phase_eqb (phase s) power_on && printing_paused s then
    let s := set_printing_paused false s in
    let s := set_restart_timer None s in
    let s := set_phase idle s in
    (* lazy initialization of marlin_client *)
    if negb (msc_active_initializated s) then
      (set_msc_active_initializated true s,
       [xTimerStop; marlin_client_init; print_resume])
    else (s, [xTimerStop; print_resume])
  else (s, []).

(** called from SVC task *)
Definition restart_timer_callback (s : State) : State * list Effect :=
  match phase s with
  | idle =>
      (set_restart_timer (Some 150) (set_phase power_off s),
       [xTimerChangePeriod 150; USBH_Stop])
  | power_off =>
      (set_restart_timer (Some 5000) (set_phase power_on s),
       [xTimerChangePeriod 5000; USBH_Start])
  | power_on =>
      let s := set_phase idle s in
      if printing_paused s then
        (* lazy initialization of marlin_client *)
        if negb (callback_initializated s) then
          (set_callback_initializated true s,
           [marlin_client_init; set_warning USBFlashDiskError])
        else (s, [set_warning USBFlashDiskError])
      else (s, [])
  end.

(** What can happen to the supervisor. The timer service runs the callback
    when the running timer expires, which leaves a one-shot timer dormant
    unless the callback starts it again. Each function runs to its end
    before the next one starts. *)
Inductive Trigger : Type :=
| IoError | PortDisabled | MediaStateError | MscActive | TimerExpired.

Definition step (t : Trigger) (s : State) : option (State * list Effect) :=
  match t with
  | IoError => Some (io_error s)
  | PortDisabled => Some (port_disabled s)
  | MediaStateError => Some (media_state_error s)
  | MscActive => Some (msc_active s)
  | TimerExpired =>
      match restart_timer s with
      | Some _ => Some (restart_timer_callback (set_restart_timer None s))
      | None => None
      end
  end.

(** The state after a sequence of triggers, [None] if the timer is said to
    expire while dormant. *)
Fixpoint run (ts : list Trigger) (s : State) : option State :=
  match ts with
  | [] => Some s
  | t :: rest =>
      match step t s with
      | Some (s', _) => run rest s'
      | None => None
      end
  end.

(** The timer that runs in each phase, in the states the supervisor can
    reach from [init]. *)
Definition timer_fits_phase (s : State) : Prop :=
  match phase s with
  | idle => restart_timer s = None \/ restart_timer s = Some 10
  | power_off => restart_timer s = Some 150
  | power_on => restart_timer s = Some 5000
  end.

(** The state after a sequence of triggers together with everything the
    supervisor did on the way, in order. *)
Fixpoint trace (ts : list Trigger) (s : State)
    : option (State * list Effect) :=
  match ts with
  | [] => Some (s, [])
  | t :: rest =>
      match step t s with
      | Some (s1, fx1) =>
          match trace rest s1 with
          | Some (s2, fx2) => Some (s2, (fx1 ++ fx2)%list)
          | None => None
          end
      | None => None
      end
  end.

Definition is_print_resume (x : Effect) : bool :=
  match x with print_resume => true | _ => false end.
Definition is_set_warning (x : Effect) : bool :=
  match x with set_warning _ => true | _ => false end.
Definition is_marlin_client_init (x : Effect) : bool :=
  match x with marlin_client_init => true | _ => false end.
Definition is_media_state_error (t : Trigger) : bool :=
  match t with MediaStateError => true | _ => false end.
Definition is_usbh (x : Effect) : bool :=
  match x with USBH_Stop | USBH_Start => true | _ => false end.

Definition count {A} (f : A -> bool) (l : list A) : nat :=
  List.length (filter f l).

Definition b2n (b : bool) : nat := if b then 1%nat else 0%nat.

(** The timer expiries it takes to get back to idle. *)
Definition expiries_left (s : State) : nat :=
  match phase s with
  | idle => 3
  | power_off => 2
  | power_on => 1
  end.

(** In a sequence of effects, every request to the marlin client (to
    resume the print, to show a warning) comes after an initialisation of
    the client. *)
Fixpoint client_ready (seen_init : bool) (fx : list Effect) : bool :=
  match fx with
  | [] => true
  | marlin_client_init :: rest => client_ready true rest
  | print_resume :: rest => seen_init && client_ready seen_init rest
  | set_warning _ :: rest => seen_init && client_ready seen_init rest
  | _ :: rest => client_ready seen_init rest
  end.

End usbh_power_cycle.

(** ** The USB host glue: start-up and [USBH_UserProcess] *)

Module usb_host.

(** [ApplicationTypeDef], as far as the code uses it. *)
Inductive ApplicationTypeDef : Type :=
| APPLICATION_IDLE
| APPLICATION_START
| APPLICATION_READY
| APPLICATION_DISCONNECT.

(** The [id] of [USBH_UserProcess]: the four values the switch names, and
    all the others. *)
Inductive HostUser : Type :=
| HOST_USER_SELECT_CONFIGURATION
| HOST_USER_DISCONNECTION
| HOST_USER_CLASS_ACTIVE
| HOST_USER_CONNECTION
| HOST_USER_other.

(** [FRESULT]: [FR_OK] and all the errors. *)
Inductive FRESULT : Type := FR_OK | FR_error.

Inductive GPIO : Type := GPIOD | GPIOE.

(** What the glue code does to the rest of the firmware; [supervisor]
    wraps what it does through [usbh_power_cycle]. *)
Inductive HostEffect : Type :=
| HAL_GPIO_WritePin (port : GPIO) (pin : Z) (set : bool)
| HAL_Delay (ms : Z)
| xTimerCreateStatic
| USBH_Init
| USBH_RegisterClass
| Error_Handler
| readahead_disable
| readahead_enable
| media_set_removed
| media_set_inserted
| media_set_error_MOUNT
| f_mount (mount : bool)
| supervisor (x : usbh_power_cycle.Effect).

(** [Appli_state], the two file-level statics, and the supervisor. *)
Record Host : Type := mkHost {
  Appli_state : ApplicationTypeDef;
  one_click_print_timeout : Z;
  connected_at_startup : bool;
  power_cycle : usbh_power_cycle.State
}.

(** The initialisers of the globals. *)
Definition boot : Host :=
  mkHost APPLICATION_IDLE 0 false usbh_power_cycle.init.

Definition wrap32 (z : Z) : Z := z mod 2 ^ 32.

(** [MX_USB_HOST_Init]. [xbuddy] is [BOARD_IS_XBUDDY || BOARD_IS_XLBUDDY],
    [ticks] the reading of [ticks_ms()], the three booleans say whether
    [USBH_Init], [USBH_RegisterClass] and [USBH_Start] returned [USBH_OK].
    The code goes on after [Error_Handler()]; the log records the call. *)
Definition MX_USB_HOST_Init (xbuddy : bool) (ticks : Z)
    (init_ok register_ok start_ok : bool) (h : Host)
    : Host * list HostEffect :=
  let port := if xbuddy then GPIOD else GPIOE in
  let pin := if xbuddy then 8 else 5 in
  (* A delay of 3000ms for detecting USB device (flash drive) was present
     at start *)
  (mkHost (Appli_state h) (wrap32 (ticks + 3000)) (connected_at_startup h)
     (usbh_power_cycle.set_restart_timer None (power_cycle h)),
   [HAL_GPIO_WritePin port pin true; HAL_Delay 200;
    HAL_GPIO_WritePin port pin false; xTimerCreateStatic; USBH_Init]
   ++ (if init_ok then [] else [Error_Handler])
   ++ [USBH_RegisterClass]
   ++ (if register_ok then [] else [Error_Handler])
   ++ [supervisor usbh_power_cycle.USBH_Start]
   ++ (if start_ok then [] else [Error_Handler]))%list.

(** [USBH_UserProcess]. [readahead] is [USBH_MSC_READAHEAD] being
    defined; [ticks1] and [ticks2] are what [ticks_ms()] reads at its
    first and second call (each is read only if the deadline is not 0);
    [mount] is what [f_mount] returns when asked to mount. *)
Definition USBH_UserProcess (readahead : bool) (ticks1 ticks2 : Z)
    (mount : FRESULT) (id : HostUser) (h : Host)
    : Host * list HostEffect :=
  (* don't detect device at startup when ticks_ms() overflows *)
  let timeout :=
    if (0 <? one_click_print_timeout h)
       && (one_click_print_timeout h <=? ticks1)
    then 0 else one_click_print_timeout h in
  match id with
  | HOST_USER_SELECT_CONFIGURATION =>
      (mkHost (Appli_state h) timeout (connected_at_startup h)
         (power_cycle h), [])
  | HOST_USER_DISCONNECTION =>
      (mkHost APPLICATION_DISCONNECT timeout false (power_cycle h),
       (if readahead then [readahead_disable] else [])
       ++ [media_set_removed; f_mount false])%list
  | HOST_USER_CLASS_ACTIVE =>
      match mount with
      | FR_OK =>
          let connected :=
            if (0 <? timeout) && (ticks2 <? timeout) then true
            else connected_at_startup h in
          let (power, fx) := usbh_power_cycle.msc_active (power_cycle h) in
          (mkHost APPLICATION_READY timeout connected power,
           [f_mount true; media_set_inserted]
           ++ (if readahead then [readahead_enable] else [])
           ++ map supervisor fx)%list
      | FR_error =>
          (mkHost APPLICATION_READY timeout (connected_at_startup h)
             (power_cycle h),
           [f_mount true; media_set_error_MOUNT])
      end
  | HOST_USER_CONNECTION =>
      (mkHost APPLICATION_START timeout (connected_at_startup h)
         (power_cycle h), [])
  | HOST_USER_other =>
      (mkHost (Appli_state h) timeout (connected_at_startup h)
         (power_cycle h), [])
  end.

Definition device_connected_at_startup (h : Host) : bool :=
  connected_at_startup h.

(** One call of [USBH_UserProcess], with what it reads. *)
Record Notice : Type := mkNotice {
  ticks1 : Z;
  ticks2 : Z;
  mount : FRESULT;
  id : HostUser
}.

Definition notify (readahead : bool) (n : Notice) (h : Host) : Host :=
  fst (USBH_UserProcess readahead (ticks1 n) (ticks2 n) (mount n) (id n) h).

(** The host after a sequence of calls of [USBH_UserProcess]. *)
Definition notify_all (readahead : bool) (ns : list Notice) (h : Host)
    : Host :=
  fold_left (fun h n => notify readahead n h) ns h.

End usb_host.


(* ================================================================== *)
(** * Properties *)

(** ** Facts about the C string primitives *)

Module CStringFacts.
Import CString.

Lemma code_inj c1 c2 : code c1 = code c2 -> c1 = c2.
Proof.
  unfold code; intros H.
  apply N2Z.inj in H.
  rewrite <- (ascii_N_embedding c1), <- (ascii_N_embedding c2).
  now rewrite H.
Qed.

Lemma code_diff c1 c2 : c1 <> c2 -> code c1 - code c2 <> 0.
Proof. intros Hne H; apply Hne, code_inj; lia. Qed.

Lemma no_nul_cons c r :
  no_nul (String c r) = true <-> code c <> 0 /\ no_nul r = true.
Proof. simpl. rewrite andb_true_iff, negb_true_iff, Z.eqb_neq. tauto. Qed.

Lemma strcmp_eq a : no_nul a = true ->
  forall b, no_nul b = true -> (strcmp a b = 0 <-> a = b).
Proof.
  induction a as [|ca ra IH]; intros Ha [|cb rb] Hb.
  - simpl; tauto.
  - apply no_nul_cons in Hb. simpl. split; [lia|discriminate].
  - apply no_nul_cons in Ha. simpl. split; [lia|discriminate].
  - apply no_nul_cons in Ha. apply no_nul_cons in Hb. simpl.
    destruct (Ascii.eqb_spec ca cb) as [->|Hne].
    + rewrite (IH (proj2 Ha) rb (proj2 Hb)).
      split; [now intros ->|now inversion 1].
    + split; [|now inversion 1].
      intros H; exfalso; revert H; now apply code_diff.
Qed.

Lemma strncmp_prefix b : no_nul b = true ->
  forall a, strncmp a b (strlen b) = 0 <-> has_prefix b a.
Proof.
  induction b as [|cb rb IH]; intros Hb a.
  - simpl. split; auto. intros _; now exists a.
  - apply no_nul_cons in Hb. destruct Hb as [Hc Hb].
    destruct a as [|ca ra]; simpl.
    + split; [lia|]. intros [r Hr]; discriminate.
    + destruct (Ascii.eqb_spec ca cb) as [->|Hne].
      * rewrite (IH Hb ra). split; intros [r Hr]; exists r.
        -- simpl; now rewrite Hr.
        -- simpl in Hr; now inversion Hr.
      * split.
        -- intros H; exfalso; revert H; now apply code_diff.
        -- intros [r Hr]; simpl in Hr; inversion Hr; congruence.
Qed.

Lemma starts_with_prefix n : forall h,
  starts_with n h = true <-> has_prefix n h.
Proof.
  induction n as [|cn rn IH]; intros h; simpl.
  - split; auto. intros _; now exists h.
  - destruct h as [|ch rh].
    + split; [discriminate|]. intros [r Hr]; discriminate.
    + rewrite andb_true_iff, IH. split.
      * intros [Hc [r Hr]]. apply Ascii.eqb_eq in Hc. subst.
        now exists r.
      * intros [r Hr]. simpl in Hr. inversion Hr; subst.
        split; [apply Ascii.eqb_refl | now exists r].
Qed.

Lemma strstr_substring n : forall h,
  (exists k, strstr h n = Some k) <-> has_substring n h.
Proof.
  induction h as [|ch rh IH]; simpl.
  - destruct (starts_with n "") eqn:E.
    + split; [intros _|intros _; now exists O].
      apply starts_with_prefix in E. destruct E as [r Hr].
      exists "", r. exact Hr.
    + split; [intros [k Hk]; discriminate|].
      intros [a [b Hab]].
      destruct a; simpl in Hab; [|discriminate].
      assert (starts_with n "" = true) as E'
          by (apply starts_with_prefix; now exists b).
      congruence.
  - destruct (starts_with n (String ch rh)) eqn:E.
    + split; [intros _|intros _; now exists O].
      apply starts_with_prefix in E. destruct E as [r Hr].
      exists "", r. exact Hr.
    + split.
      * intros [k Hk].
        destruct (strstr rh n) as [k'|] eqn:Es; [|discriminate].
        destruct (proj1 IH (ex_intro _ k' eq_refl)) as [a [b Hab]].
        exists (String ch a), b. simpl. now rewrite Hab.
      * intros [a [b Hab]].
        destruct a as [|ca ra]; simpl in Hab.
        -- assert (starts_with n (String ch rh) = true) as E'
               by (apply starts_with_prefix; now exists b).
           congruence.
        -- inversion Hab; subst.
           destruct (proj2 IH (ex_intro _ ra (ex_intro _ b eq_refl)))
             as [k Hk].
           rewrite Hk. now exists (S k).
Qed.

End CStringFacts.

Section PathAllowed.
Import CString connect_client.

(** C7. For every C string [p], [path_allowed p] holds exactly when [p] is
  ["/usb"] or starts with ["/usb/"], and [p] does not contain ["/../"]; the
  four sample paths of the specification evaluate as it says. *)
Theorem path_allowed_spec :
(forall p : string,
    no_nul p = true ->
    (path_allowed p = true <->
     (p = "/usb" \/ has_prefix "/usb/" p) /\ ~ has_substring "/../" p))
/\ path_allowed "/usb" = true
/\ path_allowed "/usb/foo.gco" = true
/\ path_allowed "/usb/../etc" = false
/\ path_allowed "/home/x" = false.
Proof.
split; [|repeat split; reflexivity].
intros p Hp. unfold path_allowed.
rewrite andb_true_iff, orb_true_iff, negb_true_iff, !Z.eqb_eq.
rewrite (CStringFacts.strncmp_prefix usb eq_refl p).
rewrite (CStringFacts.strcmp_eq p Hp "/usb" eq_refl).
pose proof (CStringFacts.strstr_substring "/../" p) as Hs.
unfold usb. split.
- intros [Hon Hup]. split; [tauto|].
  intros Hsub. apply Hs in Hsub. destruct Hsub as [k Hk].
  rewrite Hk in Hup. discriminate.
- intros [Hon Hup]. split; [tauto|].
  destruct (strstr p "/../") as [k|] eqn:E; [|reflexivity].
  exfalso. apply Hup, Hs. now exists k.
Qed.

Lemma path_allowed_spec_witness :
no_nul "/usb/foo.gco" = true
/\ (path_allowed "/usb/foo.gco" = true <->
    ("/usb/foo.gco" = "/usb" \/ has_prefix "/usb/" "/usb/foo.gco")
    /\ ~ has_substring "/../" "/usb/foo.gco").
Proof.
split; [reflexivity|].
apply (proj1 path_allowed_spec "/usb/foo.gco"). reflexivity.
Defined.

End PathAllowed.

(** ** The USB power-cycle supervisor *)

Module SupervisorFacts.
Import usbh_power_cycle.

Lemma step_keeps_timer_fit t s s' fx :
  timer_fits_phase s -> step t s = Some (s', fx) -> timer_fits_phase s'.
Proof.
  unfold timer_fits_phase. intros Hfit Hstep.
  destruct s as [ph pp tm mi ci], t, ph, pp, mi, ci; cbn in *;
    try (destruct tm; [|discriminate]);
    inversion Hstep; subst; cbn; auto; try discriminate; try tauto.
Qed.

Lemma reachable_timer_fits ts : forall s s',
  timer_fits_phase s -> run ts s = Some s' -> timer_fits_phase s'.
Proof.
  induction ts as [|t ts IH]; intros s s' Hfit Hrun; cbn in Hrun.
  - now inversion Hrun; subst.
  - destruct (step t s) as [[s1 fx]|] eqn:E; [|discriminate].
    eapply IH; [|exact Hrun]. eapply step_keeps_timer_fit; eauto.
Qed.

Lemma init_timer_fits : timer_fits_phase init.
Proof. cbn. now left. Qed.

(** C9. The phase only moves idle -> power_off (the timer callback, which
    stops the USB host stack), power_off -> power_on (the timer callback,
    which starts it) and power_on -> idle (the timer callback, or
    [msc_active]); in every state reached from [init] the timer that runs
    is the 10 ms one in idle (if any), the 150 ms one in power_off and the
    5000 ms one in power_on, so that the callback that ends power_on is the
    5000 ms timeout; [io_error] and [port_disabled] start the 10 ms timer
    in phase idle and do nothing at all in the other phases. *)
Theorem phase_transitions_are_the_listed_ones :
  (forall (t : Trigger) (s s' : State) (fx : list Effect),
      step t s = Some (s', fx) ->
      phase s' = phase s \/
      match phase s with
      | idle =>
          phase s' = power_off /\ t = TimerExpired
          /\ restart_timer s' = Some 150
          /\ fx = [xTimerChangePeriod 150; USBH_Stop]
      | power_off =>
          phase s' = power_on /\ t = TimerExpired
          /\ restart_timer s' = Some 5000
          /\ fx = [xTimerChangePeriod 5000; USBH_Start]
      | power_on =>
          phase s' = idle /\ restart_timer s' = None
          /\ (t = TimerExpired \/ t = MscActive)
      end)
  /\ (forall (ts : list Trigger) (s : State),
        run ts init = Some s -> timer_fits_phase s)
  /\ (forall (ts : list Trigger) (s s' : State) (fx : list Effect),
        run ts init = Some s ->
        step TimerExpired s = Some (s', fx) ->
        restart_timer s = Some match phase s with
                               | idle => 10
                               | power_off => 150
                               | power_on => 5000
                               end)
  /\ (forall s : State,
        phase s = idle ->
        io_error s = (set_restart_timer (Some 10) s, [xTimerChangePeriod 10])
        /\ port_disabled s
           = (set_restart_timer (Some 10) s, [xTimerChangePeriodFromISR 10]))
  /\ (forall s : State,
        phase s <> idle ->
        io_error s = (s, []) /\ port_disabled s = (s, [])).
Proof.
  split; [|split; [|split; [|split]]].
  - intros t s s' fx Hstep.
    destruct s as [ph pp tm mi ci], t, ph, pp, mi, ci; cbn in *;
      try (destruct tm; [|discriminate]);
      inversion Hstep; subst; cbn; auto;
      right; repeat split; auto.
  - intros ts s Hrun.
    exact (reachable_timer_fits ts init s init_timer_fits Hrun).
  - intros ts s s' fx Hrun Hstep.
    pose proof (reachable_timer_fits ts init s init_timer_fits Hrun) as Hfit.
    unfold timer_fits_phase in Hfit. cbn in Hstep.
    destruct (phase s); try exact Hfit.
    destruct Hfit as [Hnone|Hten]; [|exact Hten].
    rewrite Hnone in Hstep. discriminate.
  - intros s Hidle. unfold io_error, port_disabled.
    rewrite Hidle. cbn. split; reflexivity.
  - intros s Hph. unfold io_error, port_disabled.
    destruct (phase s); [contradiction|cbn..]; split; reflexivity.
Qed.

Lemma phase_transitions_are_the_listed_ones_witness :
  run [IoError; TimerExpired; TimerExpired; PortDisabled] init
  = Some (mkState power_on false (Some 5000) false false)
  /\ step TimerExpired (mkState power_on false (Some 5000) false false)
     = Some (mkState idle false None false false, [])
  /\ (phase (mkState idle false None false false) = power_on
      \/ (phase (mkState idle false None false false) = idle
          /\ restart_timer (mkState idle false None false false) = None
          /\ (TimerExpired = TimerExpired \/ TimerExpired = MscActive)))
  /\ timer_fits_phase (mkState power_on false (Some 5000) false false)
  /\ restart_timer (mkState power_on false (Some 5000) false false)
     = Some 5000
  /\ io_error init = (set_restart_timer (Some 10) init, [xTimerChangePeriod 10])
  /\ io_error (mkState power_on false (Some 5000) false false)
     = (mkState power_on false (Some 5000) false false, []).
Proof.
  split; [reflexivity|]. split; [reflexivity|].
  destruct phase_transitions_are_the_listed_ones
    as [Hlisted [Hfit [Hexpiry [Hidle Hbusy]]]].
  split; [|split; [|split; [|split]]].
  - exact (Hlisted TimerExpired
             (mkState power_on false (Some 5000) false false)
             (mkState idle false None false false) [] eq_refl).
  - exact (Hfit [IoError; TimerExpired; TimerExpired; PortDisabled] _ eq_refl).
  - exact (Hexpiry [IoError; TimerExpired; TimerExpired; PortDisabled]
             (mkState power_on false (Some 5000) false false)
             (mkState idle false None false false) [] eq_refl eq_refl).
  - exact (proj1 (Hidle init eq_refl)).
  - apply (Hbusy (mkState power_on false (Some 5000) false false)).
    cbn. discriminate.
Defined.

(** C10. [media_state_error] raises [printing_paused] and nothing else
    does; the flag is cleared only by [msc_active] finding the phase
    power_on and the flag raised, which stops the timer, returns to idle and
    asks for the print to be resumed; the timer callback that ends power_on
    raises the USBFlashDiskError warning and leaves the flag raised. *)
Theorem printing_paused_raised_and_cleared :
  (forall s : State,
      media_state_error s = (set_printing_paused true s, []))
  /\ (forall (t : Trigger) (s s' : State) (fx : list Effect),
        step t s = Some (s', fx) ->
        printing_paused s = false -> printing_paused s' = true ->
        t = MediaStateError)
  /\ (forall (t : Trigger) (s s' : State) (fx : list Effect),
        step t s = Some (s', fx) ->
        printing_paused s = true -> printing_paused s' = false ->
        t = MscActive /\ phase s = power_on /\ phase s' = idle
        /\ restart_timer s' = None
        /\ In xTimerStop fx /\ In print_resume fx)
  /\ (forall s : State,
        phase s = power_on -> printing_paused s = true ->
        exists s' fx,
          msc_active s = (s', fx)
          /\ printing_paused s' = false /\ phase s' = idle
          /\ In print_resume fx)
  /\ (forall (s s' : State) (fx : list Effect),
        phase s = power_on -> printing_paused s = true ->
        step TimerExpired s = Some (s', fx) ->
        phase s' = idle /\ printing_paused s' = true
        /\ In (set_warning USBFlashDiskError) fx
        /\ ~ In print_resume fx).
Proof.
  split; [reflexivity|]. split; [|split; [|split]].
  - intros t s s' fx Hstep Hlow Hhigh.
    destruct s as [ph pp tm mi ci], t, ph, mi, ci; cbn in *; subst;
      try (destruct tm; [|discriminate]);
      inversion Hstep; subst; cbn in *; auto; discriminate.
  - intros t s s' fx Hstep Hhigh Hlow.
    destruct s as [ph pp tm mi ci], t, ph, mi, ci; cbn in *; subst;
      try (destruct tm; [|discriminate]);
      inversion Hstep; subst; cbn in *; try discriminate;
      repeat split; auto.
  - intros [ph pp tm mi ci] Hph Hpp. cbn in *. subst.
    unfold msc_active. cbn.
    destruct mi; cbn; eexists; eexists; (split; [reflexivity|]);
      cbn; repeat split; auto 10.
  - intros [ph pp tm mi ci] s' fx Hph Hpp Hstep. cbn in *. subst.
    destruct tm; [|discriminate].
    destruct ci; inversion Hstep; subst; cbn;
      repeat split; auto; intros H; cbn in H;
      repeat (destruct H as [H|H]; [discriminate H|]); exact H.
Qed.

Lemma printing_paused_raised_and_cleared_witness :
  step MscActive (mkState power_on true (Some 5000) false false)
  = Some (mkState idle false None true false,
          [xTimerStop; marlin_client_init; print_resume])
  /\ (MscActive = MscActive /\ power_on = power_on /\ idle = idle
      /\ @None Z = None
      /\ In xTimerStop [xTimerStop; marlin_client_init; print_resume]
      /\ In print_resume [xTimerStop; marlin_client_init; print_resume])
  /\ step TimerExpired (mkState power_on true (Some 5000) false false)
     = Some (mkState idle true None false true,
             [marlin_client_init; set_warning USBFlashDiskError])
  /\ printing_paused (mkState idle true None false true) = true.
Proof.
  destruct printing_paused_raised_and_cleared
    as [_ [_ [Hclear [_ Htimeout]]]].
  split; [reflexivity|]. split; [|split; [reflexivity|]].
  - exact (Hclear MscActive
             (mkState power_on true (Some 5000) false false)
             (mkState idle false None true false)
             [xTimerStop; marlin_client_init; print_resume]
             eq_refl eq_refl eq_refl).
  - exact (proj1 (proj2 (Htimeout
             (mkState power_on true (Some 5000) false false)
             (mkState idle true None false true)
             [marlin_client_init; set_warning USBFlashDiskError]
             eq_refl eq_refl eq_refl))).
Defined.

End SupervisorFacts.

(** ** The planner *)

Module PlannerFacts.
Import connect_client.

Section WithTracker.
Context {T : Type} {tracker : ChangeTracker T}.

#[local] Abbreviation PlannerT := (Planner (T := T)).

(** Runs a method on a planner given field by field, stopping at the tests
    on unknown values, which [split_tests] then splits. *)
Ltac compute_m :=
  cbv - [Z.leb Z.eqb Z.min Z.mul Z.add Z.sub Z.div Z.modulo Z.pow
         wrap8 wrap32 EventType.eqb type set_hash mark_clean mark_dirty
         is_dirty path_allowed PRIu64 CString.strlen String.append
         fst snd Nat.ltb Nat.leb Nat.add].

Ltac split_tests :=
  repeat (compute_m;
          match goal with
          | |- context [Z.leb ?a ?b] => destruct (Z.leb a b) eqn:?
          | |- context [EventType.eqb ?a ?b] =>
              destruct (EventType.eqb a b) eqn:?
          end).

Ltac split_probes :=
  repeat (compute_m;
          match goal with
          | |- context [fst (set_hash ?h ?t)] =>
              destruct (fst (set_hash h t)) eqn:?
          | |- context [is_dirty ?t] => destruct (is_dirty t) eqn:?
          | |- context [Z.eqb ?a ?b] => destruct (Z.eqb a b) eqn:?
          | |- context [Z.leb ?a ?b] => destruct (Z.leb a b) eqn:?
          end).

(** *** [action_done(Failed)] *)

Lemma action_done_failed_eq (e : Env) (p : PlannerT) :
  action_done ActionResult.Failed e p = Some (tt, failed_state e p, []).
Proof.
  destruct p as [[ev|] lt [past|] cd pc fa ic fc bc dl ot ts];
    split_tests; try reflexivity; try discriminate.
Qed.

Lemma after_failed (e : Env) (p : PlannerT) :
  after e (OpActionDone ActionResult.Failed) p = Some (failed_state e p).
Proof. unfold after, exec. now rewrite action_done_failed_eq. Qed.

(** *** Reconnecting after a long silence *)

Lemma giveup_pending (e : Env) (p p1 : PlannerT) (log : list Call) :
  giveup e p = Some (tt, p1, log) -> planned_event p1 = after_giveup p.
Proof.
  destruct p as [[ev|] lt ls cd pc fa ic fc bc dl ot ts];
    split_tests; intros H; inversion H; subst; try reflexivity;
    discriminate.
Qed.

Lemma giveup_total (e : Env) (p : PlannerT) :
  exists p1, giveup e p = Some (tt, p1, []).
Proof.
  destruct p as [[ev|] lt ls cd pc fa ic fc bc dl ot ts];
    split_tests; eexists; reflexivity.
Qed.

(** C1, as the code has it. When [action_done(Failed)] finds no event
    pending after its give-up step: if [last_success] is set and at least
    10 000 ms old (in wrapping arithmetic), it plans the [Info] event and
    clears [last_success]; if [last_success] is not set, or is younger, it
    plans nothing and leaves [last_success] as it is. *)
Theorem failed_reconnects_after_silence :
  forall (e : Env) (p p1 : PlannerT),
    giveup e p = Some (tt, p1, []) ->
    planned_event p1 = None ->
    exists p',
      after e (OpActionDone ActionResult.Failed) p = Some p'
      /\ (forall past,
             last_success p = Some past ->
             10000 <= wrap32 (clock e - past) ->
             planned_event p' = Some (Event1 EventType.Info)
             /\ last_success p' = None)
      /\ (forall past,
             last_success p = Some past ->
             wrap32 (clock e - past) < 10000 ->
             planned_event p' = None /\ last_success p' = Some past)
      /\ (last_success p = None ->
          planned_event p' = None /\ last_success p' = None).
Proof.
  intros e p p1 Hgu Hnone.
  apply giveup_pending in Hgu. rewrite Hnone in Hgu. symmetry in Hgu.
  exists (failed_state e p). split; [apply after_failed|].
  unfold failed_state, reconnects, silence; cbn [planned_event last_success].
  rewrite Hgu. change RECONNECT_AFTER with 10000. cbn [has_value negb].
  rewrite andb_true_r.
  split; [|split].
  - intros past Hls Hold. rewrite Hls.
    apply Z.leb_le in Hold. rewrite Hold. now split.
  - intros past Hls Hyoung. rewrite Hls.
    apply Z.leb_gt in Hyoung. rewrite Hyoung. now split.
  - intros Hls. rewrite Hls. cbn. now split.
Qed.

(** *** Giving up on an event *)

Lemma wrap8_small z : 0 <= z < 2 ^ 8 -> wrap8 z = z.
Proof. intros H. unfold wrap8. now apply Z.mod_small. Qed.

Lemma EventType_eqb_eq (a b : EventType.t) :
  EventType.eqb a b = true <-> a = b.
Proof. destruct a, b; cbn; split; congruence. Qed.

Lemma failed_attempts_next (e : Env) (p : PlannerT) :
  0 <= failed_attempts p < 5 ->
  failed_attempts (failed_state e p) = (failed_attempts p + 1) mod 5.
Proof.
  intros Hfa. unfold failed_state; cbn [failed_attempts].
  rewrite wrap8_small by lia. change GIVE_UP_AFTER_ATTEMPTS with 5.
  destruct (5 <=? failed_attempts p + 1) eqn:E.
  - apply Z.leb_le in E. replace (failed_attempts p + 1) with 5 by lia.
    reflexivity.
  - apply Z.leb_gt in E. now rewrite Z.mod_small by lia.
Qed.

Lemma after_giveup_cases (p : PlannerT) :
  0 <= failed_attempts p < 5 ->
  after_giveup p =
  match planned_event p with
  | Some ev =>
      if (failed_attempts p =? 4)
         && negb (EventType.eqb (type ev) EventType.Info)
      then None else Some ev
  | None => None
  end.
Proof.
  intros Hfa. unfold after_giveup.
  rewrite wrap8_small by lia. change GIVE_UP_AFTER_ATTEMPTS with 5.
  destruct (5 <=? failed_attempts p + 1) eqn:E;
    [apply Z.leb_le in E | apply Z.leb_gt in E].
  - replace (failed_attempts p =? 4) with true
      by (symmetry; apply Z.eqb_eq; lia).
    reflexivity.
  - replace (failed_attempts p =? 4) with false
      by (symmetry; apply Z.eqb_neq; lia).
    now destruct (planned_event p).
Qed.

(** An [Info] event outlives any number of failures. *)
Lemma failures_keep_info (es : list Env) :
  forall (p : PlannerT) (ev : Event),
    type ev = EventType.Info ->
    planned_event p = Some ev ->
    0 <= failed_attempts p < 5 ->
    exists p',
      run (failures es) p = Some p'
      /\ planned_event p' = Some ev
      /\ failed_attempts p'
         = (failed_attempts p + Z.of_nat (List.length es)) mod 5.
Proof.
  induction es as [|e es IH]; intros p ev Hty Hpe Hfa.
  - exists p. cbn. rewrite Z.add_0_r, Z.mod_small by lia. auto.
  - cbn [failures map run]. rewrite after_failed.
    pose proof (failed_attempts_next e p Hfa) as Hnext.
    assert (planned_event (failed_state e p) = Some ev) as Hkeep.
    { unfold failed_state, reconnects; cbn [planned_event].
      rewrite (after_giveup_cases p Hfa), Hpe, Hty. cbn.
      now rewrite andb_false_r, andb_false_r. }
    destruct (IH (failed_state e p) ev Hty Hkeep) as [p' [Hrun [Hp' Hf']]].
    { rewrite Hnext. apply Z.mod_pos_bound. lia. }
    exists p'. split; [exact Hrun|]. split; [exact Hp'|].
    cbn [List.length]. rewrite Hf', Hnext, Nat2Z.inj_succ.
    rewrite Zplus_mod_idemp_l. f_equal. lia.
Qed.

Lemma gone_stays_gone (e : Env) (p : PlannerT) :
  0 <= failed_attempts p < 5 -> gone p -> gone (failed_state e p).
Proof.
  intros Hfa Hg. unfold gone, failed_state; cbn [planned_event].
  rewrite (after_giveup_cases p Hfa).
  destruct (reconnects e p); [now right|].
  destruct Hg as [-> | ->]; [now left|right].
  cbn. now rewrite andb_false_r.
Qed.

(** An event other than [Info] is given up when the count of failures
    reaches five, and stays away. *)
Lemma failures_giveup (es : list Env) :
  forall (p : PlannerT) (ev : Event),
    type ev <> EventType.Info ->
    0 <= failed_attempts p < 5 ->
    gone p \/ planned_event p = Some ev ->
    exists p',
      run (failures es) p = Some p'
      /\ failed_attempts p'
         = (failed_attempts p + Z.of_nat (List.length es)) mod 5
      /\ (gone p'
          \/ (planned_event p' = Some ev
              /\ failed_attempts p + Z.of_nat (List.length es) < 5)).
Proof.
  induction es as [|e es IH]; intros p ev Hty Hfa Hpe.
  - exists p. cbn. rewrite Z.add_0_r, Z.mod_small by lia.
    split; [reflexivity|]. split; [reflexivity|].
    destruct Hpe as [Hg|Hpe]; [now left|right]. split; [exact Hpe|lia].
  - cbn [failures map run]. rewrite after_failed.
    pose proof (failed_attempts_next e p Hfa) as Hnext.
    assert (0 <= failed_attempts (failed_state e p) < 5) as Hfa'
        by (rewrite Hnext; apply Z.mod_pos_bound; lia).
    assert (gone (failed_state e p)
            \/ (planned_event (failed_state e p) = Some ev
                /\ failed_attempts p < 4)) as Hstep.
    { destruct Hpe as [Hg|Hpe]; [left; now apply gone_stays_gone|].
      unfold gone, failed_state, reconnects; cbn [planned_event].
      rewrite (after_giveup_cases p Hfa), Hpe.
      assert (EventType.eqb (type ev) EventType.Info = false) as ->
          by (destruct (EventType.eqb (type ev) EventType.Info) eqn:E;
              [apply EventType_eqb_eq in E; contradiction|reflexivity]).
      cbn [negb]. rewrite andb_true_r.
      destruct (failed_attempts p =? 4) eqn:E4.
      - left. destruct (RECONNECT_AFTER <=? silence e p); cbn; auto.
      - right. cbn. rewrite andb_false_r.
        apply Z.eqb_neq in E4. split; [reflexivity|lia]. }
    destruct (IH (failed_state e p) ev Hty Hfa') as [p' [Hrun [Hf' Hp']]].
    { destruct Hstep as [Hg|[Hpe' _]]; [now left|now right]. }
    exists p'. split; [exact Hrun|].
    cbn [List.length]. rewrite Nat2Z.inj_succ. split.
    + rewrite Hf', Hnext, Zplus_mod_idemp_l. f_equal. lia.
    + destruct Hp' as [Hg|[Hpe' Hlt]]; [now left|].
      destruct Hstep as [Hg|[_ H4]].
      * left. (* the event was already gone after the first failure *)
        clear - Hg Hfa' Hrun.
        revert Hrun. generalize (failed_state e p) Hg Hfa'.
        clear. induction es as [|e' es IH']; intros q Hg Hq Hrun.
        -- cbn in Hrun. now inversion Hrun; subst.
        -- cbn [failures map run] in Hrun. rewrite after_failed in Hrun.
           apply (IH' (failed_state e' q)); auto.
           ++ now apply gone_stays_gone.
           ++ rewrite failed_attempts_next by exact Hq.
              apply Z.mod_pos_bound. lia.
      * right. split; [exact Hpe'|].
        rewrite Hnext, Z.mod_small in Hlt by lia. lia.
Qed.

Lemma run_failures_last (es : list Env) : forall (p p' : PlannerT),
  es <> [] -> run (failures es) p = Some p' ->
  exists e q, p' = failed_state e q.
Proof.
  induction es as [|e es IH]; intros p p' Hne Hrun; [contradiction|].
  cbn [failures map run] in Hrun. rewrite after_failed in Hrun.
  destruct es as [|e' es].
  - cbn in Hrun. inversion Hrun; subst. now exists e, p.
  - apply (IH (failed_state e p) p'); [discriminate|exact Hrun].
Qed.

Lemma next_action_pending (e : Env) (p : PlannerT) (ev : Event) :
  perform_cooldown p = false -> planned_event p = Some ev ->
  next_action e p = Some (ActEvent ev, p, []).
Proof.
  destruct p as [pe lt ls cd pc fa ic fc bc dl ot ts]; cbn.
  intros -> ->. reflexivity.
Qed.

Lemma event_pending_eq (e : Env) (p : PlannerT) :
  event_pending e p = Some (option_map ActEvent (planned_event p), p, []).
Proof.
  destruct p as [[ev|] lt ls cd pc fa ic fc bc dl ot ts]; reflexivity.
Qed.

(** *** After an acknowledged event *)

Lemma action_done_ok_non_info (e : Env) (p : PlannerT) (ev : Event) :
  planned_event p = Some ev -> type ev <> EventType.Info ->
  action_done ActionResult.Ok e p
  = Some (tt,
          mkPlanner None None (Some (clock e)) None false 0
            (info_changes p) (file_changes p) (background_command p)
            (download p) (observed_transfer p) (transfer_start_cmd p),
          []).
Proof.
  destruct p as [pe lt ls cd pc fa ic fc bc dl ot ts]; cbn.
  intros -> Hty. compute_m.
  destruct (EventType.eqb (type ev) EventType.Info) eqn:E;
    [apply EventType_eqb_eq in E; contradiction|reflexivity].
Qed.

(** With nothing pending and no telemetry sent yet, [next_action] sends
    telemetry unless an event is due, which it then plans and returns. *)
Lemma next_action_first_telemetry (e : Env) (p : PlannerT) :
  perform_cooldown p = false -> planned_event p = None ->
  last_telemetry p = None ->
  exists a p' log,
    next_action e p = Some (a, p', log)
    /\ (a = SendTelemetry false
        \/ exists x, a = ActEvent x /\ planned_event p' = Some x
                     /\ (type x = EventType.Info
                         \/ is_terminal (type x) = true)).
Proof.
  destruct p as [pe lt ls cd pc fa ic fc bc dl ot ts].
  destruct e as [clk fp fh pr jc sp sr cfg fg fs st mid mo scd].
  cbn. intros -> -> ->.
  destruct ot as [t|], mid as [m|]; try destruct (mo t) as [o|] eqn:Ho;
    split_probes; try rewrite Ho; split_probes;
    do 3 eexists; (split; [reflexivity|]); cbn;
    first [left; reflexivity
          | right; eexists; repeat split; cbn; auto; destruct o; auto].
Qed.

Lemma next_action_nothing_due (e : Env) (p : PlannerT) :
  perform_cooldown p = false -> planned_event p = None ->
  last_telemetry p = None ->
  fst (set_hash (info_fingerprint e) (info_changes p)) = false ->
  fst (set_hash (files_hash e) (file_changes p)) = false ->
  (monitor_id e = observed_transfer p
   \/ forall t, observed_transfer p = Some t -> monitor_outcome e t = None) ->
  exists p' log, next_action e p = Some (SendTelemetry false, p', log).
Proof.
  destruct p as [pe lt ls cd pc fa ic fc bc dl ot ts].
  destruct e as [clk fp fh pr jc sp sr cfg fg fs st mid mo scd].
  cbn. intros -> -> -> Hi Hf Hedge.
  compute_m. rewrite Hi. compute_m. rewrite Hf.
  destruct ot as [t|], mid as [m|]; compute_m.
  - destruct (Z.eqb t m) eqn:E; compute_m; [do 2 eexists; reflexivity|].
    destruct Hedge as [Hm|Hout].
    + inversion Hm; subst. rewrite Z.eqb_refl in E. discriminate.
    + rewrite (Hout t eq_refl). do 2 eexists; reflexivity.
  - destruct Hedge as [Hm|Hout]; [discriminate|].
    rewrite (Hout t eq_refl). do 2 eexists; reflexivity.
  - do 2 eexists; reflexivity.
  - do 2 eexists; reflexivity.
Qed.

(** *** Reporting the end of a transfer *)

(** Splits the innermost test a computation is stuck on. *)
Ltac split_stuck :=
  repeat (compute_m;
          match goal with
          | |- context [match ?x with _ => _ end] =>
              lazymatch x with
              | context [match _ with _ => _ end] => fail
              | _ => destruct x eqn:?
              end
          end);
  compute_m.

Ltac solve_shape :=
  cbn; split;
  [ auto
  | first [ left; reflexivity
          | right; left; reflexivity
          | right; right; eexists; split; [reflexivity|]; cbn; auto ] ].

Lemma after_shape (e : Env) (op : Op) (p : PlannerT) :
  match after e op p with
  | Some p' => step_shape e p p'
  | None => True
  end.
Proof.
  destruct p as [pe lt ls cd pc fa ic fc bc dl ot ts].
  destruct e as [clk fp fh pr jc sp sr cfg fg fs st mid mo scd].
  unfold step_shape.
  destruct op as [| |result|[cid data]|result|];
    [ | | destruct result | destruct data | destruct result | ];
    split_stuck; try exact I; solve_shape.
Qed.

Lemma after_shape_of (e : Env) (op : Op) (p p' : PlannerT) :
  after e op p = Some p' -> step_shape e p p'.
Proof.
  intros H. pose proof (after_shape e op p) as Hs. now rewrite H in Hs.
Qed.

Lemma terminal_for_transfer_id (tid : TransferId) (ev : Event) :
  terminal_for tid ev = true ->
  is_terminal (type ev) = true /\ transfer_id ev = Some tid.
Proof.
  unfold terminal_for. rewrite andb_true_iff. intros [Hty Hid].
  split; [exact Hty|].
  destruct (transfer_id ev) as [t|]; cbn in Hid; [|discriminate].
  apply Z.eqb_eq in Hid. now subst.
Qed.

Lemma no_fresh_terminal (tid : TransferId) (e : Env) (op : Op)
    (p p' : PlannerT) :
  observed_transfer p <> Some tid ->
  monitor_id e <> Some tid ->
  after e op p = Some p' ->
  observed_transfer p' <> Some tid /\ ~ plans_terminal_for tid p p'.
Proof.
  intros Hobs Hmon Hafter.
  destruct (after_shape_of e op p p' Hafter) as [Hot Hpe]. split.
  - destruct Hot as [-> | ->]; assumption.
  - intros [ev [Hev [Hterm Hfresh]]].
    apply terminal_for_transfer_id in Hterm. destruct Hterm as [Hty Hid].
    destruct Hpe as [Hsame|[Hnone|[ev' [Hev' Hkind]]]].
    + rewrite Hsame in Hev. contradiction.
    + rewrite Hnone in Hev. discriminate.
    + rewrite Hev' in Hev. inversion Hev; subst ev'.
      destruct Hkind as [Hno|Hold]; congruence.
Qed.

Lemma run_keeps_unobserved (tid : TransferId) (calls : list (Env * Op)) :
  forall p p' : PlannerT,
    observed_transfer p <> Some tid ->
    never_current tid calls ->
    run calls p = Some p' ->
    observed_transfer p' <> Some tid.
Proof.
  induction calls as [|[e op] calls IH]; intros p p' Hobs Hnever Hrun.
  - cbn in Hrun. now inversion Hrun; subst.
  - cbn [run] in Hrun. inversion Hnever as [|c cs Hc Hcs]; subst.
    destruct (after e op p) as [p1|] eqn:Hafter; [|discriminate].
    apply (IH p1 p'); auto.
    now apply (no_fresh_terminal tid e op p p1).
Qed.

Lemma next_action_transfer_edge (e : Env) (p : PlannerT)
    (t : TransferId) (o : Outcome.t) :
  perform_cooldown p = false ->
  planned_event p = None ->
  fst (set_hash (info_fingerprint e) (info_changes p)) = false ->
  fst (set_hash (files_hash e) (file_changes p)) = false ->
  observed_transfer p = Some t ->
  monitor_id e <> Some t ->
  monitor_outcome e t = Some o ->
  next_action e p
  = Some (ActEvent
            (mkEvent (terminal_type o) None None None (Some t) None false
               (transfer_start_cmd p)),
          mkPlanner
            (Some (mkEvent (terminal_type o) None None None (Some t) None
                     false (transfer_start_cmd p)))
            (last_telemetry p) (last_success p) (cooldown p) false
            (failed_attempts p)
            (snd (set_hash (info_fingerprint e) (info_changes p)))
            (snd (set_hash (files_hash e) (file_changes p)))
            (background_command p) (download p) (monitor_id e) None,
          [CallInfoFingerprint; CallFilesHash; CallMonitorId;
           CallMonitorOutcome t]).
Proof.
  destruct p as [pe lt ls cd pc fa ic fc bc dl ot ts].
  destruct e as [clk fp fh pr jc sp sr cfg fg fs st mid mo scd].
  cbn. intros -> -> Hi Hf -> Hmid Ho.
  compute_m. rewrite Hi. compute_m. rewrite Hf. compute_m.
  destruct mid as [m|]; compute_m.
  - destruct (Z.eqb t m) eqn:E; compute_m.
    + apply Z.eqb_eq in E. subst. contradiction.
    + rewrite Ho. reflexivity.
  - rewrite Ho. reflexivity.
Qed.

(** How an [Info] comes due when nothing is pending: the info tracker is
    asked first, the file tracker only if the former reports no change. *)
Lemma next_action_info_due (e : Env) (p : PlannerT) :
  perform_cooldown p = false ->
  planned_event p = None ->
  let info := set_hash (info_fingerprint e) (info_changes p) in
  let files := set_hash (files_hash e) (file_changes p) in
  let event (rescan : bool) :=
    mkEvent EventType.Info None None None None None rescan None in
  (fst info = true ->
   next_action e p
   = Some (ActEvent (event (is_dirty (file_changes p))),
           set_planned_event (Some (event (is_dirty (file_changes p))))
             (set_info_changes (snd info) p),
           [CallInfoFingerprint]))
  /\ (fst info = false -> fst files = true ->
      next_action e p
      = Some (ActEvent (event (is_dirty (snd files))),
              set_planned_event (Some (event (is_dirty (snd files))))
                (set_file_changes (snd files)
                   (set_info_changes (snd info) p)),
              [CallInfoFingerprint; CallFilesHash])).
Proof.
  intros Hpc Hpe. cbv zeta.
  destruct p as [pe lt ls cd pc fa ic fc bc dl ot ts].
  destruct e as [clk fp fh pr jc sp sr cfg fg fs st mid mo scd].
  cbn in Hpc, Hpe. subst pc pe.
  cbn [info_fingerprint files_hash info_changes file_changes].
  split.
  - intros Hi. compute_m. rewrite Hi. compute_m.
    destruct (is_dirty fc); reflexivity.
  - intros Hi Hf. compute_m. rewrite Hi. compute_m. rewrite Hf. compute_m.
    destruct (is_dirty (snd (set_hash fh fc))); reflexivity.
Qed.

(** C2, as the code has it. After [action_done(Ok)] has consumed a
    pending event other than [Info], nothing is pending and the telemetry
    timer is cleared, so the following [next_action] sends telemetry --
    provided neither change tracker reports a change and no transfer end
    is to be reported (the monitor's current transfer is the observed one,
    or the monitor has no outcome for the observed one). Otherwise it
    plans and returns the event that is due: the [Info] event when the
    info tracker reports a change, or else when the file tracker does; and
    when neither does, the event that reports the end of the observed
    transfer, for which the monitor has an outcome and which is no longer
    the current one. *)
Theorem telemetry_follows_acknowledged_event :
  forall (e0 e1 : Env) (p : PlannerT) (ev : Event),
    planned_event p = Some ev ->
    type ev <> EventType.Info ->
    exists p1 : PlannerT,
      after e0 (OpActionDone ActionResult.Ok) p = Some p1
      /\ planned_event p1 = None
      /\ last_telemetry p1 = None
      /\ (fst (set_hash (info_fingerprint e1) (info_changes p1)) = false ->
          fst (set_hash (files_hash e1) (file_changes p1)) = false ->
          (monitor_id e1 = observed_transfer p1
           \/ forall t, observed_transfer p1 = Some t ->
                        monitor_outcome e1 t = None) ->
          exists p2 log,
            next_action e1 p1 = Some (SendTelemetry false, p2, log))
      /\ (exists a p2 log,
             next_action e1 p1 = Some (a, p2, log)
             /\ (a = SendTelemetry false
                 \/ exists x,
                      a = ActEvent x /\ planned_event p2 = Some x
                      /\ (type x = EventType.Info
                          \/ is_terminal (type x) = true)))
      /\ (fst (set_hash (info_fingerprint e1) (info_changes p1)) = true ->
          exists p2 log,
            next_action e1 p1
            = Some (ActEvent
                      (mkEvent EventType.Info None None None None None
                         (is_dirty (file_changes p1)) None),
                    p2, log)
            /\ planned_event p2
               = Some (mkEvent EventType.Info None None None None None
                         (is_dirty (file_changes p1)) None))
      /\ (fst (set_hash (info_fingerprint e1) (info_changes p1)) = false ->
          fst (set_hash (files_hash e1) (file_changes p1)) = true ->
          exists p2 log,
            next_action e1 p1
            = Some (ActEvent
                      (mkEvent EventType.Info None None None None None
                         (is_dirty
                            (snd (set_hash (files_hash e1)
                                    (file_changes p1))))
                         None),
                    p2, log)
            /\ planned_event p2
               = Some (mkEvent EventType.Info None None None None None
                         (is_dirty
                            (snd (set_hash (files_hash e1)
                                    (file_changes p1))))
                         None))
      /\ (fst (set_hash (info_fingerprint e1) (info_changes p1)) = false ->
          fst (set_hash (files_hash e1) (file_changes p1)) = false ->
          forall (t : TransferId) (o : Outcome.t),
            observed_transfer p1 = Some t ->
            monitor_id e1 <> Some t ->
            monitor_outcome e1 t = Some o ->
            exists p2 log,
              next_action e1 p1
              = Some (ActEvent
                        (mkEvent (terminal_type o) None None None (Some t)
                           None false (transfer_start_cmd p1)),
                      p2, log)
              /\ planned_event p2
                 = Some (mkEvent (terminal_type o) None None None (Some t)
                           None false (transfer_start_cmd p1))
              /\ observed_transfer p2 = monitor_id e1).
Proof.
  intros e0 e1 p ev Hpe Hty.
  eexists. split.
  - unfold after, exec. rewrite (action_done_ok_non_info e0 p ev Hpe Hty).
    reflexivity.
  - split; [reflexivity|]. split; [reflexivity|]. split.
    + intros Hi Hf Hedge.
      apply next_action_nothing_due; auto.
    + split; [apply next_action_first_telemetry; reflexivity|].
      match goal with
      | |- context [next_action e1 ?q] =>
          pose proof (next_action_info_due e1 q eq_refl eq_refl) as Hdue;
          pose proof (next_action_transfer_edge e1 q) as Hedge
      end.
      cbv zeta in Hdue. destruct Hdue as [Hinfo Hfiles].
      split; [|split].
      * intros Hi. do 2 eexists. split; [exact (Hinfo Hi)|reflexivity].
      * intros Hi Hf. do 2 eexists.
        split; [exact (Hfiles Hi Hf)|reflexivity].
      * intros Hi Hf t o Hobs Hmid Hout. do 2 eexists.
        split; [exact (Hedge t o eq_refl eq_refl Hi Hf Hobs Hmid Hout)|].
        split; reflexivity.
Qed.

(** *** Commands *)

Lemma strlen_append (a b : string) :
  CString.strlen (a ++ b) = (CString.strlen a + CString.strlen b)%nat.
Proof. induction a as [|c a IH]; cbn; [reflexivity|now rewrite IH]. Qed.

Lemma decimal_width (w : nat) : forall n : Z,
  (CString.strlen (decimal w n) <= w)%nat.
Proof.
  induction w as [|w IH]; intros n; cbn [decimal]; [cbn; lia|].
  rewrite strlen_append. cbn [CString.strlen].
  destruct (n <? 10); [cbn; lia|].
  specialize (IH (n / 10)). lia.
Qed.

(** The buffer is large enough: the assertion after [snprintf] holds. *)
Lemma url_fits (team : Z) (hash : string) :
  Nat.ltb
    (CString.strlen ("/p/teams/" ++ PRIu64 team ++ "/files/" ++ hash ++ "/raw"))
    (CString.strlen "/p/teams/" + 21 + CString.strlen "/files/"
     + CString.strlen hash + CString.strlen "/raw" + 1)
  = true.
Proof.
  apply Nat.ltb_lt. rewrite !strlen_append.
  pose proof (decimal_width 20 (team mod 2 ^ 64)) as Hw.
  unfold PRIu64. cbn [CString.strlen]. lia.
Qed.

(** C8. While a background command is active, [command] does nothing but
    plan the answer -- [Accepted] for [ProcessingThisCommand], [Rejected]
    for any other variant, with the command's id and no reason -- whatever
    the collaborators would say: every other member of the planner is as
    before, and no collaborator is called. The method asserts that no event
    is pending; it returns exactly when that holds. *)
Theorem busy_command_only_answers :
  forall (e : Env) (c : Command) (p : PlannerT) (b : BackgroundCommand),
    background_command p = Some b ->
    (planned_event p = None ->
     command c e p
     = Some (tt,
             set_planned_event
               (Some (mkEvent
                        (match command_data c with
                         | ProcessingThisCommand => EventType.Accepted
                         | _ => EventType.Rejected
                         end)
                        (Some (id c)) None None None None false None)) p,
             []))
    /\ (forall (r : unit) (p' : PlannerT) (log : list Call),
           command c e p = Some (r, p', log) ->
           planned_event p = None
           /\ p' = set_planned_event
                     (Some (mkEvent
                              (match command_data c with
                               | ProcessingThisCommand => EventType.Accepted
                               | _ => EventType.Rejected
                               end)
                              (Some (id c)) None None None None false None))
                     p
           /\ background_command p' = Some b
           /\ download p' = download p
           /\ log = []).
Proof.
  intros e [cid data] p b Hbg.
  destruct p as [pe lt ls cd pc fa ic fc bc dl ot ts]. cbn in Hbg. subst bc.
  split.
  - cbn. intros ->. destruct data; reflexivity.
  - intros r p' log. destruct pe as [ev|]; [discriminate|].
    destruct data; intros H; inversion H; subst; repeat split.
Qed.

(** C6. The handler of [StartConnectDownload] asks the printer for its
    configuration without resetting the changed flag, and then: rejects
    with "Switching config" if the configuration changed; else rejects with
    "Encryption of downloads not supported" if TLS is on; else starts the
    download, and stores the handle, plans [Finished] and sets
    [transfer_start_cmd] to the command's id when it gets one (the slot
    being free, as it asserts), and rejects with the listed reason, or the
    storage's own message, when it does not. The log shows the order of the
    calls: nothing is asked after a rejection of the first two kinds. *)
Theorem start_connect_download_checks_in_order :
  forall (e : Env) (c : Command) (team : Z) (hash dest : string)
         (p : PlannerT),
    let cfg := fst (config e false) in
    let changed := snd (config e false) in
    let url := "/p/teams/" ++ PRIu64 team ++ "/files/" ++ hash ++ "/raw" in
    let answer :=
      start_connect_download e (host cfg) (port cfg) url dest (token cfg)
        (fingerprint e) (FINGERPRINT_HDR_SIZE e) in
    let asked :=
      [CallConfig false; CallPrinterInfo;
       CallStartConnectDownload (host cfg) (port cfg) url dest (token cfg)
         (fingerprint e) (FINGERPRINT_HDR_SIZE e)] in
    let reject (why : option string) :=
      set_planned_event
        (Some (mkEvent EventType.Rejected (Some (id c)) None None None why
                 false None)) p in
    (changed = true ->
     command_StartConnectDownload c team hash dest e p
     = Some (tt, reject (Some "Switching config"), [CallConfig false]))
    /\ (changed = false -> tls cfg = true ->
        command_StartConnectDownload c team hash dest e p
        = Some (tt, reject (Some "Encryption of downloads not supported"),
                [CallConfig false]))
    /\ (changed = false -> tls cfg = false ->
        match answer with
        | Started d =>
            download p = None ->
            command_StartConnectDownload c team hash dest e p
            = Some (tt,
                    set_transfer_start_cmd (Some (id c))
                      (set_planned_event
                         (Some (mkEvent EventType.Finished (Some (id c))
                                  None None None None false None))
                         (set_download (Some d) p)),
                    asked)
        | NoTransferSlot =>
            command_StartConnectDownload c team hash dest e p
            = Some (tt, reject (Some "Another transfer in progress"), asked)
        | AlreadyExists =>
            command_StartConnectDownload c team hash dest e p
            = Some (tt, reject (Some "File already exists"), asked)
        | RefusedRequest =>
            command_StartConnectDownload c team hash dest e p
            = Some (tt, reject (Some "Failed to download"), asked)
        | Storage msg =>
            command_StartConnectDownload c team hash dest e p
            = Some (tt, reject msg, asked)
        end).
Proof.
  intros e [cid data] team hash dest p. cbv zeta.
  destruct p as [pe lt ls cd pc fa ic fc bc dl ot ts].
  destruct e as [clk fp fh pr jc sp sr cfg fg fs st mid mo scd].
  cbn [config fingerprint FINGERPRINT_HDR_SIZE start_connect_download id
       download].
  destruct (cfg false) as [[h po tk tl] changed] eqn:Hcfg.
  cbn [fst snd host port token tls].
  split; [|split].
  - intros ->. compute_m. rewrite Hcfg. reflexivity.
  - intros -> ->. compute_m. rewrite Hcfg. reflexivity.
  - intros -> ->.
    destruct (scd h po _ dest tk fg fs) as [d| | | |msg] eqn:Hscd;
      [intros Hdl; cbn in Hdl; subst dl|..];
      compute_m; rewrite Hcfg; cbn [fst snd]; compute_m;
      rewrite url_fits; compute_m; rewrite Hscd; reflexivity.
Qed.

(** *** The cooldown *)

Lemma wrap32_small z : 0 <= z < 2 ^ 32 -> wrap32 z = z.
Proof. intros H. unfold wrap32. now apply Z.mod_small. Qed.

Lemma backoff_bounds k : 0 < backoff k <= COOLDOWN_MAX.
Proof.
  unfold backoff, COOLDOWN_MAX, COOLDOWN_BASE.
  assert (0 < 2 ^ Z.of_nat k) by (apply Z.pow_pos_nonneg; lia).
  lia.
Qed.

Lemma backoff_next k :
  Z.min COOLDOWN_MAX (wrap32 (backoff k * 2)) = backoff (S k).
Proof.
  pose proof (backoff_bounds k) as Hb.
  rewrite wrap32_small by (unfold COOLDOWN_MAX in Hb; lia).
  unfold backoff, COOLDOWN_MAX, COOLDOWN_BASE in *.
  rewrite Nat2Z.inj_succ, Z.pow_succ_r by lia.
  assert (0 < 2 ^ Z.of_nat k) by (apply Z.pow_pos_nonneg; lia).
  lia.
Qed.

Lemma backoff_capped k : (10 <= k)%nat -> backoff k = COOLDOWN_MAX.
Proof.
  intros Hk. unfold backoff, COOLDOWN_MAX, COOLDOWN_BASE.
  assert (2 ^ 10 <= 2 ^ Z.of_nat k) by (apply Z.pow_le_mono_r; lia).
  change (2 ^ 10) with 1024 in *. lia.
Qed.

Lemma observe_cooldown_from (es : list Env) : forall (p : PlannerT) (k : nat),
  cooldown p = Some (backoff k) ->
  observe cooldown (failures es) p
  = map (fun j => Some (backoff j)) (seq (S k) (List.length es)).
Proof.
  induction es as [|e es IH]; intros p k Hc; [reflexivity|].
  cbn [failures map observe List.length seq]. rewrite after_failed.
  assert (cooldown (failed_state e p) = Some (backoff (S k))) as Hnext.
  { unfold failed_state; cbn. rewrite Hc; cbn. now rewrite backoff_next. }
  rewrite Hnext. f_equal. now apply IH.
Qed.

Lemma next_action_sleeps (e : Env) (p : PlannerT) (c : Duration) :
  perform_cooldown p = true -> cooldown p = Some c ->
  next_action e p
  = Some (ActSleep
            (mkSleep c
               (match background_command p with
                | Some bc =>
                    if negb (has_value (planned_event p))
                    then Some (bg_command bc) else None
                | None => None
                end)
               (download p)),
          set_perform_cooldown false p, []).
Proof.
  destruct p as [pe lt ls cd pc fa ic fc bc dl ot ts]; cbn.
  intros -> ->. destruct bc, pe; reflexivity.
Qed.

(** C4. Starting from no cooldown, consecutive failures set the cooldown
    to 100, 200, 400, ... doubled each time and capped at 60 000; each
    failure sets it to [min 60000 (2 * previous)], 50 standing for a
    missing previous value, and makes the next [next_action] return a
    [Sleep] of that duration. *)
Theorem cooldown_sequence :
  (forall (es : list Env) (p : PlannerT),
      cooldown p = None ->
      observe cooldown (failures es) p
      = map (fun k => Some (backoff k)) (seq 0 (List.length es)))
  /\ map backoff (seq 0 12)
     = [100; 200; 400; 800; 1600; 3200; 6400; 12800; 25600; 51200;
        60000; 60000]
  /\ (forall k : nat, (10 <= k)%nat -> backoff k = 60000)
  /\ (forall (e : Env) (p : PlannerT),
        (forall c, cooldown p = Some c -> 0 <= c <= 60000) ->
        exists p',
          after e (OpActionDone ActionResult.Failed) p = Some p'
          /\ cooldown p'
             = Some (Z.min 60000 (2 * value_or (cooldown p) 50))
          /\ perform_cooldown p' = true
          /\ forall e' : Env, exists cmd down,
               next_action e' p'
               = Some (ActSleep
                         (mkSleep
                            (Z.min 60000 (2 * value_or (cooldown p) 50))
                            cmd down),
                       set_perform_cooldown false p', [])).
Proof.
  split; [|split; [|split]].
  - intros [|e es] p Hc; [reflexivity|].
    cbn [failures map observe List.length seq]. rewrite after_failed.
    assert (cooldown (failed_state e p) = Some (backoff 0)) as Hfirst.
    { unfold failed_state; cbn. now rewrite Hc. }
    rewrite Hfirst. f_equal. now apply observe_cooldown_from.
  - reflexivity.
  - exact backoff_capped.
  - intros e p Hc. exists (failed_state e p).
    assert (cooldown (failed_state e p)
            = Some (Z.min 60000 (2 * value_or (cooldown p) 50))) as Hcd.
    { unfold failed_state; cbn [cooldown].
      change (COOLDOWN_BASE / 2) with 50. change COOLDOWN_MAX with 60000.
      destruct (cooldown p) as [c|] eqn:E; cbn [value_or]; [|reflexivity].
      specialize (Hc c eq_refl).
      rewrite wrap32_small by lia. do 2 f_equal. lia. }
    split; [apply after_failed|]. split; [exact Hcd|].
    split; [reflexivity|].
    intros e'. eexists. eexists.
    apply next_action_sleeps; [reflexivity|exact Hcd].
Qed.

(** The give-up counter over five failures. [failed_attempts] counts the
    failures since the last success or give-up, whatever was being sent;
    counted from 0 it behaves as a count per event would. Starting from a
    count [k] below five with an event pending, five consecutive failures
    leave the count at [k] again (at 0 when it started at 0); the next
    [next_action] is the cooldown [Sleep]; an [Info] event is still
    pending, and the [next_action] after the sleep returns it; any other
    event has been dropped, what is pending being nothing or the [Info]
    event made up after a long silence, so that [next_action] no longer
    returns the dropped event as the pending one. *)
Theorem five_failures_giveup :
  forall (es : list Env) (p : PlannerT) (ev : Event),
    List.length es = 5%nat ->
    planned_event p = Some ev ->
    0 <= failed_attempts p < 5 ->
    exists (p' : PlannerT) (c : Duration),
      run (failures es) p = Some p'
      /\ failed_attempts p' = failed_attempts p
      /\ (failed_attempts p = 0 -> failed_attempts p' = 0)
      /\ (forall e : Env, exists cmd down,
             next_action e p'
             = Some (ActSleep (mkSleep c cmd down),
                     set_perform_cooldown false p', []))
      /\ (type ev = EventType.Info ->
          planned_event p' = Some ev
          /\ forall e : Env,
               next_action e (set_perform_cooldown false p')
               = Some (ActEvent ev, set_perform_cooldown false p', []))
      /\ (type ev <> EventType.Info ->
          gone p'
          /\ planned_event p' <> Some ev
          /\ forall (e : Env) r q log,
               event_pending e (set_perform_cooldown false p')
               = Some (r, q, log) ->
               r <> Some (ActEvent ev)).
Proof.
  intros es p ev Hlen Hpe Hfa.
  assert (es <> []) as Hne by (intros ->; discriminate Hlen).
  assert ((failed_attempts p + Z.of_nat (List.length es)) mod 5
          = failed_attempts p) as Hmod.
  { rewrite Hlen. change (Z.of_nat 5) with (1 * 5).
    rewrite Z_mod_plus_full. apply Z.mod_small. lia. }
  assert (forall p' : PlannerT,
             run (failures es) p = Some p' ->
             exists c, forall e : Env, exists cmd down,
               next_action e p'
               = Some (ActSleep (mkSleep c cmd down),
                       set_perform_cooldown false p', [])) as Hsleep.
  { intros p' Hrun.
    destruct (run_failures_last es p p' Hne Hrun) as [e0 [q ->]].
    eexists. intros e. eexists. eexists.
    apply next_action_sleeps; reflexivity. }
  destruct (EventType.eqb (type ev) EventType.Info) eqn:Hty.
  - apply EventType_eqb_eq in Hty.
    destruct (failures_keep_info es p ev Hty Hpe Hfa)
      as [p' [Hrun [Hp' Hf']]].
    destruct (Hsleep p' Hrun) as [c Hc].
    exists p', c. rewrite Hmod in Hf'.
    split; [exact Hrun|]. split; [exact Hf'|].
    split; [intros H0; now rewrite Hf'|]. split; [exact Hc|].
    split; [|intros Hn; contradiction].
    intros _. split; [exact Hp'|].
    intros e. apply next_action_pending; [reflexivity|].
    destruct p'; exact Hp'.
  - assert (type ev <> EventType.Info) as Hn
        by (intros H; apply EventType_eqb_eq in H; congruence).
    destruct (failures_giveup es p ev Hn Hfa (or_intror Hpe))
      as [p' [Hrun [Hf' Hp']]].
    destruct (Hsleep p' Hrun) as [c Hc].
    exists p', c. rewrite Hmod in Hf'.
    split; [exact Hrun|]. split; [exact Hf'|].
    split; [intros H0; now rewrite Hf'|]. split; [exact Hc|].
    split; [intros H; contradiction|].
    intros _.
    assert (gone p') as Hg
        by (destruct Hp' as [Hg|[_ Hlt]]; [exact Hg|rewrite Hlen in Hlt; lia]).
    assert (planned_event p' <> Some ev) as Hdrop.
    { destruct Hg as [Hg|Hg]; rewrite Hg; [discriminate|].
      intros H; inversion H; subst; now apply Hn. }
    split; [exact Hg|]. split; [exact Hdrop|].
    intros e r q log Hev. rewrite event_pending_eq in Hev.
    inversion Hev; subst. intros H.
    destruct p' as [pe lt ls cd pc fa ic fc bc dl ot ts]; cbn in *.
    destruct pe as [x|]; cbn in H; [|discriminate].
    inversion H; subst. now apply Hdrop.
Qed.

(** C5, as the code has it. When a call of [next_action] gets to compare
    the monitor's current transfer with [observed_transfer] (no cooldown to
    perform, no pending event, no [Info] due), finds them different and the
    monitor still has an outcome for the observed one, it plans and returns
    one event --
    [TransferFinished] for [Finished], [TransferAborted] for [Error],
    [TransferStopped] for [Stopped] -- with [transfer_id] the observed
    transfer and [start_cmd_id] the value of [transfer_start_cmd], which it
    then clears. From then on, as long as the monitor does not report that
    transfer as the current one again, no call of any method plans an event
    that reports its end. *)
Theorem terminated_transfer_reported_once :
  forall (e : Env) (p : PlannerT) (t : TransferId) (o : Outcome.t),
    perform_cooldown p = false ->
    planned_event p = None ->
    fst (set_hash (info_fingerprint e) (info_changes p)) = false ->
    fst (set_hash (files_hash e) (file_changes p)) = false ->
    observed_transfer p = Some t ->
    monitor_id e <> Some t ->
    monitor_outcome e t = Some o ->
    exists (p' : PlannerT) (log : list Call) (ev : Event),
      next_action e p = Some (ActEvent ev, p', log)
      /\ planned_event p' = Some ev
      /\ type ev = match o with
                   | Outcome.Finished => EventType.TransferFinished
                   | Outcome.Error => EventType.TransferAborted
                   | Outcome.Stopped => EventType.TransferStopped
                   end
      /\ transfer_id ev = Some t
      /\ start_cmd_id ev = transfer_start_cmd p
      /\ transfer_start_cmd p' = None
      /\ observed_transfer p' = monitor_id e
      /\ forall (calls : list (Env * Op)) (p1 : PlannerT)
                (e' : Env) (op : Op) (p2 : PlannerT),
           never_current t (calls ++ [(e', op)])%list ->
           run calls p' = Some p1 ->
           after e' op p1 = Some p2 ->
           ~ plans_terminal_for t p1 p2.
Proof.
  intros e p t o Hpc Hpe Hi Hf Hobs Hmid Hout.
  do 3 eexists.
  split; [apply (next_action_transfer_edge e p t o); assumption|].
  cbn [planned_event transfer_start_cmd observed_transfer type transfer_id
       start_cmd_id].
  split; [reflexivity|]. split; [now destruct o|].
  split; [reflexivity|]. split; [reflexivity|].
  split; [reflexivity|]. split; [reflexivity|].
  intros calls p1 e' op p2 Hnever Hrun Hafter.
  unfold never_current in Hnever. apply Forall_app in Hnever.
  destruct Hnever as [Hcalls Hlast].
  inversion Hlast as [|c cs Hc _]; subst. cbn in Hc.
  apply (no_fresh_terminal t e' op p1 p2); [|exact Hc|exact Hafter].
  eapply run_keeps_unobserved; [|exact Hcalls|exact Hrun].
  exact Hmid.
Qed.

End WithTracker.

(** *** Examples on the sample planner *)

Lemma failed_reconnects_after_silence_witness :
  giveup (calm 20000) (set_last_success (Some 5000) quiet)
  = Some (tt, set_failed_attempts 1 (set_last_success (Some 5000) quiet), [])
  /\ exists p',
       after (calm 20000) (OpActionDone ActionResult.Failed)
         (set_last_success (Some 5000) quiet) = Some p'
       /\ planned_event p' = Some (Event1 EventType.Info)
       /\ last_success p' = None.
Proof.
  split; [reflexivity|].
  destruct (failed_reconnects_after_silence (calm 20000)
              (set_last_success (Some 5000) quiet) _ eq_refl eq_refl)
    as [p' [Hafter [Hold _]]].
  exists p'. split; [exact Hafter|].
  apply (Hold 5000); [reflexivity|].
  cbv; discriminate.
Defined.

(** C1, as the specification words it, fails: with no [last_success] and
    nothing pending, [action_done(Failed)] plans no [Info] event. *)
Lemma failed_without_last_success_plans_nothing :
  ~ (forall (e : Env) (p p1 p' : Planner (T := Tracked)),
        giveup e p = Some (tt, p1, []) ->
        planned_event p1 = None ->
        (last_success p = None
         \/ exists past, last_success p = Some past
                         /\ 10000 <= wrap32 (clock e - past)) ->
        after e (OpActionDone ActionResult.Failed) p = Some p' ->
        (exists ev, planned_event p' = Some ev
                    /\ type ev = EventType.Info)
        /\ last_success p' = None).
Proof.
  intros H.
  destruct (H (calm 20000) quiet _ _ eq_refl eq_refl
              (or_introl eq_refl) eq_refl) as [[ev [Hev _]] _].
  discriminate Hev.
Qed.

(** A [FileInfo] event, five failures. *)
Lemma five_failures_giveup_witness :
  exists p' c,
    run (failures (map calm [1; 2; 3; 4; 5]))
      (set_planned_event
         (Some (Event_ EventType.FileInfo (Some 42) None
                  (Some "/usb/x.gco") None None))
         quiet) = Some p'
    /\ failed_attempts p' = 0
    /\ (forall e : Env, exists cmd down,
           next_action e p'
           = Some (ActSleep (mkSleep c cmd down),
                   set_perform_cooldown false p', [])).
Proof.
  destruct (five_failures_giveup (map calm [1; 2; 3; 4; 5])
              (set_planned_event
                 (Some (Event_ EventType.FileInfo (Some 42) None
                          (Some "/usb/x.gco") None None))
                 quiet)
              (Event_ EventType.FileInfo (Some 42) None
                 (Some "/usb/x.gco") None None)
              eq_refl eq_refl (conj (Z.le_refl 0) eq_refl))
    as [p' [c [Hrun [Hfa [_ [Hsleep _]]]]]].
  exists p', c. split; [exact Hrun|]. split; [exact Hfa|exact Hsleep].
Defined.

(** One failure counted before the event became pending is enough for the
    count not to be 0 after five more. *)
Lemma five_failures_count_not_reset :
  ~ (forall (es : list Env) (p p' : Planner (T := Tracked)) (ev : Event),
        List.length es = 5%nat ->
        planned_event p = Some ev ->
        run (failures es) p = Some p' ->
        failed_attempts p' = 0).
Proof.
  intros H.
  assert (exists p',
             run (failures (map calm [1; 2; 3; 4; 5]))
               (set_failed_attempts 1
                  (set_planned_event
                     (Some (Event2 EventType.Finished (Some 7))) quiet))
             = Some p'
             /\ failed_attempts p' = 1) as [p' [Hrun Hfa]]
      by (vm_compute; eexists; split; reflexivity).
  specialize (H (map calm [1; 2; 3; 4; 5])
                (set_failed_attempts 1
                   (set_planned_event
                      (Some (Event2 EventType.Finished (Some 7))) quiet))
                p' (Event2 EventType.Finished (Some 7))
                eq_refl eq_refl Hrun).
  rewrite Hfa in H. discriminate H.
Qed.

(** C3. The limit of five attempts is to be counted per event, and the
    code counts it per connection instead: [failed_attempts] is not reset
    when a new event becomes pending. In a run the driver can make -- a
    G-code command accepted and acknowledged, four failed attempts at
    telemetry, the command finishing during the fourth cooldown sleep --
    the [Finished] event of the command becomes pending with the count
    already at 4; it is handed out once, and the first failure to send it
    drops it. Five failures in a row from that point leave the count at 4,
    not 0. *)
Theorem fresh_event_dropped_at_first_failure :
  exists p4 p5 p6 p7 p8 : Planner (T := Tracked),
    run gcode_then_four_failures quiet = Some p4
    /\ planned_event p4 = None
    /\ failed_attempts p4 = 4
    /\ next_action (calm 1020) p4
       = Some (ActSleep
                 (mkSleep 800 (Some (BackgroundGcode "M117 hi" 7 0)) None),
               p5, [])
    /\ after (calm 1500) (OpBackgroundDone Success) p5 = Some p6
    /\ planned_event p6 = Some (Event2 EventType.Finished (Some 7))
    /\ failed_attempts p6 = 4
    /\ next_action (calm 2000) p6
       = Some (ActEvent (Event2 EventType.Finished (Some 7)), p6, [])
    /\ after (calm 2010) (OpActionDone ActionResult.Failed) p6 = Some p7
    /\ planned_event p7 = None
    /\ failed_attempts p7 = 0
    /\ run (failures (map calm [2010; 2020; 2030; 2040; 2050])) p6 = Some p8
    /\ planned_event p8 = None
    /\ failed_attempts p8 = 4.
Proof.
  do 5 eexists.
  repeat (split; [vm_compute; reflexivity|]).
  vm_compute; reflexivity.
Qed.

(** Calling again what changed nothing changes nothing. *)
Lemma run_repeat_fixed {T : Type} {tracker : ChangeTracker T}
    (e : Env) (op : Op) (p : Planner (T := T)) (n : nat) :
  after e op p = Some p -> run (repeat (e, op) n) p = Some p.
Proof.
  intros Hfix. induction n as [|n IH]; [reflexivity|].
  cbn [repeat run]. rewrite Hfix. exact IH.
Qed.

(** C5, as the specification words it, fails: the printer's fingerprint
    has changed, so [next_action] plans the [Info] event and returns it,
    call after call; the end of transfer 5, which the monitor remembers, is
    not reported by any number of calls of [next_action]. *)
Lemma info_due_defers_transfer_end :
  ~ (forall (e : Env) (p : Planner (T := Tracked)) (t : TransferId)
            (o : Outcome.t),
        observed_transfer p = Some t ->
        monitor_id e <> Some t ->
        monitor_outcome e t = Some o ->
        exists (n : nat) (p' : Planner (T := Tracked)) (ev : Event),
          run (repeat (e, OpNextAction) n) p = Some p'
          /\ planned_event p' = Some ev
          /\ terminal_for t ev = true).
Proof.
  intros H.
  destruct (H info_changed_transfer_5_finished
              (set_observed_transfer (Some 5) quiet) 5 Outcome.Finished
              eq_refl ltac:(discriminate) eq_refl)
    as [n [p' [ev [Hrun [Hpe Hterm]]]]].
  assert (exists p1 : Planner (T := Tracked),
             after info_changed_transfer_5_finished OpNextAction
               (set_observed_transfer (Some 5) quiet) = Some p1
             /\ after info_changed_transfer_5_finished OpNextAction p1
                = Some p1
             /\ planned_event p1
                = Some (mkEvent EventType.Info None None None None None
                          false None)
             /\ observed_transfer p1 = Some 5)
    as [p1 [Hfirst [Hfix [Hinfo _]]]].
  { eexists. split; [vm_compute; reflexivity|].
    split; [vm_compute; reflexivity|]. split; reflexivity. }
  destruct n as [|n].
  - cbn in Hrun. inversion Hrun; subst p'. discriminate Hpe.
  - cbn [repeat run] in Hrun. rewrite Hfirst in Hrun.
    rewrite (run_repeat_fixed _ _ _ n Hfix) in Hrun.
    inversion Hrun; subst p'. rewrite Hinfo in Hpe.
    inversion Hpe; subst ev. discriminate Hterm.
Qed.

Lemma telemetry_follows_acknowledged_event_witness :
  exists p1,
    after (calm 100) (OpActionDone ActionResult.Ok)
      (set_planned_event (Some (Event2 EventType.Accepted (Some 7))) quiet)
    = Some p1
    /\ exists p2 log,
         next_action (calm 200) p1 = Some (SendTelemetry false, p2, log).
Proof.
  destruct (telemetry_follows_acknowledged_event (calm 100) (calm 200)
              (set_planned_event
                 (Some (Event2 EventType.Accepted (Some 7))) quiet)
              (Event2 EventType.Accepted (Some 7)) eq_refl)
    as [p1 [Hafter [Hpe [Hlt [Htel _]]]]].
  - discriminate.
  - exists p1. split; [exact Hafter|].
    inversion Hafter; subst p1.
    apply Htel; [reflexivity|reflexivity|left; reflexivity].
Defined.

(** C2, as the specification words it, fails: the printer's fingerprint
    changed while the event was in flight, and the action that follows
    the acknowledgement is the [Info] event. *)
Lemma info_due_precedes_telemetry :
  ~ (forall (e0 e1 : Env) (p p1 p2 : Planner (T := Tracked)) (ev : Event)
            (a : Action) (log : list Call),
        planned_event p = Some ev ->
        type ev <> EventType.Info ->
        after e0 (OpActionDone ActionResult.Ok) p = Some p1 ->
        next_action e1 p1 = Some (a, p2, log) ->
        exists empty, a = SendTelemetry empty).
Proof.
  intros H.
  assert (exists (p1 p2 : Planner (T := Tracked)) x log,
             after (calm 100) (OpActionDone ActionResult.Ok)
               (set_planned_event
                  (Some (Event2 EventType.Accepted (Some 7))) quiet)
             = Some p1
             /\ next_action
                  (mkEnv 200 1 0 false (fun _ => true) (fun _ => true)
                     (fun _ => true)
                     (fun _ => (mkConfig "connect.example" 80 "token" false,
                                false))
                     "fingerprint" 16 (fun _ => true) None (fun _ => None)
                     (fun _ _ _ _ _ _ _ => Started 1))
                  p1
                = Some (ActEvent x, p2, log)
             /\ type x = EventType.Info)
    as [p1 [p2 [x [log [Hafter [Hnext Hx]]]]]].
  { do 4 eexists. split; [vm_compute; reflexivity|].
    split; [vm_compute; reflexivity|reflexivity]. }
  destruct (H _ _
              (set_planned_event
                 (Some (Event2 EventType.Accepted (Some 7))) quiet)
              p1 p2 (Event2 EventType.Accepted (Some 7)) _ log
              eq_refl ltac:(discriminate) Hafter Hnext) as [empty Ha].
  discriminate Ha.
Qed.

(** Transfer 5, started by command 9, has finished and the monitor has
    moved on. *)
Lemma terminated_transfer_reported_once_witness :
  exists p' log,
    next_action
      (mkEnv 100 0 0 false (fun _ => true) (fun _ => true) (fun _ => true)
         (fun _ => (mkConfig "connect.example" 80 "token" false, false))
         "fingerprint" 16 (fun _ => true) None
         (fun t => if t =? 5 then Some Outcome.Finished else None)
         (fun _ _ _ _ _ _ _ => Started 1))
      (set_transfer_start_cmd (Some 9)
         (set_observed_transfer (Some 5) quiet))
    = Some (ActEvent
              (mkEvent EventType.TransferFinished None None None (Some 5)
                 None false (Some 9)),
            p', log)
    /\ transfer_start_cmd p' = None.
Proof.
  destruct (terminated_transfer_reported_once (tracker := Tracked_ops)
              (mkEnv 100 0 0 false (fun _ => true) (fun _ => true)
                 (fun _ => true)
                 (fun _ => (mkConfig "connect.example" 80 "token" false,
                            false))
                 "fingerprint" 16 (fun _ => true) None
                 (fun t => if t =? 5 then Some Outcome.Finished else None)
                 (fun _ _ _ _ _ _ _ => Started 1))
              (set_transfer_start_cmd (Some 9)
                 (set_observed_transfer (Some 5) quiet))
              5 Outcome.Finished eq_refl eq_refl eq_refl eq_refl eq_refl)
    as [p' [log [ev [Hnext [_ [Hty [Hid [Hcmd [Hclear _]]]]]]]]].
  - discriminate.
  - reflexivity.
  - exists p', log. split; [|exact Hclear].
    rewrite Hnext. destruct ev as [ty ci ji pa ti re ir sc].
    cbn in Hty, Hid, Hcmd. subst.
    vm_compute in Hnext. inversion Hnext; subst. reflexivity.
Defined.

(** A print request arriving while G-code runs in the background. *)
Lemma busy_command_only_answers_witness :
  command (mkCommand 8 (StartPrint "/usb/x.gco")) (calm 100)
    (set_background_command
       (Some (mkBackgroundCommand 7 (BackgroundGcode "G1 X10" 6 0))) quiet)
  = Some (tt,
          set_planned_event
            (Some (mkEvent EventType.Rejected (Some 8) None None None None
                     false None))
            (set_background_command
               (Some (mkBackgroundCommand 7 (BackgroundGcode "G1 X10" 6 0)))
               quiet),
          []).
Proof.
  exact (proj1 (busy_command_only_answers (calm 100)
                  (mkCommand 8 (StartPrint "/usb/x.gco"))
                  (set_background_command
                     (Some (mkBackgroundCommand 7
                              (BackgroundGcode "G1 X10" 6 0))) quiet)
                  (mkBackgroundCommand 7 (BackgroundGcode "G1 X10" 6 0))
                  eq_refl) eq_refl).
Defined.

(** The download of scenario 6 of the specification: team 17, hash
    ["abc"], plain connection, unchanged configuration. *)
Lemma start_connect_download_checks_in_order_witness :
  command_StartConnectDownload
    (mkCommand 3 (StartConnectDownload 17 "abc" "/usb/f.gco"))
    17 "abc" "/usb/f.gco" (calm 100) quiet
  = Some (tt,
          set_transfer_start_cmd (Some 3)
            (set_planned_event
               (Some (mkEvent EventType.Finished (Some 3) None None None
                        None false None))
               (set_download (Some 1) quiet)),
          [CallConfig false; CallPrinterInfo;
           CallStartConnectDownload "connect.example" 80
             "/p/teams/17/files/abc/raw" "/usb/f.gco" "token"
             "fingerprint" 16]).
Proof.
  exact (proj2 (proj2 (start_connect_download_checks_in_order (calm 100)
                         (mkCommand 3
                            (StartConnectDownload 17 "abc" "/usb/f.gco"))
                         17 "abc" "/usb/f.gco" quiet))
           eq_refl eq_refl eq_refl).
Defined.

Lemma cooldown_sequence_witness :
  cooldown quiet = None
  /\ observe cooldown
       (failures (map calm [1; 2; 3; 4; 5; 6; 7; 8; 9; 10; 11; 12])) quiet
     = map (fun k => Some (backoff k)) (seq 0 12).
Proof.
  split; [reflexivity|].
  apply (proj1 cooldown_sequence
           (map calm [1; 2; 3; 4; 5; 6; 7; 8; 9; 10; 11; 12]) quiet).
  reflexivity.
Defined.

End PlannerFacts.

(** ** More on the planner *)

Module PlannerExtras.
Import connect_client.

Ltac compute_m :=
  cbv - [Z.leb Z.eqb Z.min Z.mul Z.add Z.sub Z.div Z.modulo Z.pow
         wrap8 wrap32 EventType.eqb type set_hash mark_clean mark_dirty
         is_dirty path_allowed PRIu64 CString.strlen String.append
         fst snd Nat.ltb Nat.leb Nat.add backoff_ok
         Z.le Z.lt Z.ge Z.gt Z.compare].

Ltac split_stuck :=
  repeat (compute_m;
          match goal with
          | |- context [match ?x with _ => _ end] =>
              lazymatch x with
              | context [match _ with _ => _ end] => fail
              | _ => destruct x eqn:?
              end
          end);
  compute_m.

(** X1. [to_str] gives every event type a name of its own. *)
Theorem to_str_injective :
  forall a b : EventType.t, to_str a = to_str b -> a = b.
Proof. intros a b H. destruct a, b; cbn in H; congruence. Qed.

Lemma to_str_injective_witness :
  to_str EventType.TransferAborted = "TRANSFER_ABORTED"
  /\ EventType.TransferAborted = EventType.TransferAborted.
Proof.
  split; [reflexivity|].
  exact (to_str_injective EventType.TransferAborted
           EventType.TransferAborted eq_refl).
Defined.

Section WithTracker.
Context {T : Type} {tracker : ChangeTracker T}.

#[local] Abbreviation PlannerT := (Planner (T := T)).

(** X2. [since] measures the time elapsed since a past event across a
    wrap-around of the millisecond counter: if the clock stands [d] ms after
    [past], modulo 2^32, the result is [d]. *)
Theorem since_is_wrap_safe :
  forall (e : Env) (p : PlannerT) (past d : Z),
    0 <= past < 2 ^ 32 ->
    0 <= d < 2 ^ 32 ->
    clock e = wrap32 (past + d) ->
    since (Some past) e p = Some (Some d, p, []).
Proof.
  intros e p past d Hpast Hd Hclock.
  assert (wrap32 (wrap32 (past + d) - past) = d) as Hsince.
  { unfold wrap32. rewrite Zminus_mod_idemp_l.
    replace (past + d - past) with d by lia.
    now apply Z.mod_small. }
  unfold since, bind, now, ret. rewrite Hclock, Hsince. reflexivity.
Qed.

(** *** The back-off state stays in order *)

Lemma failed_keeps_backoff_ok (e : Env) (p : PlannerT) :
  backoff_ok p -> backoff_ok (failed_state e p).
Proof.
  unfold backoff_ok, COOLDOWN_BASE, COOLDOWN_MAX, GIVE_UP_AFTER_ATTEMPTS.
  intros [Hpc [Hcd Hfa]].
  unfold failed_state; cbn [perform_cooldown cooldown failed_attempts].
  change (COOLDOWN_BASE / 2) with 50. change COOLDOWN_MAX with (1000 * 60).
  change GIVE_UP_AFTER_ATTEMPTS with 5.
  split; [discriminate|]. split.
  - intros c Hc. inversion Hc; subst c; clear Hc.
    destruct (cooldown p) as [c0|]; cbn [value_or].
    + specialize (Hcd c0 eq_refl).
      rewrite PlannerFacts.wrap32_small by lia. lia.
    + rewrite PlannerFacts.wrap32_small by lia. lia.
  - rewrite PlannerFacts.wrap8_small by lia.
    destruct (5 <=? failed_attempts p + 1) eqn:E;
      [lia|apply Z.leb_gt in E; lia].
Qed.

Lemma after_keeps_backoff_ok (e : Env) (op : Op) (p : PlannerT) :
  match after e op p with
  | Some p' => backoff_ok p -> backoff_ok p'
  | None => True
  end.
Proof.
  destruct op as [| |result|[cid data]|result|];
    [ | |destruct result|destruct data|destruct result| ];
    try (rewrite PlannerFacts.after_failed;
         apply failed_keeps_backoff_ok);
    destruct p as [pe lt ls cd pc fa ic fc bc dl ot ts];
    destruct e as [clk fp fh pr jc sp sr cfg fg fs st mid mo scd];
    split_stuck; try exact I;
    unfold backoff_ok; cbn; intros [Hpc [Hcd Hfa]];
    repeat split; intros; try discriminate; auto; try lia;
    try (apply Hcd; assumption).
Qed.

Lemma run_backoff_ok (calls : list (Env * Op)) :
  forall p p' : PlannerT,
    backoff_ok p -> run calls p = Some p' -> backoff_ok p'.
Proof.
  induction calls as [|[e op] calls IH]; intros p p' Hok Hrun.
  - cbn in Hrun. now inversion Hrun; subst.
  - cbn [run] in Hrun.
    pose proof (after_keeps_backoff_ok e op p) as Hstep.
    destruct (after e op p) as [p1|]; [|discriminate].
    apply (IH p1 p'); auto.
Qed.

(** X3. Whatever the driver calls, in whatever order, the back-off state
    stays in order: a cooldown to perform is set, a set cooldown lies within
    100..60000 ms, and [failed_attempts] stays within 0..4. *)
Theorem run_keeps_backoff_ok :
  forall (calls : list (Env * Op)) (p p' : PlannerT),
    backoff_ok p ->
    run calls p = Some p' ->
    (perform_cooldown p' = true -> cooldown p' <> None)
    /\ (forall c, cooldown p' = Some c -> 100 <= c <= 60000)
    /\ 0 <= failed_attempts p' < 5.
Proof.
  intros calls p p' Hok Hrun.
  exact (run_backoff_ok calls p p' Hok Hrun).
Qed.

Lemma next_action_returns (e : Env) (p : PlannerT) :
  (perform_cooldown p = true -> cooldown p <> None) ->
  exists a p' log, next_action e p = Some (a, p', log).
Proof.
  destruct p as [pe lt ls cd pc fa ic fc bc dl ot ts].
  destruct e as [clk fp fh pr jc sp sr cfg fg fs st mid mo scd].
  cbn. intros Hpc.
  split_stuck; try (do 3 eexists; reflexivity).
  all: exfalso; apply Hpc; reflexivity.
Qed.

(** X4. The assertion of [next_action] (a cooldown to perform is set)
    cannot fail in a run that starts from a back-off state in order:
    [next_action] then always returns an action. *)
Theorem next_action_never_asserts :
  forall (calls : list (Env * Op)) (p p' : PlannerT) (e : Env),
    backoff_ok p ->
    run calls p = Some p' ->
    exists a p'' log, next_action e p' = Some (a, p'', log).
Proof.
  intros calls p p' e Hok Hrun.
  apply next_action_returns.
  exact (proj1 (run_backoff_ok calls p p' Hok Hrun)).
Qed.

(** *** What a [Sleep] carries *)

Lemma next_action_sleep_shape (e : Env) (p : PlannerT) :
  match next_action e p with
  | Some (ActSleep (mkSleep ms cmd down), p', log) =>
      down = download p
      /\ planned_event p' = planned_event p
      /\ cmd = match background_command p, planned_event p with
               | Some bc, None => Some (bg_command bc)
               | _, _ => None
               end
  | _ => True
  end.
Proof.
  destruct p as [pe lt ls cd pc fa ic fc bc dl ot ts].
  destruct e as [clk fp fh pr jc sp sr cfg fg fs st mid mo scd].
  split_stuck; try exact I; repeat split.
Qed.

(** X5. A [Sleep] handed out by [next_action] carries the background
    command exactly when one is running and no event is pending, and it
    always carries the download, if there is one: background work is never
    given out while an event waits to be sent. *)
Theorem sleep_respects_pending_event :
  forall (e : Env) (p p' : PlannerT) (ms : Duration)
         (cmd : option BackgroundCmd) (down : option Download)
         (log : list Call),
    next_action e p = Some (ActSleep (mkSleep ms cmd down), p', log) ->
    down = download p
    /\ planned_event p' = planned_event p
    /\ cmd = match background_command p, planned_event p with
             | Some bc, None => Some (bg_command bc)
             | _, _ => None
             end.
Proof.
  intros e p p' ms cmd down log Hnext.
  pose proof (next_action_sleep_shape e p) as Hshape.
  rewrite Hnext in Hshape. exact Hshape.
Qed.

(** *** The telemetry cadence *)

(** X6. With nothing else to do (no cooldown, no pending event, no
    [Info] due, the observed transfer still the current one) and telemetry
    last sent at [t], [next_action] sends telemetry once the interval has
    passed since [t] -- 1000 ms while printing or running a background
    command, 4000 ms otherwise -- and before that sleeps for exactly the
    rest of the interval, a positive time no longer than the interval. *)
Theorem telemetry_cadence :
  forall (e : Env) (p : PlannerT) (t : Timestamp),
    perform_cooldown p = false ->
    planned_event p = None ->
    fst (set_hash (info_fingerprint e) (info_changes p)) = false ->
    fst (set_hash (files_hash e) (file_changes p)) = false ->
    monitor_id e = observed_transfer p ->
    last_telemetry p = Some t ->
    let elapsed := wrap32 (clock e - t) in
    let interval :=
      if is_printing e || has_value (background_command p)
      then 1000 else 4000 in
    exists (a : Action) (p' : PlannerT) (log : list Call),
      next_action e p = Some (a, p', log)
      /\ planned_event p' = None
      /\ last_telemetry p' = Some t
      /\ (interval <= elapsed -> a = SendTelemetry false)
      /\ (elapsed < interval ->
          0 < interval - elapsed <= interval
          /\ a = ActSleep
                   (mkSleep (interval - elapsed)
                      (option_map bg_command (background_command p))
                      (download p))).
Proof.
  intros e p t Hpc Hpe Hi Hf Hmid Hlt. cbv zeta.
  destruct p as [pe lt ls cd pc fa ic fc bc dl ot ts].
  destruct e as [clk fp fh pr jc sp sr cfg fg fs st mid mo scd].
  cbn in Hpc, Hpe, Hi, Hf, Hmid, Hlt. subst pc pe mid lt.
  cbn [clock is_printing background_command download].
  assert (0 <= wrap32 (clk - t)) as Hpos
      by (unfold wrap32; apply Z.mod_pos_bound; lia).
  assert (option_Z_eqb ot ot = true) as Hsame
      by (destruct ot; cbn; [apply Z.eqb_refl|reflexivity]).
  compute_m. rewrite Hi. compute_m. rewrite Hf. compute_m.
  fold (option_Z_eqb ot ot). rewrite Hsame. compute_m.
  destruct pr, bc as [b|]; compute_m;
    match goal with
    | |- context [Z.leb ?i (wrap32 (clk - t))] =>
        destruct (Z.leb i (wrap32 (clk - t))) eqn:E;
        [apply Z.leb_le in E | apply Z.leb_gt in E]
    end;
    do 3 eexists; (split; [reflexivity|]);
    (split; [reflexivity|]); (split; [reflexivity|]);
    (split; [intros; try reflexivity; lia|]);
    intros; try lia;
    (split; [lia|]);
    rewrite PlannerFacts.wrap32_small by lia; reflexivity.
Qed.

(** *** Success, failure and reset *)

Lemma run_failures_total (es : list Env) : forall p : PlannerT,
  exists p', run (failures es) p = Some p'.
Proof.
  induction es as [|e es IH]; intros p; [now exists p|].
  cbn [failures map run]. rewrite PlannerFacts.after_failed. apply IH.
Qed.

Lemma after_ok_state (e : Env) (r : ActionResult.t) (p : PlannerT) :
  r <> ActionResult.Failed ->
  exists p',
    after e (OpActionDone r) p = Some p'
    /\ planned_event p' = None
    /\ cooldown p' = None
    /\ perform_cooldown p' = false
    /\ failed_attempts p' = 0
    /\ last_success p' = Some (clock e)
    /\ last_telemetry p'
       = match planned_event p with
         | Some _ => None
         | None => Some (clock e)
         end.
Proof.
  intros Hr.
  destruct p as [pe lt ls cd pc fa ic fc bc dl ot ts].
  destruct e as [clk fp fh pr jc sp sr cfg fg fs st mid mo scd].
  destruct r; [| |contradiction];
    split_stuck; eexists; (split; [reflexivity|]); repeat split.
Qed.

(** X7. A success ([Ok] or [Refused]) wipes the back-off, however many
    failures came before: nothing is pending, no cooldown is set,
    [failed_attempts] is 0 and [last_success] is the time of the call; the
    next failure starts over with a cooldown of 100 ms and a count of 1. *)
Theorem success_resets_backoff :
  forall (es : list Env) (e_ok e_fail : Env) (r : ActionResult.t)
         (p : PlannerT),
    r <> ActionResult.Failed ->
    exists p1 p2 p3 : PlannerT,
      run (failures es) p = Some p1
      /\ after e_ok (OpActionDone r) p1 = Some p2
      /\ planned_event p2 = None
      /\ cooldown p2 = None
      /\ perform_cooldown p2 = false
      /\ failed_attempts p2 = 0
      /\ last_success p2 = Some (clock e_ok)
      /\ after e_fail (OpActionDone ActionResult.Failed) p2 = Some p3
      /\ cooldown p3 = Some 100
      /\ perform_cooldown p3 = true
      /\ failed_attempts p3 = 1.
Proof.
  intros es e_ok e_fail r p Hr.
  destruct (run_failures_total es p) as [p1 Hrun].
  destruct (after_ok_state e_ok r p1 Hr)
    as [p2 [Hok [Hpe [Hcd [Hpc [Hfa [Hls _]]]]]]].
  exists p1, p2, (failed_state e_fail p2).
  repeat (split; [assumption|]).
  split; [apply PlannerFacts.after_failed|].
  unfold failed_state; cbn [cooldown perform_cooldown failed_attempts].
  rewrite Hcd, Hfa. repeat split.
Qed.

Lemma after_reset_state (e : Env) (p : PlannerT) :
  after e OpReset p
  = Some (mkPlanner (planned_event p) None (last_success p) None false 0
            (mark_dirty (info_changes p)) (file_changes p)
            (background_command p) (download p) (observed_transfer p)
            (transfer_start_cmd p)).
Proof.
  destruct p as [pe lt ls cd pc fa ic fc bc dl ot ts]. reflexivity.
Qed.

Lemma never_sleeps_without_timers (e : Env) (p : PlannerT) :
  perform_cooldown p = false -> last_telemetry p = None ->
  match next_action e p with
  | Some (ActSleep _, _, _) => False
  | Some (ActEvent ev, p', _) =>
      planned_event p' = Some ev
      /\ (planned_event p = None \/ planned_event p = Some ev)
  | Some (SendTelemetry _, p', _) =>
      planned_event p' = None /\ planned_event p = None
  | None => False
  end.
Proof.
  destruct p as [pe lt ls cd pc fa ic fc bc dl ot ts].
  destruct e as [clk fp fh pr jc sp sr cfg fg fs st mid mo scd].
  cbn. intros -> ->.
  split_stuck; cbn; auto.
Qed.

(** X8. [reset] cancels the waiting: the [next_action] that follows it
    never sleeps and never fails; it returns the pending event if there is
    one, else an event it plans on the spot, else [SendTelemetry]. The
    pending event, the background command and the download survive the
    reset. *)
Theorem reset_cancels_waiting :
  forall (e0 e1 : Env) (p : PlannerT),
    exists p0 : PlannerT,
      after e0 OpReset p = Some p0
      /\ planned_event p0 = planned_event p
      /\ background_command p0 = background_command p
      /\ download p0 = download p
      /\ exists (a : Action) (p1 : PlannerT) (log : list Call),
           next_action e1 p0 = Some (a, p1, log)
           /\ (forall s, a <> ActSleep s)
           /\ (forall ev, planned_event p = Some ev -> a = ActEvent ev)
           /\ (forall ev, a = ActEvent ev -> planned_event p1 = Some ev).
Proof.
  intros e0 e1 p. eexists. split; [apply after_reset_state|].
  cbn [planned_event background_command download].
  repeat (split; [reflexivity|]).
  match goal with
  | |- context [next_action e1 ?q] =>
      pose proof (never_sleeps_without_timers e1 q eq_refl eq_refl) as H;
      destruct (next_action e1 q) as [[[a p1] log]|]; [|contradiction]
  end.
  exists a, p1, log. split; [reflexivity|].
  destruct a as [ev| |s]; cbn [planned_event] in H.
  - destruct H as [Hp1 Hp]. split; [discriminate|]. split.
    + intros ev' Hev'. rewrite Hev' in Hp.
      destruct Hp as [Hp|Hp]; [discriminate|]. now inversion Hp.
    + intros ev' Hev'. now inversion Hev'; subst.
  - destruct H as [_ Hp]. split; [discriminate|]. split; [|discriminate].
    intros ev Hev. rewrite Hev in Hp. discriminate.
  - contradiction.
Qed.

(** *** The pending event *)

Lemma after_keeps_pending (e : Env) (op : Op) (p : PlannerT) (ev : Event) :
  planned_event p = Some ev ->
  match after e op p with
  | Some p' =>
      planned_event p' = Some ev
      \/ exists r, op = OpActionDone r
                   /\ (r = ActionResult.Failed ->
                       gone p' /\ type ev <> EventType.Info
                       /\ 5 <= wrap8 (failed_attempts p + 1))
                   /\ (r <> ActionResult.Failed -> planned_event p' = None)
  | None => True
  end.
Proof.
  intros Hpe.
  destruct op as [| |result|[cid data]|result|];
    [ | |destruct result|destruct data|destruct result| ];
    try (rewrite PlannerFacts.after_failed);
    destruct p as [pe lt ls cd pc fa ic fc bc dl ot ts];
    destruct e as [clk fp fh pr jc sp sr cfg fg fs st mid mo scd];
    cbn in Hpe; subst pe.
  5:{ (* Failed *)
    cbv beta iota.
    unfold failed_state, reconnects, after_giveup, gone;
      cbn [planned_event failed_attempts].
    change GIVE_UP_AFTER_ATTEMPTS with 5.
    destruct (5 <=? wrap8 (fa + 1)) eqn:Hgu; [|left; cbn;
      now rewrite andb_false_r].
    destruct (EventType.eqb (type ev) EventType.Info) eqn:Hty; cbn.
    - left. now rewrite andb_false_r.
    - right. exists ActionResult.Failed. split; [reflexivity|].
      split; [|intros H; contradiction].
      intros _. apply Z.leb_le in Hgu. split; [|split; [|exact Hgu]].
      + destruct (_ && _); auto.
      + intros H. apply PlannerFacts.EventType_eqb_eq in H. congruence. }
  all: split_stuck; try exact I; cbn; auto.
  all: right; eexists; (split; [reflexivity|]);
    split; [discriminate|reflexivity].
Qed.

Lemma after_returns_while_pending (e : Env) (op : Op) (p : PlannerT) :
  asserts_no_event op = false ->
  (perform_cooldown p = true -> cooldown p <> None) ->
  (op = OpDownloadDone -> download p <> None /\ monitor_id e <> None) ->
  after e op p <> None.
Proof.
  intros Hop Hcd Hdl.
  destruct op as [| |result|c|result|]; try discriminate Hop.
  - rewrite after_reset_state. discriminate.
  - destruct (next_action_returns e p Hcd) as [a [p' [log Hnext]]].
    unfold after, exec, bind. rewrite Hnext. discriminate.
  - destruct result.
    + destruct (after_ok_state e ActionResult.Ok p ltac:(discriminate))
        as [p' [H _]]. rewrite H. discriminate.
    + destruct (after_ok_state e ActionResult.Refused p
                  ltac:(discriminate)) as [p' [H _]].
      rewrite H. discriminate.
    + rewrite PlannerFacts.after_failed. discriminate.
  - destruct (Hdl eq_refl) as [Hd Hm].
    destruct p as [pe lt ls cd pc fa ic fc bc dl ot ts].
    destruct e as [clk fp fh pr jc sp sr cfg fg fs st mid mo scd].
    cbn in Hd, Hm.
    destruct dl as [d|]; [|contradiction].
    destruct mid as [m|]; [|contradiction].
    compute_m. discriminate.
Qed.

(** X9. The calls that can be made while an event is pending keep it.
    [command] and [background_done] open with the assertion that no event
    is pending and are left aside. Every other call -- [reset],
    [next_action], [action_done], [download_done] -- made with its own
    assertions satisfied (a cooldown to perform is set; [download_done]
    finds a download and the monitor shows a transfer) returns, and the
    same event is still pending afterwards, unless the call was
    [action_done] -- with [Ok] or [Refused], which consume it, or with
    [Failed] at the fifth counted failure for an event other than [Info],
    which drops it. No failure ever removes a pending [Info]. *)
Theorem pending_event_survives_permitted_calls :
  forall (e : Env) (op : Op) (p : PlannerT) (ev : Event),
    planned_event p = Some ev ->
    asserts_no_event op = false ->
    (perform_cooldown p = true -> cooldown p <> None) ->
    (op = OpDownloadDone -> download p <> None /\ monitor_id e <> None) ->
    exists p' : PlannerT,
      after e op p = Some p'
      /\ (planned_event p' = Some ev
          \/ exists r,
               op = OpActionDone r
               /\ (r = ActionResult.Failed ->
                   gone p' /\ type ev <> EventType.Info
                   /\ 5 <= wrap8 (failed_attempts p + 1))
               /\ (r <> ActionResult.Failed -> planned_event p' = None)).
Proof.
  intros e op p ev Hpe Hop Hcd Hdl.
  pose proof (after_returns_while_pending e op p Hop Hcd Hdl) as Hsome.
  pose proof (after_keeps_pending e op p ev Hpe) as Hkeep.
  destruct (after e op p) as [p'|]; [|contradiction].
  exists p'. split; [reflexivity|exact Hkeep].
Qed.

(** *** The change trackers *)

Lemma after_trackers (e : Env) (op : Op) (p : PlannerT) :
  match after e op p with
  | Some p' =>
      match op with
      | OpNextAction =>
          if perform_cooldown p || has_value (planned_event p) then
            info_changes p' = info_changes p
            /\ file_changes p' = file_changes p
          else
            info_changes p'
            = snd (set_hash (info_fingerprint e) (info_changes p))
            /\ file_changes p'
               = (if fst (set_hash (info_fingerprint e) (info_changes p))
                  then file_changes p
                  else snd (set_hash (files_hash e) (file_changes p)))
      | OpReset =>
          info_changes p' = mark_dirty (info_changes p)
          /\ file_changes p' = file_changes p
      | OpActionDone ActionResult.Failed =>
          info_changes p' = info_changes p
          /\ file_changes p' = file_changes p
      | OpActionDone _ =>
          match planned_event p with
          | Some ev =>
              if EventType.eqb (type ev) EventType.Info then
                info_changes p' = mark_clean (info_changes p)
                /\ file_changes p'
                   = (if info_rescan_files ev
                      then mark_clean (file_changes p)
                      else file_changes p)
              else info_changes p' = info_changes p
                   /\ file_changes p' = file_changes p
          | None => info_changes p' = info_changes p
                    /\ file_changes p' = file_changes p
          end
      | _ => info_changes p' = info_changes p
             /\ file_changes p' = file_changes p
      end
  | None => True
  end.
Proof.
  destruct op as [| |result|[cid data]|result|];
    [ | |destruct result|destruct data|destruct result| ];
    try (rewrite PlannerFacts.after_failed; split; reflexivity);
    destruct p as [pe lt ls cd pc fa ic fc bc dl ot ts];
    destruct e as [clk fp fh pr jc sp sr cfg fg fs st mid mo scd];
    try (destruct pe as [[ty ci ji pa ti re ir sc]|]);
    split_stuck; try exact I; cbn; auto.
Qed.

(** X10. What each call does to the change trackers. [mark_clean] is
    applied by one thing only, the acknowledgement ([Ok] or [Refused]) of a
    pending [Info] event: to the info tracker always, to the file tracker
    when the event asked for a rescan of the files. [next_action] applies
    [set_hash] and nothing else: to neither tracker when it returns the
    cooldown sleep or the pending event, else to the info tracker, and to
    the file tracker as well when the info tracker reports no change.
    [reset] marks the info tracker dirty. No command, completion callback,
    failure, or acknowledgement of another event touches them. *)
Theorem trackers_cleaned_by_acknowledged_info_only :
  forall (e : Env) (op : Op) (p p' : PlannerT),
    after e op p = Some p' ->
    match op with
    | OpNextAction =>
        if perform_cooldown p || has_value (planned_event p) then
          info_changes p' = info_changes p
          /\ file_changes p' = file_changes p
        else
          info_changes p'
          = snd (set_hash (info_fingerprint e) (info_changes p))
          /\ file_changes p'
             = (if fst (set_hash (info_fingerprint e) (info_changes p))
                then file_changes p
                else snd (set_hash (files_hash e) (file_changes p)))
    | OpReset =>
        info_changes p' = mark_dirty (info_changes p)
        /\ file_changes p' = file_changes p
    | OpActionDone ActionResult.Failed =>
        info_changes p' = info_changes p
        /\ file_changes p' = file_changes p
    | OpActionDone _ =>
        match planned_event p with
        | Some ev =>
            if EventType.eqb (type ev) EventType.Info then
              info_changes p' = mark_clean (info_changes p)
              /\ file_changes p'
                 = (if info_rescan_files ev
                    then mark_clean (file_changes p)
                    else file_changes p)
            else info_changes p' = info_changes p
                 /\ file_changes p' = file_changes p
        | None => info_changes p' = info_changes p
                  /\ file_changes p' = file_changes p
        end
    | _ => info_changes p' = info_changes p
           /\ file_changes p' = file_changes p
    end.
Proof.
  intros e op p p' Hafter.
  pose proof (after_trackers e op p) as H.
  now rewrite Hafter in H.
Qed.

(** *** Commands *)

Lemma command_answer_shape (e : Env) (c : Command) (p : PlannerT) :
  match command c e p with
  | Some (_, p', _) =>
      planned_event p = None
      /\ exists ev,
           planned_event p' = Some ev
           /\ command_id ev = Some (id c)
           /\ is_answer (type ev) = true
           /\ transfer_id ev = None
  | None => True
  end.
Proof.
  destruct c as [cid data].
  destruct p as [pe lt ls cd pc fa ic fc bc dl ot ts].
  destruct e as [clk fp fh pr jc sp sr cfg fg fs st mid mo scd].
  destruct data; split_stuck; try exact I;
    (split; [reflexivity|]); eexists; (split; [reflexivity|]);
    cbn; repeat split.
Qed.

Lemma command_returns (e : Env) (c : Command) (p : PlannerT) :
  planned_event p = None ->
  (command_data c = ProcessingThisCommand -> background_command p <> None) ->
  (command_data c = CancelPrinterReady -> background_command p = None ->
   set_ready e false = true) ->
  (forall team hash dest,
      command_data c = StartConnectDownload team hash dest ->
      download p = None) ->
  command c e p <> None.
Proof.
  intros Hpe Hthis Hcancel Hdown.
  destruct c as [cid data].
  destruct p as [pe lt ls cd pc fa ic fc bc dl ot ts].
  destruct e as [clk fp fh pr jc sp sr cfg fg fs st mid mo scd].
  cbn in Hpe, Hthis, Hcancel, Hdown. subst pe.
  destruct bc as [b|]; [compute_m; discriminate|].
  destruct data;
    first
      [ solve [exfalso; now apply (Hthis eq_refl)]
      | solve [compute_m; rewrite (Hcancel eq_refl eq_refl); discriminate]
      | solve [split_stuck; discriminate]
      | idtac ].
  (* StartConnectDownload *)
  rewrite (Hdown _ _ _ eq_refl).
  destruct (cfg false) as [[h po tk tl] changed] eqn:Hcfg.
  destruct changed; [compute_m; rewrite Hcfg; discriminate|].
  destruct tl; [compute_m; rewrite Hcfg; discriminate|].
  lazymatch goal with
  | |- context [StartConnectDownload ?team ?hash ?dest] =>
      destruct (scd h po
                  ("/p/teams/" ++ PRIu64 team ++ "/files/" ++ hash
                   ++ "/raw")
                  dest tk fg fs) eqn:Hscd
  end;
  compute_m; rewrite Hcfg; cbn [fst snd]; compute_m;
  rewrite PlannerFacts.url_fits; compute_m; rewrite Hscd;
  discriminate.
Qed.

(** X11. Every command is answered. A command handed to [command] within
    the assertions of the code -- no event is pending;
    [ProcessingThisCommand] only comes while a background command runs;
    setting the printer not ready does not fail; a download is started only
    while the planner holds none -- makes it return with exactly one event
    planned, which echoes the command's id; the answer is never [Failed]
    nor the report of a transfer end, and names no transfer. *)
Theorem every_command_is_answered :
  forall (e : Env) (c : Command) (p : PlannerT),
    planned_event p = None ->
    (command_data c = ProcessingThisCommand ->
     background_command p <> None) ->
    (command_data c = CancelPrinterReady -> background_command p = None ->
     set_ready e false = true) ->
    (forall team hash dest,
        command_data c = StartConnectDownload team hash dest ->
        download p = None) ->
    exists (p' : PlannerT) (log : list Call) (ev : Event),
      command c e p = Some (tt, p', log)
      /\ planned_event p' = Some ev
      /\ command_id ev = Some (id c)
      /\ is_answer (type ev) = true
      /\ transfer_id ev = None.
Proof.
  intros e c p Hpe Hthis Hcancel Hdown.
  pose proof (command_returns e c p Hpe Hthis Hcancel Hdown) as Hsome.
  pose proof (command_answer_shape e c p) as Hshape.
  destruct (command c e p) as [[[[] p'] log]|]; [|contradiction].
  destruct Hshape as [_ [ev Hev]].
  exists p', log, ev. split; [reflexivity|exact Hev].
Qed.

(** X12. [StartPrint] validates in order and stops at the first check
    that fails: a path that is not allowed is rejected without looking at
    the file system or the printer; a file that does not exist is rejected
    without asking the printer; only then is the printer asked to start,
    and its refusal reported. *)
Theorem start_print_validates_in_order :
  forall (e : Env) (c : Command) (path : string) (p : PlannerT),
    let reject (why : string) :=
      set_planned_event
        (Some (mkEvent EventType.Rejected (Some (id c)) None None None
                 (Some why) false None)) p in
    (path_allowed path = false ->
     command_StartPrint c path e p
     = Some (tt, reject "Forbidden path", []))
    /\ (path_allowed path = true -> stat_ok e path = false ->
        command_StartPrint c path e p
        = Some (tt, reject "File not found", [CallStat path]))
    /\ (path_allowed path = true -> stat_ok e path = true ->
        start_print e path = false ->
        command_StartPrint c path e p
        = Some (tt, reject "Can't print now",
                [CallStat path; CallStartPrint path]))
    /\ (path_allowed path = true -> stat_ok e path = true ->
        start_print e path = true ->
        command_StartPrint c path e p
        = Some (tt,
                set_planned_event
                  (Some (mkEvent EventType.Finished (Some (id c)) None None
                           None None false None)) p,
                [CallStat path; CallStartPrint path])).
Proof.
  intros e [cid data] path p. cbv zeta.
  destruct p as [pe lt ls cd pc fa ic fc bc dl ot ts].
  destruct e as [clk fp fh pr jc sp sr cfg fg fs st mid mo scd].
  cbn [stat_ok start_print id].
  repeat split; intros; compute_m;
    repeat match goal with H : _ = _ |- _ => rewrite H; clear H end;
    reflexivity.
Qed.

(** X13. A path with a ["/../"] in it never reaches the file system or
    the printer: both commands that take a path, [StartPrint] and
    [SendFileInfo], reject it as "Forbidden path" without a single call to
    a collaborator, whatever comes before or after the ["/../"]. *)
Theorem path_traversal_is_rejected_unseen :
  forall (e : Env) (cid : CommandId) (path : string) (p : PlannerT),
    CString.has_substring "/../" path ->
    let answer :=
      Some (tt,
            set_planned_event
              (Some (mkEvent EventType.Rejected (Some cid) None None None
                       (Some "Forbidden path") false None)) p,
            @nil Call) in
    command_visit (mkCommand cid (StartPrint path)) (StartPrint path) e p
    = answer
    /\ command_visit (mkCommand cid (SendFileInfo path)) (SendFileInfo path)
         e p
       = answer.
Proof.
  intros e cid path p Hsub. cbv zeta.
  assert (path_allowed path = false) as Hpa.
  { unfold path_allowed.
    apply CStringFacts.strstr_substring in Hsub. destruct Hsub as [k Hk].
    rewrite Hk. apply andb_false_r. }
  destruct p as [pe lt ls cd pc fa ic fc bc dl ot ts].
  destruct e as [clk fp fh pr jc sp sr cfg fg fs st mid mo scd].
  split; compute_m; rewrite Hpa; reflexivity.
Qed.

(** *** Life cycles *)

(** X14. The life of a background command. A [Gcode] command arriving
    while nothing is pending or running is stored with its cursor at 0 and
    answered [Accepted]. Once that answer is acknowledged, [next_action]
    sends telemetry; once that is acknowledged too, and as long as no
    [Info] is due and the monitor shows the observed transfer, the
    [next_action] made within 1000 ms returns a [Sleep] for the rest of
    the short telemetry interval, which hands the stored command out
    together with the download. [background_done] then plans [Finished]
    (on [Success]) or [Failed] (on [Failure]) with the id of that command,
    and frees the slot. *)
Theorem background_command_life_cycle :
  forall (e1 e2 e3 e4 e5 e6 : Env) (cid : CommandId) (gcode : string)
         (size : Z) (r : BackgroundResult) (p : PlannerT),
    planned_event p = None ->
    background_command p = None ->
    r <> More ->
    fst (set_hash (info_fingerprint e3) (info_changes p)) = false ->
    fst (set_hash (files_hash e3) (file_changes p)) = false ->
    monitor_id e3 = observed_transfer p ->
    fst (set_hash (info_fingerprint e5)
           (snd (set_hash (info_fingerprint e3) (info_changes p)))) = false ->
    fst (set_hash (files_hash e5)
           (snd (set_hash (files_hash e3) (file_changes p)))) = false ->
    monitor_id e5 = observed_transfer p ->
    wrap32 (clock e5 - clock e4) < 1000 ->
    exists (p1 p2 p3 p4 p5 p6 : PlannerT) (log3 log5 : list Call),
      after e1 (OpCommand (mkCommand cid (Gcode gcode size))) p = Some p1
      /\ planned_event p1
         = Some (mkEvent EventType.Accepted (Some cid) None None None None
                   false None)
      /\ background_command p1
         = Some (mkBackgroundCommand cid (BackgroundGcode gcode size 0))
      /\ after e2 (OpActionDone ActionResult.Ok) p1 = Some p2
      /\ next_action e3 p2 = Some (SendTelemetry false, p3, log3)
      /\ after e4 (OpActionDone ActionResult.Ok) p3 = Some p4
      /\ next_action e5 p4
         = Some (ActSleep
                   (mkSleep (1000 - wrap32 (clock e5 - clock e4))
                      (Some (BackgroundGcode gcode size 0)) (download p)),
                 p5, log5)
      /\ after e6 (OpBackgroundDone r) p5 = Some p6
      /\ planned_event p6
         = Some (mkEvent
                   (match r with
                    | Success => EventType.Finished
                    | _ => EventType.Failed
                    end)
                   (Some cid) None None None None false None)
      /\ background_command p6 = None.
Proof.
  intros e1 e2 e3 e4 e5 e6 cid gcode size r p
         Hpe Hbc Hr Hi3 Hf3 Hm3 Hi5 Hf5 Hm5 Hlt.
  destruct p as [pe lt ls cd pc fa ic fc bc dl ot ts].
  destruct e2 as [clk2 fp2 fh2 pr2 jc2 sp2 sr2 cfg2 fg2 fs2 st2 mid2 mo2
                    scd2].
  destruct e3 as [clk3 fp3 fh3 pr3 jc3 sp3 sr3 cfg3 fg3 fs3 st3 mid3 mo3
                    scd3].
  destruct e4 as [clk4 fp4 fh4 pr4 jc4 sp4 sr4 cfg4 fg4 fs4 st4 mid4 mo4
                    scd4].
  destruct e5 as [clk5 fp5 fh5 pr5 jc5 sp5 sr5 cfg5 fg5 fs5 st5 mid5 mo5
                    scd5].
  cbn in Hpe, Hbc, Hi3, Hf3, Hm3, Hi5, Hf5, Hm5, Hlt.
  subst pe bc mid3 mid5.
  cbn [clock download].
  assert (option_Z_eqb ot ot = true) as Hsame
      by (destruct ot; cbn; [apply Z.eqb_refl|reflexivity]).
  assert (0 <= wrap32 (clk5 - clk4)) as Hpos
      by (unfold wrap32; apply Z.mod_pos_bound; lia).
  apply Z.leb_gt in Hlt.
  destruct r; [| |contradiction].
  all: do 8 eexists.
  all: split; [compute_m; reflexivity|].
  all: split; [reflexivity|].
  all: split; [reflexivity|].
  all: split; [compute_m; reflexivity|].
  all: split;
    [ compute_m; rewrite Hi3; compute_m; rewrite Hf3; compute_m;
      fold (option_Z_eqb ot ot); rewrite Hsame; compute_m; reflexivity | ].
  all: split; [compute_m; reflexivity|].
  all: split;
    [ compute_m; rewrite Hi5; compute_m; rewrite Hf5; compute_m;
      fold (option_Z_eqb ot ot); rewrite Hsame; compute_m;
      destruct pr5; compute_m; rewrite Hlt; compute_m;
      apply Z.leb_gt in Hlt;
      rewrite PlannerFacts.wrap32_small by lia; reflexivity | ].
  all: split; [compute_m; reflexivity|].
  all: split; reflexivity.
Qed.

(** X15. The life of a download: [StartConnectDownload] on a plain,
    unchanged configuration with a free slot stores the handle and
    remembers the command; after the answer is acknowledged,
    [download_done] gives the handle back and records the transfer the
    monitor shows; when the monitor later shows another transfer (or none)
    and still knows how that one ended, the next [next_action] with no
    [Info] due reports the end of that transfer together with the id of
    the command that started it, and forgets the command. *)
Theorem download_life_cycle :
  forall (e1 e2 e3 e4 : Env) (cid : CommandId) (team : Z)
         (hash dest : string) (d : Download) (t : TransferId)
         (o : Outcome.t) (p : PlannerT),
    planned_event p = None ->
    background_command p = None ->
    download p = None ->
    snd (config e1 false) = false ->
    tls (fst (config e1 false)) = false ->
    start_connect_download e1 (host (fst (config e1 false)))
      (port (fst (config e1 false)))
      ("/p/teams/" ++ PRIu64 team ++ "/files/" ++ hash ++ "/raw") dest
      (token (fst (config e1 false))) (fingerprint e1)
      (FINGERPRINT_HDR_SIZE e1) = Started d ->
    monitor_id e3 = Some t ->
    monitor_id e4 <> Some t ->
    monitor_outcome e4 t = Some o ->
    fst (set_hash (info_fingerprint e4) (info_changes p)) = false ->
    fst (set_hash (files_hash e4) (file_changes p)) = false ->
    exists (p1 p3 p4 : PlannerT) (log : list Call),
      after e1
        (OpCommand (mkCommand cid (StartConnectDownload team hash dest))) p
      = Some p1
      /\ download p1 = Some d
      /\ run [(e2, OpActionDone ActionResult.Ok); (e3, OpDownloadDone)] p1
         = Some p3
      /\ download p3 = None
      /\ next_action e4 p3
         = Some (ActEvent
                   (mkEvent (terminal_type o) None None None (Some t) None
                      false (Some cid)),
                 p4, log)
      /\ transfer_start_cmd p4 = None.
Proof.
  intros e1 e2 e3 e4 cid team hash dest d t o p
         Hpe Hbc Hdl Hch Htls Hscd Hm3 Hm4 Hout Hi Hf.
  destruct p as [pe lt ls cd pc fa ic fc bc dl ot ts].
  cbn in Hpe, Hbc, Hdl, Hi, Hf. subst pe bc dl.
  assert (after e1
            (OpCommand
               (mkCommand cid (StartConnectDownload team hash dest)))
            (mkPlanner None lt ls cd pc fa ic fc None None ot ts)
          = Some (mkPlanner
                    (Some (Event2 EventType.Finished (Some cid)))
                    lt ls cd pc fa ic fc None (Some d) ot (Some cid)))
    as Hcmd.
  { destruct e1 as [clk fp fh pr jc sp sr cfg fg fs st mid mo scd].
    cbn [config fingerprint FINGERPRINT_HDR_SIZE start_connect_download]
      in Hch, Htls, Hscd.
    destruct (cfg false) as [[h po tk tl] changed] eqn:Hcfg.
    cbn [fst snd host port token tls] in Hch, Htls, Hscd. subst changed tl.
    compute_m. rewrite Hcfg. cbn [fst snd]. compute_m.
    rewrite PlannerFacts.url_fits. compute_m. rewrite Hscd. reflexivity. }
  assert (run [(e2, OpActionDone ActionResult.Ok); (e3, OpDownloadDone)]
            (mkPlanner
               (Some (Event2 EventType.Finished (Some cid)))
               lt ls cd pc fa ic fc None (Some d) ot (Some cid))
          = Some (mkPlanner None None (Some (clock e2)) None false 0 ic fc
                    None None (Some t) (Some cid)))
    as Hrun.
  { destruct e3 as [clk fp fh pr jc sp sr cfg fg fs st mid mo scd].
    cbn in Hm3. subst mid. reflexivity. }
  pose proof (PlannerFacts.next_action_transfer_edge e4
                (mkPlanner None None (Some (clock e2)) None false 0 ic fc
                   None None (Some t) (Some cid))
                t o eq_refl eq_refl Hi Hf eq_refl Hm4 Hout) as Hedge.
  cbn [transfer_start_cmd] in Hedge.
  do 4 eexists.
  split; [exact Hcmd|]. split; [reflexivity|].
  split; [exact Hrun|]. split; [reflexivity|].
  split; [exact Hedge|reflexivity].
Qed.

(** *** Events that [next_action] plans itself *)

(** X23. How an [Info] comes due. With nothing pending, a change
    reported by the info tracker plans an [Info] at once: the files hash is
    not even asked for, the file tracker is left as it was, and the event
    asks for a rescan of the files exactly when the file tracker was dirty
    already. Only when the info tracker reports no change is the files hash
    probed; a change there plans the [Info] with the rescan flag read from
    the updated file tracker. *)
Theorem info_due_probes_in_order :
  forall (e : Env) (p : PlannerT),
    perform_cooldown p = false ->
    planned_event p = None ->
    let info := set_hash (info_fingerprint e) (info_changes p) in
    let files := set_hash (files_hash e) (file_changes p) in
    let event (rescan : bool) :=
      mkEvent EventType.Info None None None None None rescan None in
    (fst info = true ->
     next_action e p
     = Some (ActEvent (event (is_dirty (file_changes p))),
             set_planned_event
               (Some (event (is_dirty (file_changes p))))
               (set_info_changes (snd info) p),
             [CallInfoFingerprint]))
    /\ (fst info = false -> fst files = true ->
        next_action e p
        = Some (ActEvent (event (is_dirty (snd files))),
                set_planned_event
                  (Some (event (is_dirty (snd files))))
                  (set_file_changes (snd files)
                     (set_info_changes (snd info) p)),
                [CallInfoFingerprint; CallFilesHash])).
Proof.
  intros e p Hpc Hpe. cbv zeta.
  destruct p as [pe lt ls cd pc fa ic fc bc dl ot ts].
  destruct e as [clk fp fh pr jc sp sr cfg fg fs st mid mo scd].
  cbn in Hpc, Hpe. subst pc pe.
  cbn [info_fingerprint files_hash info_changes file_changes].
  split.
  - intros Hi. compute_m. rewrite Hi. compute_m.
    destruct (is_dirty fc); reflexivity.
  - intros Hi Hf. compute_m. rewrite Hi. compute_m. rewrite Hf. compute_m.
    destruct (is_dirty (snd (set_hash fh fc))); reflexivity.
Qed.

(** X24. A transfer whose outcome the monitor no longer has is never
    reported. When [next_action] finds the monitor's current transfer
    different from the observed one [t] and the monitor has no outcome for
    [t], it takes note of the new current transfer, plans nothing, keeps
    [transfer_start_cmd] as it is, and answers as if there were no edge
    (telemetry or a sleep); and as long as the monitor does not show [t] as
    current again, no later call plans an event that reports the end of
    [t]. *)
Theorem forgotten_transfer_is_never_reported :
  forall (e : Env) (p : PlannerT) (t : TransferId),
    perform_cooldown p = false ->
    planned_event p = None ->
    fst (set_hash (info_fingerprint e) (info_changes p)) = false ->
    fst (set_hash (files_hash e) (file_changes p)) = false ->
    observed_transfer p = Some t ->
    monitor_id e <> Some t ->
    monitor_outcome e t = None ->
    exists (a : Action) (p' : PlannerT) (log : list Call),
      next_action e p = Some (a, p', log)
      /\ (forall ev, a <> ActEvent ev)
      /\ planned_event p' = None
      /\ observed_transfer p' = monitor_id e
      /\ transfer_start_cmd p' = transfer_start_cmd p
      /\ forall (calls : list (Env * Op)) (p1 : PlannerT)
                (e' : Env) (op : Op) (p2 : PlannerT),
           never_current t (calls ++ [(e', op)])%list ->
           run calls p' = Some p1 ->
           after e' op p1 = Some p2 ->
           ~ plans_terminal_for t p1 p2.
Proof.
  intros e p t Hpc Hpe Hi Hf Hobs Hmid Hout.
  assert (exists a p' log,
             next_action e p = Some (a, p', log)
             /\ (forall ev, a <> ActEvent ev)
             /\ planned_event p' = None
             /\ observed_transfer p' = monitor_id e
             /\ transfer_start_cmd p' = transfer_start_cmd p) as Hnext.
  { destruct p as [pe lt ls cd pc fa ic fc bc dl ot ts].
    destruct e as [clk fp fh pr jc sp sr cfg fg fs st mid mo scd].
    cbn in Hpc, Hpe, Hi, Hf, Hobs, Hmid, Hout. subst pc pe ot.
    cbn [transfer_start_cmd monitor_id].
    assert (option_Z_eqb (Some t) mid = false) as Hneq.
    { destruct mid as [m|]; cbn; [|reflexivity].
      apply Z.eqb_neq. intros ->. now apply Hmid. }
    compute_m. rewrite Hi. compute_m. rewrite Hf. compute_m.
    fold (option_Z_eqb (Some t) mid). rewrite Hneq. compute_m.
    rewrite Hout.
    split_stuck; do 3 eexists; (split; [reflexivity|]);
      repeat split; discriminate. }
  destruct Hnext as [a [p' [log [Hnext [Ha [Hpe' [Hot' Hts']]]]]]].
  exists a, p', log. repeat (split; [assumption|]).
  intros calls p1 e' op p2 Hnever Hrun Hafter.
  unfold never_current in Hnever. apply Forall_app in Hnever.
  destruct Hnever as [Hcalls Hlast].
  inversion Hlast as [|c cs Hc _]; subst. cbn in Hc.
  apply (PlannerFacts.no_fresh_terminal t e' op p1 p2);
    [|exact Hc|exact Hafter].
  eapply PlannerFacts.run_keeps_unobserved; [|exact Hcalls|exact Hrun].
  rewrite Hot'. exact Hmid.
Qed.

End WithTracker.

(** The counter wraps between the event and the reading. *)
Lemma since_is_wrap_safe_witness :
  since (Some 4294967000) (calm 704) quiet = Some (Some 1000, quiet, []).
Proof.
  apply (since_is_wrap_safe (calm 704) quiet 4294967000 1000);
    [split; [discriminate|reflexivity]
    |split; [discriminate|reflexivity]
    |reflexivity].
Defined.

(** *** Examples on the sample planner *)

Lemma quiet_backoff_ok : backoff_ok quiet.
Proof.
  repeat split; cbn; intros; try discriminate; try reflexivity.
Qed.

(** Two failures, a success, a command, a failure. *)
Lemma run_keeps_backoff_ok_witness :
  exists p',
    run [(calm 1, OpActionDone ActionResult.Failed);
         (calm 2, OpActionDone ActionResult.Failed);
         (calm 3, OpActionDone ActionResult.Ok);
         (calm 4, OpCommand (mkCommand 7 (Gcode "G1 X10" 6)));
         (calm 5, OpActionDone ActionResult.Failed)] quiet = Some p'
    /\ 0 <= failed_attempts p' < 5.
Proof.
  destruct (run [(calm 1, OpActionDone ActionResult.Failed);
                 (calm 2, OpActionDone ActionResult.Failed);
                 (calm 3, OpActionDone ActionResult.Ok);
                 (calm 4, OpCommand (mkCommand 7 (Gcode "G1 X10" 6)));
                 (calm 5, OpActionDone ActionResult.Failed)] quiet)
    as [p'|] eqn:Hrun; [|vm_compute in Hrun; discriminate Hrun].
  exists p'. split; [reflexivity|].
  exact (proj2 (proj2 (run_keeps_backoff_ok _ quiet p' quiet_backoff_ok
                         Hrun))).
Defined.

Lemma next_action_never_asserts_witness :
  exists p',
    run [(calm 1, OpActionDone ActionResult.Failed);
         (calm 2, OpNextAction);
         (calm 3, OpActionDone ActionResult.Failed)] quiet = Some p'
    /\ exists a p'' log, next_action (calm 4) p' = Some (a, p'', log).
Proof.
  destruct (run [(calm 1, OpActionDone ActionResult.Failed);
                 (calm 2, OpNextAction);
                 (calm 3, OpActionDone ActionResult.Failed)] quiet)
    as [p'|] eqn:Hrun; [|vm_compute in Hrun; discriminate Hrun].
  exists p'. split; [reflexivity|].
  exact (next_action_never_asserts _ quiet p' (calm 4) quiet_backoff_ok
           Hrun).
Defined.

(** A cooldown sleep while an event is pending and G-code runs: the
    sleeper gets no background command. *)
Lemma sleep_respects_pending_event_witness :
  exists p' log,
    next_action (calm 5)
      (set_perform_cooldown true
         (set_cooldown (Some 100)
            (set_planned_event (Some (Event2 EventType.Finished (Some 3)))
               (set_background_command
                  (Some (mkBackgroundCommand 7
                           (BackgroundGcode "G1 X10" 6 0))) quiet))))
    = Some (ActSleep (mkSleep 100 None None), p', log)
    /\ planned_event p' = Some (Event2 EventType.Finished (Some 3)).
Proof.
  assert (exists p' log,
             next_action (calm 5)
               (set_perform_cooldown true
                  (set_cooldown (Some 100)
                     (set_planned_event
                        (Some (Event2 EventType.Finished (Some 3)))
                        (set_background_command
                           (Some (mkBackgroundCommand 7
                                    (BackgroundGcode "G1 X10" 6 0)))
                           quiet))))
             = Some (ActSleep (mkSleep 100 None None), p', log))
    as [p' [log H]] by (do 2 eexists; vm_compute; reflexivity).
  exists p', log. split; [exact H|].
  exact (proj1 (proj2 (sleep_respects_pending_event _ _ _ _ _ _ _ H))).
Defined.

(** 1500 ms after the last telemetry, idle printer: sleep for 2500 ms. *)
Lemma telemetry_cadence_witness :
  exists p' log,
    next_action (calm 6500) (set_last_telemetry (Some 5000) quiet)
    = Some (ActSleep (mkSleep 2500 None None), p', log).
Proof.
  destruct (telemetry_cadence (tracker := Tracked_ops) (calm 6500)
              (set_last_telemetry (Some 5000) quiet) 5000
              eq_refl eq_refl eq_refl eq_refl eq_refl eq_refl)
    as [a [p' [log [Hnext [_ [_ [_ Hsleep]]]]]]].
  exists p', log. rewrite Hnext.
  destruct Hsleep as [_ ->]; reflexivity.
Defined.

Lemma success_resets_backoff_witness :
  exists p1 p2 p3,
    run (failures (map calm [1; 2; 3])) quiet = Some p1
    /\ after (calm 4) (OpActionDone ActionResult.Refused) p1 = Some p2
    /\ after (calm 5) (OpActionDone ActionResult.Failed) p2 = Some p3
    /\ cooldown p3 = Some 100.
Proof.
  destruct (success_resets_backoff (map calm [1; 2; 3]) (calm 4) (calm 5)
              ActionResult.Refused quiet)
    as [p1 [p2 [p3 [H1 [H2 [_ [_ [_ [_ [_ [H3 [H4 _]]]]]]]]]]]].
  - discriminate.
  - exists p1, p2, p3. repeat split; assumption.
Defined.

(** A printer whose info fingerprint changed: the [Info] is planned and the
    files hash is not asked for. *)
Lemma info_due_probes_in_order_witness :
  exists ev p',
    next_action
      (mkEnv 10 7 0 false (fun _ => true) (fun _ => true) (fun _ => true)
         (fun _ => (mkConfig "connect.example" 80 "token" false, false))
         "fingerprint" 16 (fun _ => true) None (fun _ => None)
         (fun _ _ _ _ _ _ _ => Started 1))
      quiet
    = Some (ActEvent ev, p', [CallInfoFingerprint])
    /\ type ev = EventType.Info.
Proof.
  destruct (info_due_probes_in_order (tracker := Tracked_ops)
              (mkEnv 10 7 0 false (fun _ => true) (fun _ => true)
                 (fun _ => true)
                 (fun _ => (mkConfig "connect.example" 80 "token" false,
                            false))
                 "fingerprint" 16 (fun _ => true) None (fun _ => None)
                 (fun _ _ _ _ _ _ _ => Started 1))
              quiet eq_refl eq_refl) as [Hinfo _].
  do 2 eexists. split.
  - apply Hinfo. reflexivity.
  - reflexivity.
Defined.

(** Transfer 7 was observed, the monitor shows no transfer and has no
    outcome for it: nothing is planned. *)
Lemma forgotten_transfer_is_never_reported_witness :
  exists a p' log,
    next_action (calm 100) (set_observed_transfer (Some 7) quiet)
    = Some (a, p', log)
    /\ planned_event p' = None
    /\ observed_transfer p' = None.
Proof.
  destruct (forgotten_transfer_is_never_reported (tracker := Tracked_ops)
              (calm 100) (set_observed_transfer (Some 7) quiet) 7
              eq_refl eq_refl eq_refl eq_refl eq_refl
              ltac:(discriminate) eq_refl)
    as [a [p' [log [Hnext [_ [Hpe [Hot _]]]]]]].
  exists a, p', log. repeat split; assumption.
Defined.

(** A fourth failure leaves a [FileInfo] event where it is. *)
Lemma pending_event_survives_permitted_calls_witness :
  exists p',
    after (calm 9) (OpActionDone ActionResult.Failed)
      (set_failed_attempts 3
         (set_planned_event
            (Some (Event_ EventType.FileInfo (Some 42) None
                     (Some "/usb/x.gco") None None)) quiet)) = Some p'
    /\ planned_event p'
       = Some (Event_ EventType.FileInfo (Some 42) None
                 (Some "/usb/x.gco") None None).
Proof.
  destruct (pending_event_survives_permitted_calls (calm 9)
              (OpActionDone ActionResult.Failed)
              (set_failed_attempts 3
                 (set_planned_event
                    (Some (Event_ EventType.FileInfo (Some 42) None
                             (Some "/usb/x.gco") None None)) quiet))
              (Event_ EventType.FileInfo (Some 42) None
                 (Some "/usb/x.gco") None None)
              eq_refl eq_refl
              ltac:(discriminate) ltac:(discriminate))
    as [p' [Hafter [Hkeep|[r [Hop [Hfail _]]]]]].
  - exists p'. split; [exact Hafter|exact Hkeep].
  - exfalso. inversion Hop; subst r.
    destruct (Hfail eq_refl) as [_ [_ Hfive]].
    vm_compute in Hfive. apply Hfive. reflexivity.
Defined.

(** The acknowledgement of an [Info] event that asked for a rescan. *)
Lemma trackers_cleaned_by_acknowledged_info_only_witness :
  exists p',
    after (calm 9) (OpActionDone ActionResult.Ok)
      (set_planned_event
         (Some (with_info_rescan_files true (Event1 EventType.Info)))
         (set_file_changes (mkTracked 5 0 true)
            (set_info_changes (mkTracked 3 0 true) quiet))) = Some p'
    /\ info_changes p' = mkTracked 3 3 false
    /\ file_changes p' = mkTracked 5 5 false.
Proof.
  destruct (after (calm 9) (OpActionDone ActionResult.Ok)
              (set_planned_event
                 (Some (with_info_rescan_files true
                          (Event1 EventType.Info)))
                 (set_file_changes (mkTracked 5 0 true)
                    (set_info_changes (mkTracked 3 0 true) quiet))))
    as [p'|] eqn:Hafter; [|vm_compute in Hafter; discriminate Hafter].
  exists p'. split; [reflexivity|].
  exact (trackers_cleaned_by_acknowledged_info_only _ _ _ p' Hafter).
Defined.

Lemma every_command_is_answered_witness :
  exists p' log ev,
    command (mkCommand 11 CancelPrinterReady) (calm 9) quiet
    = Some (tt, p', log)
    /\ planned_event p' = Some ev
    /\ command_id ev = Some 11.
Proof.
  destruct (every_command_is_answered (T := Tracked) (calm 9)
              (mkCommand 11 CancelPrinterReady) quiet eq_refl
              ltac:(discriminate) ltac:(reflexivity)
              ltac:(discriminate))
    as [p' [log [ev [Hc [Hev [Hid _]]]]]].
  exists p', log, ev. repeat split; assumption.
Defined.

Lemma start_print_validates_in_order_witness :
  command_StartPrint (mkCommand 12 (StartPrint "/usb/../etc/passwd"))
    "/usb/../etc/passwd" (calm 9) quiet
  = Some (tt,
          set_planned_event
            (Some (mkEvent EventType.Rejected (Some 12) None None None
                     (Some "Forbidden path") false None)) quiet,
          []).
Proof.
  exact (proj1 (start_print_validates_in_order (calm 9)
                  (mkCommand 12 (StartPrint "/usb/../etc/passwd"))
                  "/usb/../etc/passwd" quiet) eq_refl).
Defined.

Lemma path_traversal_is_rejected_unseen_witness :
  command_visit (mkCommand 13 (SendFileInfo "/usb/a/../../etc"))
    (SendFileInfo "/usb/a/../../etc") (calm 9) quiet
  = Some (tt,
          set_planned_event
            (Some (mkEvent EventType.Rejected (Some 13) None None None
                     (Some "Forbidden path") false None)) quiet,
          []).
Proof.
  refine (proj2 (path_traversal_is_rejected_unseen (calm 9) 13
                   "/usb/a/../../etc" quiet _)).
  exists "/usb/a", "../etc". reflexivity.
Defined.

(** Scenario 2 of the specification, to the end of the G-code. *)
Lemma background_command_life_cycle_witness :
  exists p4 p5 log5 p6,
    run [(calm 1, OpCommand (mkCommand 7 (Gcode "G1 X10" 6)));
         (calm 2, OpActionDone ActionResult.Ok);
         (calm 3, OpNextAction);
         (calm 4, OpActionDone ActionResult.Ok)] quiet = Some p4
    /\ next_action (calm 500) p4
       = Some (ActSleep
                 (mkSleep 504 (Some (BackgroundGcode "G1 X10" 6 0)) None),
               p5, log5)
    /\ after (calm 600) (OpBackgroundDone Success) p5 = Some p6
    /\ planned_event p6
       = Some (mkEvent EventType.Finished (Some 7) None None None None
                 false None).
Proof.
  destruct (background_command_life_cycle (tracker := Tracked_ops)
              (calm 1) (calm 2) (calm 3) (calm 4) (calm 500) (calm 600) 7
              "G1 X10" 6 Success quiet eq_refl eq_refl
              ltac:(discriminate) eq_refl eq_refl eq_refl eq_refl eq_refl
              eq_refl eq_refl)
    as [p1 [p2 [p3 [p4 [p5 [p6 [log3 [log5
         [H1 [_ [_ [H2 [H3 [H4 [H5 [H6 [Hev _]]]]]]]]]]]]]]]]].
  exists p4, p5, log5, p6.
  split; [|split; [exact H5|split; [exact H6|exact Hev]]].
  cbn [run]. rewrite H1, H2.
  unfold after at 1, exec, bind. rewrite H3. cbn [ret].
  rewrite H4. reflexivity.
Defined.

(** Scenario 6 of the specification: the download started by command 3
    becomes transfer 21 and finishes. *)
Lemma download_life_cycle_witness :
  exists p1 p3 p4 log,
    after (calm 1)
      (OpCommand (mkCommand 3 (StartConnectDownload 17 "abc" "/usb/f.gco")))
      quiet = Some p1
    /\ run [(calm 2, OpActionDone ActionResult.Ok);
            (mkEnv 3 0 0 false (fun _ => true) (fun _ => true)
               (fun _ => true)
               (fun _ => (mkConfig "connect.example" 80 "token" false,
                          false))
               "fingerprint" 16 (fun _ => true) (Some 21) (fun _ => None)
               (fun _ _ _ _ _ _ _ => Started 1), OpDownloadDone)] p1
       = Some p3
    /\ next_action
         (mkEnv 4 0 0 false (fun _ => true) (fun _ => true)
            (fun _ => true)
            (fun _ => (mkConfig "connect.example" 80 "token" false, false))
            "fingerprint" 16 (fun _ => true) None
            (fun t => if t =? 21 then Some Outcome.Finished else None)
            (fun _ _ _ _ _ _ _ => Started 1)) p3
       = Some (ActEvent
                 (mkEvent EventType.TransferFinished None None None
                    (Some 21) None false (Some 3)),
               p4, log).
Proof.
  destruct (download_life_cycle (tracker := Tracked_ops) (calm 1) (calm 2)
              (mkEnv 3 0 0 false (fun _ => true) (fun _ => true)
                 (fun _ => true)
                 (fun _ => (mkConfig "connect.example" 80 "token" false,
                            false))
                 "fingerprint" 16 (fun _ => true) (Some 21)
                 (fun _ => None) (fun _ _ _ _ _ _ _ => Started 1))
              (mkEnv 4 0 0 false (fun _ => true) (fun _ => true)
                 (fun _ => true)
                 (fun _ => (mkConfig "connect.example" 80 "token" false,
                            false))
                 "fingerprint" 16 (fun _ => true) None
                 (fun t => if t =? 21 then Some Outcome.Finished else None)
                 (fun _ _ _ _ _ _ _ => Started 1))
              3 17 "abc" "/usb/f.gco" 1 21 Outcome.Finished quiet
              eq_refl eq_refl eq_refl eq_refl eq_refl eq_refl eq_refl)
    as [p1 [p3 [p4 [log [H1 [_ [H2 [_ [H3 _]]]]]]]]].
  - discriminate.
  - reflexivity.
  - reflexivity.
  - reflexivity.
  - exists p1, p3, p4, log. repeat split; assumption.
Defined.

End PlannerExtras.

(** ** More on the USB power-cycle supervisor *)

Module SupervisorExtras.
Import usbh_power_cycle.

Lemma count_app {A} (f : A -> bool) (l1 l2 : list A) :
  count f (l1 ++ l2)%list = (count f l1 + count f l2)%nat.
Proof. unfold count. now rewrite filter_app, length_app. Qed.

(** X16. A power cycle always completes. In every state reached from
    [init] outside phase idle the restart timer is running, and from every
    reached state with the timer running, letting it expire three times
    (from idle), twice (from power_off) or once (from power_on) leads back
    to idle with the timer dormant; on the way the USB host stack is
    stopped and then started, or just started, or left alone, and
    [printing_paused] is not touched. *)
Theorem power_cycle_completes :
  forall (ts : list Trigger) (s : State),
    run ts init = Some s ->
    (phase s <> idle -> restart_timer s <> None)
    /\ (restart_timer s <> None ->
        exists (s' : State) (fx : list Effect),
          trace (repeat TimerExpired (expiries_left s)) s = Some (s', fx)
          /\ phase s' = idle
          /\ restart_timer s' = None
          /\ printing_paused s' = printing_paused s
          /\ filter is_usbh fx
             = match phase s with
               | idle => [USBH_Stop; USBH_Start]
               | power_off => [USBH_Start]
               | power_on => []
               end).
Proof.
  intros ts s Hrun.
  pose proof (SupervisorFacts.reachable_timer_fits ts init s
                SupervisorFacts.init_timer_fits Hrun) as Hfit.
  unfold timer_fits_phase in Hfit.
  destruct s as [ph pp tm mi ci]; cbn in Hfit. split.
  - cbn. intros Hph. destruct ph; [contradiction|..]; rewrite Hfit;
      discriminate.
  - cbn [restart_timer]. intros Htm.
    destruct ph.
    + destruct Hfit as [Hnone|Hten]; [contradiction|]. subst tm.
      destruct pp, mi, ci; do 2 eexists; cbn; repeat split.
    + subst tm. destruct pp, mi, ci; do 2 eexists; cbn; repeat split.
    + subst tm. destruct pp, mi, ci; do 2 eexists; cbn; repeat split.
Qed.

Lemma power_cycle_completes_witness :
  exists s' fx,
    trace [TimerExpired; TimerExpired; TimerExpired]
      (mkState idle true (Some 10) false false) = Some (s', fx)
    /\ phase s' = idle
    /\ filter is_usbh fx = [USBH_Stop; USBH_Start].
Proof.
  destruct (proj2 (power_cycle_completes [MediaStateError; IoError]
                     (mkState idle true (Some 10) false false) eq_refl))
    as [s' [fx [Htrace [Hph [_ [_ Hfx]]]]]].
  - discriminate.
  - exists s', fx. repeat split; assumption.
Defined.

Lemma step_resume_budget (t : Trigger) (s s' : State) (fx : list Effect) :
  step t s = Some (s', fx) ->
  (count is_print_resume fx + b2n (printing_paused s')
   <= b2n (is_media_state_error t) + b2n (printing_paused s))%nat
  /\ (printing_paused s' = true ->
      is_media_state_error t = true \/ printing_paused s = true)
  /\ (0 < count is_set_warning fx -> printing_paused s = true)%nat.
Proof.
  destruct s as [ph pp tm mi ci], t, ph, pp, mi, ci; cbn;
    try (destruct tm; [|discriminate]);
    intros H; inversion H; subst; cbn; repeat split; auto; lia.
Qed.

Lemma trace_resume_budget (ts : list Trigger) :
  forall (s s' : State) (fx : list Effect),
    trace ts s = Some (s', fx) ->
    (count is_print_resume fx + b2n (printing_paused s')
     <= count is_media_state_error ts + b2n (printing_paused s))%nat
    /\ (printing_paused s' = true \/ 0 < count is_set_warning fx ->
        0 < count is_media_state_error ts \/ printing_paused s = true)%nat.
Proof.
  induction ts as [|t ts IH]; intros s s' fx Htrace.
  - cbn in Htrace. inversion Htrace; subst. cbn. split; [lia|].
    intros [H|H]; [now right|cbn in H; lia].
  - cbn [trace] in Htrace.
    destruct (step t s) as [[s1 fx1]|] eqn:Hstep; [|discriminate].
    destruct (trace ts s1) as [[s2 fx2]|] eqn:Hrest; [|discriminate].
    inversion Htrace; subst s2 fx. clear Htrace.
    destruct (step_resume_budget t s s1 fx1 Hstep) as [Hb1 [Hp1 Hw1]].
    destruct (IH s1 s' fx2 Hrest) as [Hb2 Hp2].
    rewrite !count_app.
    change (t :: ts) with ([t] ++ ts)%list. rewrite count_app.
    assert (count is_media_state_error [t] = b2n (is_media_state_error t))
      as Hone by (unfold count; cbn; now destruct (is_media_state_error t)).
    rewrite Hone. split; [lia|].
    intros Hlate.
    assert (0 < count is_media_state_error ts \/ printing_paused s1 = true
            \/ 0 < count is_set_warning fx1)%nat as Hcase.
    { destruct Hlate as [Hpp|Hw]; [destruct (Hp2 (or_introl Hpp)); auto|].
      destruct (count is_set_warning fx2) eqn:E2.
      - right; right. lia.
      - destruct (Hp2 (or_intror (Nat.lt_0_succ n))); auto. }
    destruct Hcase as [Hc|[Hc|Hc]].
    + left. lia.
    + destruct (Hp1 Hc) as [Ht|Hs]; [left; rewrite Ht; cbn; lia|now right].
    + right. now apply Hw1.
Qed.

(** X17. The supervisor asks for the print to be resumed at most once per
    [media_state_error]: over any sequence of triggers from [init], the
    resume requests, plus one if the flag is still raised, never outnumber
    the calls of [media_state_error]; and without such a call there is
    neither a resume nor a USBFlashDiskError warning. *)
Theorem resumes_need_media_errors :
  forall (ts : list Trigger) (s : State) (fx : list Effect),
    trace ts init = Some (s, fx) ->
    (count is_print_resume fx + (if printing_paused s then 1 else 0)
     <= count is_media_state_error ts)%nat
    /\ (count is_media_state_error ts = 0 ->
        count is_print_resume fx = 0 /\ count is_set_warning fx = 0)%nat.
Proof.
  intros ts s fx Htrace.
  destruct (trace_resume_budget ts init s fx Htrace) as [Hb Hp].
  cbn [printing_paused init b2n] in Hb, Hp. rewrite Nat.add_0_r in Hb.
  split; [exact Hb|].
  intros Hzero. split; [unfold b2n in Hb; lia|].
  destruct (count is_set_warning fx) eqn:E; [reflexivity|].
  destruct (Hp (or_intror (Nat.lt_0_succ n))) as [H|H];
    [lia|discriminate].
Qed.

(** One error, one cycle that MSC ends, a second MSC notice. *)
Lemma resumes_need_media_errors_witness :
  exists s fx,
    trace [MediaStateError; IoError; TimerExpired; TimerExpired; MscActive;
           MscActive] init = Some (s, fx)
    /\ (count is_print_resume fx <= 1)%nat.
Proof.
  destruct (trace [MediaStateError; IoError; TimerExpired; TimerExpired;
                   MscActive; MscActive] init)
    as [[s fx]|] eqn:Htrace; [|vm_compute in Htrace; discriminate Htrace].
  exists s, fx. split; [reflexivity|].
  pose proof (proj1 (resumes_need_media_errors _ s fx Htrace)) as H.
  change (count is_media_state_error
            [MediaStateError; IoError; TimerExpired; TimerExpired;
             MscActive; MscActive]) with 1%nat in H.
  lia.
Defined.

Lemma client_ready_app (fx1 fx2 : list Effect) : forall seen : bool,
  client_ready seen (fx1 ++ fx2)%list
  = client_ready seen fx1
    && client_ready (seen || (0 <? count is_marlin_client_init fx1)%nat) fx2.
Proof.
  induction fx1 as [|x fx1 IH]; intros seen.
  - cbn. now rewrite orb_false_r.
  - destruct x; cbn [app client_ready]; rewrite ?IH;
      unfold count; cbn [filter is_marlin_client_init List.length];
      fold (count is_marlin_client_init fx1);
      try reflexivity.
    + now rewrite orb_true_r.
    + now rewrite andb_assoc.
    + now rewrite andb_assoc.
Qed.

Lemma step_client (t : Trigger) (s s' : State) (fx : list Effect) :
  step t s = Some (s', fx) ->
  (count is_marlin_client_init fx
   + b2n (msc_active_initializated s) + b2n (callback_initializated s)
   = b2n (msc_active_initializated s') + b2n (callback_initializated s'))%nat.
Proof.
  destruct s as [ph pp tm mi ci], t, ph, pp, mi, ci; cbn;
    try (destruct tm; [|discriminate]);
    intros H; inversion H; subst; reflexivity.
Qed.

(** What [step] needs of the past to keep the client ready: each
    function initialises the client itself unless its own flag says it has
    done so. *)
Lemma step_client_ready (t : Trigger) (s s' : State) (fx : list Effect)
    (seen : bool) :
  step t s = Some (s', fx) ->
  (msc_active_initializated s = true -> seen = true) ->
  (callback_initializated s = true -> seen = true) ->
  client_ready seen fx = true
  /\ (msc_active_initializated s' = true ->
      seen || (0 <? count is_marlin_client_init fx)%nat = true)
  /\ (callback_initializated s' = true ->
      seen || (0 <? count is_marlin_client_init fx)%nat = true).
Proof.
  destruct s as [ph pp tm mi ci], t, ph, pp, mi, ci, seen; cbn;
    try (destruct tm; [|discriminate]);
    intros H Hm Hc; inversion H; subst; cbn; repeat split; auto;
    try (discriminate (Hm eq_refl)); try (discriminate (Hc eq_refl)).
Qed.

Lemma trace_client (ts : list Trigger) :
  forall (s s' : State) (fx : list Effect) (seen : bool),
    trace ts s = Some (s', fx) ->
    (msc_active_initializated s = true -> seen = true) ->
    (callback_initializated s = true -> seen = true) ->
    client_ready seen fx = true
    /\ (count is_marlin_client_init fx
        + b2n (msc_active_initializated s)
        + b2n (callback_initializated s)
        = b2n (msc_active_initializated s')
          + b2n (callback_initializated s'))%nat.
Proof.
  induction ts as [|t ts IH]; intros s s' fx seen Htrace Hm Hc.
  - cbn in Htrace. inversion Htrace; subst. cbn. split; [reflexivity|lia].
  - cbn [trace] in Htrace.
    destruct (step t s) as [[s1 fx1]|] eqn:Hstep; [|discriminate].
    destruct (trace ts s1) as [[s2 fx2]|] eqn:Hrest; [|discriminate].
    inversion Htrace; subst s2 fx. clear Htrace.
    destruct (step_client_ready t s s1 fx1 seen Hstep Hm Hc)
      as [Hr1 [Hm1 Hc1]].
    pose proof (step_client t s s1 fx1 Hstep) as Hcount1.
    destruct (IH s1 s' fx2
                (seen || (0 <? count is_marlin_client_init fx1)%nat)
                Hrest Hm1 Hc1) as [Hr2 Hcount2].
    split.
    + rewrite client_ready_app, Hr1, Hr2. reflexivity.
    + rewrite count_app. lia.
Qed.

(** X18. The marlin client is initialised lazily and before use: over
    any sequence of triggers from [init], every request to resume the
    print and every warning comes after a call of [marlin_client::init];
    [msc_active] and the timer callback each keep a flag of their own, so
    the client is initialised once by each of the two that gets to use it,
    at most twice in all. *)
Theorem marlin_client_initialised_before_use :
  forall (ts : list Trigger) (s : State) (fx : list Effect),
    trace ts init = Some (s, fx) ->
    client_ready false fx = true
    /\ count is_marlin_client_init fx
       = (b2n (msc_active_initializated s)
          + b2n (callback_initializated s))%nat
    /\ (count is_marlin_client_init fx <= 2)%nat.
Proof.
  intros ts s fx Htrace.
  destruct (trace_client ts init s fx false Htrace) as [Hready Hcount];
    try (cbn; discriminate).
  cbn [init msc_active_initializated callback_initializated b2n] in Hcount.
  split; [exact Hready|]. split; [lia|].
  destruct (msc_active_initializated s), (callback_initializated s);
    cbn in Hcount; lia.
Qed.

(** A cycle that times out with the print paused, then one that MSC
    ends: the client is initialised twice. *)
Lemma marlin_client_initialised_before_use_witness :
  exists s fx,
    trace [MediaStateError; IoError; TimerExpired; TimerExpired;
           TimerExpired; IoError; TimerExpired; TimerExpired; MscActive]
      init = Some (s, fx)
    /\ count is_marlin_client_init fx = 2%nat
    /\ client_ready false fx = true.
Proof.
  destruct (trace [MediaStateError; IoError; TimerExpired; TimerExpired;
                   TimerExpired; IoError; TimerExpired; TimerExpired;
                   MscActive] init)
    as [[s fx]|] eqn:Htrace; [|vm_compute in Htrace; discriminate Htrace].
  exists s, fx. split; [reflexivity|].
  destruct (marlin_client_initialised_before_use _ s fx Htrace)
    as [Hready [Hcount _]].
  split; [|exact Hready].
  rewrite Hcount. vm_compute in Htrace. inversion Htrace. reflexivity.
Defined.

End SupervisorExtras.

(** ** The start-up hot-plug detector and [USBH_UserProcess] *)

Module HostFacts.
Import usb_host.

Lemma flag_after_notice (readahead : bool) (t1 t2 : Z) (m : FRESULT)
    (i : HostUser) (h : Host) :
  let deadline :=
    if (0 <? one_click_print_timeout h) && (one_click_print_timeout h <=? t1)
    then 0 else one_click_print_timeout h in
  one_click_print_timeout (fst (USBH_UserProcess readahead t1 t2 m i h))
  = deadline
  /\ connected_at_startup (fst (USBH_UserProcess readahead t1 t2 m i h))
     = match i, m with
       | HOST_USER_DISCONNECTION, _ => false
       | HOST_USER_CLASS_ACTIVE, FR_OK =>
           if (0 <? deadline) && (t2 <? deadline) then true
           else connected_at_startup h
       | _, _ => connected_at_startup h
       end.
Proof.
  destruct h as [ap dl cn pw]. unfold USBH_UserProcess.
  cbn [one_click_print_timeout connected_at_startup Appli_state power_cycle].
  destruct i, m; try destruct (usbh_power_cycle.msc_active pw);
    split; reflexivity.
Qed.

(** X19. After a call of [USBH_UserProcess] the flag
    [connected_at_startup] is raised exactly when the call reported an
    active class whose drive mounted while the deadline was set and not
    reached at either reading of the clock, or when the flag was raised
    before and the call did not report a disconnection. *)
Theorem connected_at_startup_after_notice :
  forall (readahead : bool) (t1 t2 : Z) (m : FRESULT) (i : HostUser)
         (h h' : Host) (fx : list HostEffect),
    USBH_UserProcess readahead t1 t2 m i h = (h', fx) ->
    (device_connected_at_startup h' = true <->
     (i = HOST_USER_CLASS_ACTIVE /\ m = FR_OK
      /\ 0 < one_click_print_timeout h
      /\ t1 < one_click_print_timeout h
      /\ t2 < one_click_print_timeout h)
     \/ (device_connected_at_startup h = true
         /\ i <> HOST_USER_DISCONNECTION)).
Proof.
  intros readahead t1 t2 m i h h' fx Hcall.
  pose proof (proj2 (flag_after_notice readahead t1 t2 m i h)) as Hflag.
  rewrite Hcall in Hflag. cbn [fst] in Hflag.
  unfold device_connected_at_startup. rewrite Hflag. clear Hflag Hcall.
  destruct (Z.ltb_spec 0 (one_click_print_timeout h)) as [Hpos|Hpos];
    destruct (Z.leb_spec (one_click_print_timeout h) t1) as [Hreach|Hreach];
    cbn [andb];
    destruct (Z.ltb_spec 0 (one_click_print_timeout h)) as [Hpos'|Hpos'];
    try lia;
    destruct (Z.ltb_spec t2 (one_click_print_timeout h)) as [Hin|Hin];
    cbn;
    destruct i, m, (connected_at_startup h);
    (split;
     [ intros Hnew; try discriminate Hnew;
       first [ right; split; [reflexivity|discriminate]
             | left; repeat split; (reflexivity || lia) ]
     | intros [[Hi [Hm [H0 [H1 H2]]]]|[Hc Hi]];
       try discriminate; try reflexivity; try lia; try congruence ]).
Qed.

Lemma connected_at_startup_after_notice_witness :
  USBH_UserProcess true 1200 1201 FR_OK HOST_USER_CLASS_ACTIVE
    (mkHost APPLICATION_START 3500 false usbh_power_cycle.init)
  = (mkHost APPLICATION_READY 3500 true usbh_power_cycle.init,
     [f_mount true; media_set_inserted; readahead_enable])
  /\ device_connected_at_startup
       (mkHost APPLICATION_READY 3500 true usbh_power_cycle.init) = true.
Proof.
  split; [reflexivity|].
  apply (proj2 (connected_at_startup_after_notice true 1200 1201 FR_OK
                  HOST_USER_CLASS_ACTIVE
                  (mkHost APPLICATION_START 3500 false usbh_power_cycle.init)
                  _ _ eq_refl)).
  left. repeat split; reflexivity.
Defined.

Lemma notify_closed (readahead : bool) (n : Notice) (h : Host) :
  one_click_print_timeout h = 0
  \/ 0 < one_click_print_timeout h <= ticks1 n ->
  one_click_print_timeout (notify readahead n h) = 0
  /\ (connected_at_startup (notify readahead n h) = true ->
      connected_at_startup h = true).
Proof.
  intros Hclosed. unfold notify.
  destruct (flag_after_notice readahead (ticks1 n) (ticks2 n) (mount n)
              (id n) h) as [Hdl Hcn].
  rewrite Hdl, Hcn. clear Hdl Hcn.
  assert ((if (0 <? one_click_print_timeout h)
              && (one_click_print_timeout h <=? ticks1 n)
           then 0 else one_click_print_timeout h) = 0) as ->.
  { destruct Hclosed as [Hz|[Hpos Hreach]].
    - rewrite Hz. now destruct (0 <=? ticks1 n).
    - apply Z.ltb_lt in Hpos. apply Z.leb_le in Hreach.
      now rewrite Hpos, Hreach. }
  split; [reflexivity|].
  cbn. destruct (id n), (mount n); auto; discriminate.
Qed.

Lemma notify_all_closed (readahead : bool) (ns : list Notice) :
  forall h : Host,
    one_click_print_timeout h = 0 ->
    one_click_print_timeout (notify_all readahead ns h) = 0
    /\ (connected_at_startup (notify_all readahead ns h) = true ->
        connected_at_startup h = true).
Proof.
  induction ns as [|n ns IH]; intros h Hz; [now split|].
  cbn [notify_all fold_left].
  destruct (notify_closed readahead n h (or_introl Hz)) as [Hz1 Hc1].
  destruct (IH (notify readahead n h) Hz1) as [Hz2 Hc2].
  split; [exact Hz2|]. intros H. apply Hc1, Hc2, H.
Qed.

(** X20. The window closes for good. A call of [USBH_UserProcess] that
    reads the clock at or past the deadline zeroes the deadline without
    raising the flag, and once the deadline is zero no sequence of calls
    sets it again or raises the flag: after the window,
    [device_connected_at_startup] can only go from true to false. *)
Theorem startup_window_closes_for_good :
  forall (readahead : bool) (n : Notice) (ns : list Notice) (h : Host),
    one_click_print_timeout h = 0
    \/ 0 < one_click_print_timeout h <= ticks1 n ->
    one_click_print_timeout (notify_all readahead (n :: ns) h) = 0
    /\ (device_connected_at_startup (notify_all readahead (n :: ns) h) = true
        -> device_connected_at_startup h = true).
Proof.
  intros readahead n ns h Hclosed. cbn [notify_all fold_left].
  destruct (notify_closed readahead n h Hclosed) as [Hz1 Hc1].
  destruct (notify_all_closed readahead ns (notify readahead n h) Hz1)
    as [Hz2 Hc2].
  split; [exact Hz2|].
  unfold device_connected_at_startup. intros H. apply Hc1, Hc2, H.
Qed.

(** A drive that mounts 100 ms after the deadline, then once more. *)
Lemma startup_window_closes_for_good_witness :
  device_connected_at_startup
    (notify_all false
       [mkNotice 3600 3601 FR_OK HOST_USER_CLASS_ACTIVE;
        mkNotice 10 11 FR_OK HOST_USER_CLASS_ACTIVE]
       (mkHost APPLICATION_START 3500 false usbh_power_cycle.init))
  = false.
Proof.
  destruct (device_connected_at_startup
              (notify_all false
                 [mkNotice 3600 3601 FR_OK HOST_USER_CLASS_ACTIVE;
                  mkNotice 10 11 FR_OK HOST_USER_CLASS_ACTIVE]
                 (mkHost APPLICATION_START 3500 false
                    usbh_power_cycle.init))) eqn:E; [|reflexivity].
  apply (proj2 (startup_window_closes_for_good false
                  (mkNotice 3600 3601 FR_OK HOST_USER_CLASS_ACTIVE)
                  [mkNotice 10 11 FR_OK HOST_USER_CLASS_ACTIVE]
                  (mkHost APPLICATION_START 3500 false
                     usbh_power_cycle.init)
                  ltac:(right; cbn; lia))) in E.
  discriminate E.
Defined.

(** X21. A drive found mounted within 3000 ms of
    [MX_USB_HOST_Init] raises [connected_at_startup], as long as the
    deadline, start plus 3000, does not wrap around 2^32. When it does wrap
    (the counter is within 3000 ms of its maximum at start), a call that
    still reads the clock before the wrap-around takes the window for over:
    the flag is not raised and the deadline is zeroed. *)
Theorem startup_window_after_init :
  forall (xbuddy readahead : bool) (t0 : Z) (ok1 ok2 ok3 : bool)
         (h0 : Host) (n : Notice),
    0 <= t0 < 2 ^ 32 ->
    let h := fst (MX_USB_HOST_Init xbuddy t0 ok1 ok2 ok3 h0) in
    (t0 + 3000 < 2 ^ 32 ->
     one_click_print_timeout h = t0 + 3000
     /\ (id n = HOST_USER_CLASS_ACTIVE -> mount n = FR_OK ->
         ticks1 n < t0 + 3000 -> ticks2 n < t0 + 3000 ->
         device_connected_at_startup (notify readahead n h) = true))
    /\ (2 ^ 32 <= t0 + 3000 ->
        one_click_print_timeout h = t0 + 3000 - 2 ^ 32
        /\ (t0 <= ticks1 n ->
            one_click_print_timeout (notify readahead n h) = 0
            /\ (device_connected_at_startup (notify readahead n h) = true ->
                device_connected_at_startup h0 = true))).
Proof.
  intros xbuddy readahead t0 ok1 ok2 ok3 h0 n Ht0 h.
  assert (one_click_print_timeout h = wrap32 (t0 + 3000)) as Hdl
      by reflexivity.
  assert (connected_at_startup h = connected_at_startup h0) as Hcn
      by reflexivity.
  split.
  - intros Hfit.
    assert (wrap32 (t0 + 3000) = t0 + 3000) as Hw
        by (unfold wrap32; apply Z.mod_small; lia).
    rewrite Hw in Hdl. split; [exact Hdl|].
    intros Hid Hm H1 H2.
    unfold device_connected_at_startup, notify.
    rewrite (proj2 (flag_after_notice readahead (ticks1 n) (ticks2 n)
                      (mount n) (id n) h)).
    rewrite Hid, Hm, Hdl.
    replace (0 <? t0 + 3000) with true by (symmetry; apply Z.ltb_lt; lia).
    replace (t0 + 3000 <=? ticks1 n) with false
      by (symmetry; apply Z.leb_gt; lia).
    cbn [andb].
    replace (0 <? t0 + 3000) with true by (symmetry; apply Z.ltb_lt; lia).
    replace (ticks2 n <? t0 + 3000) with true
      by (symmetry; apply Z.ltb_lt; lia).
    reflexivity.
  - intros Hwrap.
    assert (wrap32 (t0 + 3000) = t0 + 3000 - 2 ^ 32) as Hw.
    { unfold wrap32. symmetry.
      apply (Z.mod_unique_pos _ _ 1); lia. }
    rewrite Hw in Hdl. split; [exact Hdl|].
    intros Hbefore.
    destruct (notify_closed readahead n h) as [Hz Hc].
    { rewrite Hdl.
      destruct (Z.eq_dec (t0 + 3000 - 2 ^ 32) 0) as [E|E];
        [left; exact E|right; lia]. }
    split; [exact Hz|].
    unfold device_connected_at_startup. rewrite <- Hcn. exact Hc.
Qed.

Lemma startup_window_after_init_witness :
  device_connected_at_startup
    (notify true (mkNotice 2500 2501 FR_OK HOST_USER_CLASS_ACTIVE)
       (fst (MX_USB_HOST_Init true 1000 true true true boot))) = true.
Proof.
  refine (proj2 (proj1 (startup_window_after_init true true 1000 true true
                          true boot
                          (mkNotice 2500 2501 FR_OK HOST_USER_CLASS_ACTIVE)
                          _) _) _ _ _ _);
    try reflexivity.
  split; [discriminate|reflexivity].
Defined.

(** X22. Only a drive that mounts ends a power cycle early. A call of
    [USBH_UserProcess] leaves the supervisor as it is unless it reports an
    active class whose drive mounted while the supervisor is in phase
    power_on with the print paused; that call clears the pause, returns the
    supervisor to idle and asks for the print to be resumed. A failed
    mount reports the error and touches nothing else. *)
Theorem only_a_mounted_drive_resumes :
  forall (readahead : bool) (t1 t2 : Z) (m : FRESULT) (i : HostUser)
         (h h' : Host) (fx : list HostEffect),
    USBH_UserProcess readahead t1 t2 m i h = (h', fx) ->
    let waiting :=
      usbh_power_cycle.Phase_eqb
        (usbh_power_cycle.phase (power_cycle h)) usbh_power_cycle.power_on
      && usbh_power_cycle.printing_paused (power_cycle h) in
    (i = HOST_USER_CLASS_ACTIVE -> m = FR_OK -> waiting = true ->
     usbh_power_cycle.phase (power_cycle h') = usbh_power_cycle.idle
     /\ usbh_power_cycle.printing_paused (power_cycle h') = false
     /\ usbh_power_cycle.restart_timer (power_cycle h') = None
     /\ In (supervisor usbh_power_cycle.print_resume) fx)
    /\ (i <> HOST_USER_CLASS_ACTIVE \/ m <> FR_OK \/ waiting = false ->
        power_cycle h' = power_cycle h
        /\ forall x, ~ In (supervisor x) fx)
    /\ (i = HOST_USER_CLASS_ACTIVE -> m = FR_error ->
        fx = [f_mount true; media_set_error_MOUNT]).
Proof.
  intros readahead t1 t2 m i [ap dl cn [ph pp tm mi ci]] h' fx Hcall.
  cbv zeta. cbn [power_cycle usbh_power_cycle.phase
                 usbh_power_cycle.printing_paused].
  split; [|split].
  - intros -> -> Hw. apply andb_true_iff in Hw. destruct Hw as [Hph Hpp].
    destruct ph; try discriminate. subst pp.
    destruct mi, readahead; cbn in Hcall; inversion Hcall; subst; cbn;
      repeat split; auto 10.
  - intros Hno.
    destruct i, m, ph, pp, mi, readahead; cbn in Hcall;
      inversion Hcall; subst; cbn in Hno |- *;
      first
        [ exfalso; destruct Hno as [Hno|[Hno|Hno]];
          first [apply Hno; reflexivity | discriminate Hno]
        | split;
          [ reflexivity
          | intros x Hin;
            repeat (destruct Hin as [Hin|Hin]; [discriminate Hin|]);
            exact Hin ] ].
  - intros -> ->. destruct readahead; cbn in Hcall;
      inversion Hcall; reflexivity.
Qed.

Lemma only_a_mounted_drive_resumes_witness :
  USBH_UserProcess true 9000 9001 FR_OK HOST_USER_CLASS_ACTIVE
    (mkHost APPLICATION_START 0 false
       (usbh_power_cycle.mkState usbh_power_cycle.power_on true
          (Some 5000) false false))
  = (mkHost APPLICATION_READY 0 false
       (usbh_power_cycle.mkState usbh_power_cycle.idle false None true
          false),
     [f_mount true; media_set_inserted; readahead_enable;
      supervisor usbh_power_cycle.xTimerStop;
      supervisor usbh_power_cycle.marlin_client_init;
      supervisor usbh_power_cycle.print_resume])
  /\ In (supervisor usbh_power_cycle.print_resume)
       [f_mount true; media_set_inserted; readahead_enable;
        supervisor usbh_power_cycle.xTimerStop;
        supervisor usbh_power_cycle.marlin_client_init;
        supervisor usbh_power_cycle.print_resume].
Proof.
  split; [reflexivity|].
  exact (proj2 (proj2 (proj2
           (proj1 (only_a_mounted_drive_resumes true 9000 9001 FR_OK
                     HOST_USER_CLASS_ACTIVE
                     (mkHost APPLICATION_START 0 false
                        (usbh_power_cycle.mkState usbh_power_cycle.power_on
                           true (Some 5000) false false))
                     _ _ eq_refl) eq_refl eq_refl eq_refl)))).
Defined.

End HostFacts.
